(** * The testify suite runner ([suite.Run]) and its method filter

    A shallow embedding of [suite.go]: the [Suite] context holder ([T],
    [SetT]), [methodFilter] and [Run], together with the parts of Go that
    [Run] leans on:
    - control: [defer], [runtime.Goexit], [panic], [os.Exit];
    - [testing]: [t.Run] and [t.Fatalf], which [Run] calls, and [Log],
      [Fail], [FailNow] and [SkipNow], which suite code calls on the handle
      it gets from [suite.T()]; [FailNow] and [SkipNow] stop the calling
      goroutine by [runtime.Goexit];
    - [reflect]: the method list of the suite type and the name of its
      struct;
    - [regexp]: [MatchString], through an interface and one
      implementation of it.

    A run is a function from the suite value to the list of events it
    logs, the suite value it leaves and the way it ends.  The suite value
    is the only mutable state: the field [t] of the embedded [Suite] and the
    fields of the struct that embeds it. *)

From Stdlib Require Import List String Ascii Bool Arith ZArith Lia.
Import ListNotations.
Local Open Scope string_scope.
Local Open Scope list_scope.

Set Implicit Arguments.

(** ** regexp *)

(** [regexp.MatchString] compiles its pattern on every call and reports the
    compilation error, if any, as its second result. *)
Module regexp.

(** The package as [suite.go] uses it: [Compile], the match test of a
    compiled expression, and the two facts about the syntax that
    [methodFilter] relies on.  [^Test] finds a match exactly in the strings
    that begin with [Test]; the empty pattern finds one in every string. *)
Class Lib := {
  Regexp : Type;
  Compile : string -> Regexp + string;
  Match : Regexp -> string -> bool;
  Compile_Test : exists re, Compile "^Test" = inl re /\
                            forall s, Match re s = prefix "Test" s;
  Compile_empty : exists re, Compile "" = inl re /\
                             forall s, Match re s = true
}.

(** func MatchString(pattern string, s string) (matched bool, err error) *)
Definition MatchString `{Lib} (pattern s : string) : bool * option string :=
  match Compile pattern with
  | inr err => (false, Some err)
  | inl re => (Match re s, None)
  end.

End regexp.

(** *** A fragment of the RE2 syntax

    One implementation of [regexp.Lib], used to run the suites of the
    repository's tests: literals, [.], [^], [$], grouping, [|], and the
    postfix operators [*], [+] and [?], over bytes.  Character classes,
    counted repetition, flags and the backslash classes are outside the
    fragment and are reported as errors. *)
Module re2.

Inductive regex :=
| Eps
| Chr (c : ascii)
| AnyChar
| Bol
| Eol
| Cat (r1 r2 : regex)
| Alt (r1 r2 : regex)
| Star (r : regex).

Definition is_punct (c : ascii) : bool :=
  existsb (Ascii.eqb c)
    (list_ascii_of_string "\.+*?()|[]{}^$-/").

(** The expression being assembled while scanning left to right: the
    alternatives already closed by [|], the concatenation so far, and the
    last atom (with a flag telling that it already carries a repetition
    operator). *)
Record acc := mkAcc {
  alts : option regex;
  cur : regex;
  last : option (regex * bool)
}.

Definition flush (a : acc) : regex :=
  match last a with
  | None => cur a
  | Some (r, _) => Cat (cur a) r
  end.

Definition close (a : acc) : regex :=
  match alts a with
  | None => flush a
  | Some l => Alt l (flush a)
  end.

Definition push (a : acc) (r : regex) : acc :=
  mkAcc (alts a) (flush a) (Some (r, false)).

Definition repeat (a : acc) (op : regex -> regex) (sym : string)
  : acc + string :=
  match last a with
  | None => inr ("missing argument to repetition operator: " ++ sym)%string
  | Some (r, true) => inr ("invalid nested repetition operator")
  | Some (r, false) => inl (mkAcc (alts a) (cur a) (Some (op r, true)))
  end.

Definition empty_acc := mkAcc None Eps None.

(** Parses up to the end of the pattern or to an unmatched [)], which is
    left in the remainder for the caller. *)
Fixpoint parse (fuel : nat) (a : acc) (s : list ascii)
  : (regex * list ascii) + string :=
  match fuel with
  | O => inr "pattern too long"
  | S fuel' =>
    match s with
    | [] => inl (close a, [])
    | c :: s' =>
      if Ascii.eqb c ")" then inl (close a, s)
      else if Ascii.eqb c "(" then
        match parse fuel' empty_acc s' with
        | inr e => inr e
        | inl (r, rest) =>
          match rest with
          | [] => inr "missing closing )"
          | _ :: rest' => parse fuel' (push a r) rest'
          end
        end
      else if Ascii.eqb c "|" then
        parse fuel' (mkAcc (Some (close a)) Eps None) s'
      else if Ascii.eqb c "*" then
        match repeat a Star "*" with
        | inr e => inr e | inl a' => parse fuel' a' s' end
      else if Ascii.eqb c "+" then
        match repeat a (fun r => Cat r (Star r)) "+" with
        | inr e => inr e | inl a' => parse fuel' a' s' end
      else if Ascii.eqb c "?" then
        match repeat a (fun r => Alt r Eps) "?" with
        | inr e => inr e | inl a' => parse fuel' a' s' end
      else if Ascii.eqb c "^" then parse fuel' (push a Bol) s'
      else if Ascii.eqb c "$" then parse fuel' (push a Eol) s'
      else if Ascii.eqb c "." then parse fuel' (push a AnyChar) s'
      else if Ascii.eqb c "\" then
        match s' with
        | [] => inr "trailing backslash at end of expression"
        | d :: s'' =>
          if is_punct d then parse fuel' (push a (Chr d)) s''
          else inr "unsupported escape sequence"
        end
      else if Ascii.eqb c "[" then inr "unsupported character class"
      else if Ascii.eqb c "{" then inr "unsupported repetition count"
      else parse fuel' (push a (Chr c)) s'
    end
  end.

Definition compile (pattern : string) : regex + string :=
  let s := list_ascii_of_string pattern in
  match parse (S (S (List.length s))) empty_acc s with
  | inr e => inr e
  | inl (r, []) => inl r
  | inl (_, _ :: _) => inr "unexpected )"
  end.

(** Backtracking matcher in continuation-passing style.  [bol] tells that
    the position is the beginning of the text. *)
Fixpoint m (r : regex) (bol : bool) (s : list ascii)
           (k : bool -> list ascii -> bool) {struct r} : bool :=
  match r with
  | Eps => k bol s
  | Chr c =>
    match s with
    | a :: s' => Ascii.eqb a c && k false s'
    | [] => false
    end
  | AnyChar =>
    match s with
    | a :: s' => negb (Ascii.eqb a "010") && k false s'
    | [] => false
    end
  | Bol => bol && k bol s
  | Eol => match s with [] => k bol s | _ :: _ => false end
  | Cat r1 r2 => m r1 bol s (fun b s' => m r2 b s' k)
  | Alt r1 r2 => m r1 bol s k || m r2 bol s k
  | Star r1 =>
    (fix loop (n : nat) (b : bool) (s : list ascii) : bool :=
       k b s ||
       match n with
       | O => false
       | S n' =>
         m r1 b s (fun b' s' => (List.length s' <? List.length s)%nat && loop n' b' s')
       end) (List.length s) bol s
  end.

(** A match may begin at any position of the text. *)
Fixpoint search (r : regex) (bol : bool) (s : list ascii) : bool :=
  m r bol s (fun _ _ => true) ||
  match s with
  | [] => false
  | _ :: s' => search r false s'
  end.

Definition matches (r : regex) (s : string) : bool :=
  search r true (list_ascii_of_string s).

End re2.

(** ** Go: control, [testing], [reflect] *)

(** How a function call ends: it returns; the goroutine is being ended by
    [runtime.Goexit] (which is how [FailNow] and [SkipNow] stop a test); a
    panic is unwinding the goroutine; or the process has ended ([os.Exit],
    or a panic that nothing recovered, status 2). *)
Inductive ctl := Return | Goexit | Panic | Exit (status : Z).

Module testing.

(** A [*testing.T]: the handle the test binary passes to a test function,
    or the one [parent.Run(name, f)] creates for the sub-test. *)
Inductive T :=
| Top (name : string)
| Sub (parent : T) (name : string).

Fixpoint eqb (a b : T) : bool :=
  match a, b with
  | Top n, Top n' => String.eqb n n'
  | Sub p n, Sub p' n' => eqb p p' && String.eqb n n'
  | _, _ => false
  end.

(** What suite code does with the handle it gets from [suite.T()]. *)
Inductive op :=
| Log (msg : string)
| Fail
| FailNow
| SkipNow
| panic (msg : string).

End testing.

(** type Suite struct { t *testing.T } *)
Record Suite := mkSuite { t : option testing.T }.

(** func (suite *Suite) T() *testing.T *)
Definition T (suite : Suite) : option testing.T := t suite.

(** func (suite *Suite) SetT(t *testing.T) *)
Definition SetT (suite : Suite) (t : testing.T) : Suite := mkSuite (Some t).

(** The user code [Run] calls into. *)
Inductive call :=
| SetupSuite_
| TearDownSuite_
| SetupTest_
| TearDownTest_
| BeforeTest_ (suiteName testName : string)
| AfterTest_ (suiteName testName : string)
| Method_ (name : string).

(** What can be observed of a run. *)
Inductive event :=
| E_SetT (t : testing.T)
| E_Call (cur : option testing.T) (c : call)
    (* user code entered; [cur] is what [suite.T()] returns at that moment *)
| E_Run (parent : testing.T) (name : string)
    (* [parent.Run(name, f)]: the sub-test is registered and [f] started *)
| E_Log (t : testing.T) (msg : string)
| E_Fail (t : testing.T)
| E_Skip (t : testing.T)
| E_Fatalf (t : testing.T) (msg : string)
| E_Stderr (msg : string)
| E_Exit (status : Z).

Section Suites.

(** The fields of the struct that embeds [Suite]. *)
Variable U : Type.

(** A suite value: the embedded [Suite] and the struct's own fields. *)
Record object := mkObject { base : Suite; fields : U }.

(** A piece of suite code: it updates the struct's fields and uses the
    handle [suite.T()] through a sequence of [testing.op]; what follows a
    [FailNow], a [SkipNow] or a [panic] is not executed. *)
Definition code := U -> U * list testing.op.

(** reflect.Method, as far as [Run] looks at it: [NumIn] counts the
    receiver, and [Func] is the method applied to the receiver alone,
    which [Run] calls only when [NumIn] is 1. *)
Record Method := mkMethod {
  Name : string;
  NumIn : nat;
  Func : code
}.

(** A suite type seen through [reflect] and through the type assertions
    of [Run]: the name of the struct, its exported methods in the order
    [reflect] lists them, and the six optional interfaces. *)
Record TestingSuite := mkTestingSuite {
  ElemName : string;
  Methods : list Method;
  SetupSuite : option code;
  TearDownSuite : option code;
  SetupTest : option code;
  TearDownTest : option code;
  BeforeTest : option (string -> string -> code);
  AfterTest : option (string -> string -> code)
}.

(** A computation on the suite value that logs events and ends in a [ctl]. *)
Definition go := object -> list event * object * ctl.

Definition skip : go := fun o => ([], o, Return).

Definition emit (e : event) : go := fun o => ([e], o, Return).

(** [a; b]: [b] runs if [a] returns. *)
Definition seq (a b : go) : go := fun o =>
  let '(e1, o1, c1) := a o in
  match c1 with
  | Return => let '(e2, o2, c2) := b o1 in (e1 ++ e2, o2, c2)
  | _ => (e1, o1, c1)
  end.

Notation "a ;; b" := (seq a b) (at level 61, right associativity).

(** [defer d] followed by [body]: [d] runs when [body] returns, and also
    while a Goexit or a panic unwinds it, but not when the process exits.
    If [d] itself does not return, its way of ending replaces that of
    [body] (a Goexit inside [d] ends the goroutine, and with it a panic
    that was unwinding). *)
Definition defer (d body : go) : go := fun o =>
  let '(e1, o1, c1) := body o in
  match c1 with
  | Exit n => (e1, o1, Exit n)
  | _ =>
    let '(e2, o2, c2) := d o1 in
    (e1 ++ e2, o2, match c2 with Return => c1 | _ => c2 end)
  end.

(** for _, x := range l { body } *)
Fixpoint for_each (A : Type) (l : list A) (body : A -> go) : go :=
  match l with
  | [] => skip
  | x :: l' => body x ;; for_each l' body
  end.

(** [suite.SetT(t)] on the suite value. *)
Definition setT (t : testing.T) : go := fun o =>
  ([E_SetT t], mkObject (SetT (base o) t) (fields o), Return).

(** The calls a piece of suite code makes on the handle [cur]. *)
Fixpoint run_ops (cur : option testing.T) (ops : list testing.op)
  : list event * ctl :=
  match ops with
  | [] => ([], Return)
  | x :: ops' =>
    match cur with
    | None => ([], Panic)
    | Some h =>
      match x with
      | testing.Log msg =>
        let '(e, c) := run_ops cur ops' in (E_Log h msg :: e, c)
      | testing.Fail =>
        let '(e, c) := run_ops cur ops' in (E_Fail h :: e, c)
      | testing.FailNow => ([E_Fail h], Goexit)
      | testing.SkipNow => ([E_Skip h], Goexit)
      | testing.panic _ => ([], Panic)
      end
    end
  end.

(** A call into the suite code [f]: the event tells what [suite.T()] is on
    entry; the code updates the fields and acts on that handle. *)
Definition invoke (c : call) (f : code) : go := fun o =>
  let '(u, ops) := f (fields o) in
  let '(e, k) := run_ops (T (base o)) ops in
  (E_Call (T (base o)) c :: e, mkObject (base o) u, k).

(** if x, ok := suite.(I); ok { x.M() } *)
Definition if_implements (A : Type) (h : option A) (k : A -> go) : go :=
  match h with
  | Some f => k f
  | None => skip
  end.

(** [t.Fatalf]: log, mark failed, Goexit. *)
Definition Fatalf (t : testing.T) (msg : string) : go := fun o =>
  ([E_Fatalf t msg], o, Goexit).

(** [parent.Run(name, f)], with no [-test.run] filter and no parallel
    sub-test: [f] runs on a goroutine of its own with a fresh handle and
    the caller waits for it.  A Goexit ends only the sub-test; a panic in
    it is not recovered and ends the process. *)
Definition t_Run (parent : testing.T) (name : string)
                 (f : testing.T -> go) : go := fun o =>
  let '(e, o', c) := f (testing.Sub parent name) o in
  (E_Run parent name :: e, o',
   match c with
   | Return | Goexit => Return
   | Panic => Exit 2
   | Exit n => Exit n
   end).

(** [os.Exit(status)]: the process ends at once; deferred functions are
    not run. *)
Definition os_Exit (status : Z) : go := fun o =>
  ([E_Exit status], o, Exit status).

Context `{regexp.Lib}.

(** func methodFilter(name string) (bool, error); [matchMethod] is the
    value of the flag [-testify.m]. *)
Definition methodFilter (matchMethod name : string) : bool * option string :=
  let '(ok, _) := regexp.MatchString "^Test" name in
  if negb ok then (false, None)
  else regexp.MatchString matchMethod name.

Definition newline : string := String "010" EmptyString.

(** The function literal [Run] passes to [suiteT.Run]. *)
Definition subtest (suiteT : testing.T) (suite : TestingSuite)
                   (method : Method) (testT : testing.T) : go :=
  setT testT ;;
  if_implements (SetupTest suite) (invoke SetupTest_) ;;
  if_implements (BeforeTest suite) (fun f =>
    invoke (BeforeTest_ (ElemName suite) (Name method))
           (f (ElemName suite) (Name method))) ;;
  defer
    (if_implements (AfterTest suite) (fun f =>
       invoke (AfterTest_ (ElemName suite) (Name method))
              (f (ElemName suite) (Name method))) ;;
     if_implements (TearDownTest suite) (invoke TearDownTest_) ;;
     setT suiteT)
    (if Nat.eqb (NumIn method) 1
     then invoke (Method_ (Name method)) (Func method)
     else Fatalf testT
            ("suite: too many arguments to method " ++ Name method)%string).

(** func Run(suiteT *testing.T, suite TestingSuite) *)
Definition Run (matchMethod : string) (suiteT : testing.T)
               (suite : TestingSuite) : go :=
  setT suiteT ;;
  if_implements (SetupSuite suite) (invoke SetupSuite_) ;;
  defer
    (setT suiteT ;;
     if_implements (TearDownSuite suite) (invoke TearDownSuite_))
    (for_each (Methods suite) (fun method =>
       match methodFilter matchMethod (Name method) with
       | (_, Some err) =>
         emit (E_Stderr ("testify: invalid regexp for -m: "
                         ++ err ++ newline)%string) ;;
         os_Exit 1
       | (true, None) =>
         t_Run suiteT (Name method) (subtest suiteT suite method) ;;
         setT suiteT
       | (false, None) => skip
       end)).

End Suites.

Notation "a ;; b" := (seq a b) (at level 61, right associativity).

Arguments skip {U}.
Arguments emit {U} e.
Arguments setT {U} t.
Arguments Fatalf {U} t msg.
Arguments os_Exit {U} status.

(** ** The suites of the repository's tests *)

Module suite_test.

(** assert.Equal / assert.NotEqual on integers: a failed assertion logs
    and marks the test failed, and the test goes on. *)
Definition assert_Equal (expected actual : Z) : list testing.op :=
  if Z.eqb expected actual then []
  else [testing.Log "Not equal"; testing.Fail].

Definition assert_NotEqual (expected actual : Z) : list testing.op :=
  if Z.eqb expected actual then [testing.Log "Should not be equal"; testing.Fail]
  else [].

(** The fields of [SuiteTester] ([TimeBefore] and [TimeAfter], which
    record [time.Now()], are left out). *)
Record SuiteTester := mkSuiteTester {
  SetupSuiteRunCount : Z;
  TearDownSuiteRunCount : Z;
  SetupTestRunCount : Z;
  TearDownTestRunCount : Z;
  TestOneRunCount : Z;
  TestTwoRunCount : Z;
  NonTestMethodRunCount : Z;
  SuiteNameBefore : list string;
  TestNameBefore : list string;
  SuiteNameAfter : list string;
  TestNameAfter : list string
}.

Definition new_SuiteTester : SuiteTester :=
  mkSuiteTester 0 0 0 0 0 0 0 [] [] [] [].

Definition st_SetupSuite : code SuiteTester := fun s =>
  (mkSuiteTester (SetupSuiteRunCount s + 1) (TearDownSuiteRunCount s)
     (SetupTestRunCount s) (TearDownTestRunCount s) (TestOneRunCount s)
     (TestTwoRunCount s) (NonTestMethodRunCount s) (SuiteNameBefore s)
     (TestNameBefore s) (SuiteNameAfter s) (TestNameAfter s), []).

Definition st_BeforeTest (suiteName testName : string) : code SuiteTester :=
  fun s =>
  (mkSuiteTester (SetupSuiteRunCount s) (TearDownSuiteRunCount s)
     (SetupTestRunCount s) (TearDownTestRunCount s) (TestOneRunCount s)
     (TestTwoRunCount s) (NonTestMethodRunCount s)
     (SuiteNameBefore s ++ [suiteName]) (TestNameBefore s ++ [testName])
     (SuiteNameAfter s) (TestNameAfter s), []).

Definition st_AfterTest (suiteName testName : string) : code SuiteTester :=
  fun s =>
  (mkSuiteTester (SetupSuiteRunCount s) (TearDownSuiteRunCount s)
     (SetupTestRunCount s) (TearDownTestRunCount s) (TestOneRunCount s)
     (TestTwoRunCount s) (NonTestMethodRunCount s)
     (SuiteNameBefore s) (TestNameBefore s)
     (SuiteNameAfter s ++ [suiteName]) (TestNameAfter s ++ [testName]), []).

Definition st_TearDownSuite : code SuiteTester := fun s =>
  (mkSuiteTester (SetupSuiteRunCount s) (TearDownSuiteRunCount s + 1)
     (SetupTestRunCount s) (TearDownTestRunCount s) (TestOneRunCount s)
     (TestTwoRunCount s) (NonTestMethodRunCount s) (SuiteNameBefore s)
     (TestNameBefore s) (SuiteNameAfter s) (TestNameAfter s), []).

Definition st_SetupTest : code SuiteTester := fun s =>
  (mkSuiteTester (SetupSuiteRunCount s) (TearDownSuiteRunCount s)
     (SetupTestRunCount s + 1) (TearDownTestRunCount s) (TestOneRunCount s)
     (TestTwoRunCount s) (NonTestMethodRunCount s) (SuiteNameBefore s)
     (TestNameBefore s) (SuiteNameAfter s) (TestNameAfter s), []).

Definition st_TearDownTest : code SuiteTester := fun s =>
  (mkSuiteTester (SetupSuiteRunCount s) (TearDownSuiteRunCount s)
     (SetupTestRunCount s) (TearDownTestRunCount s + 1) (TestOneRunCount s)
     (TestTwoRunCount s) (NonTestMethodRunCount s) (SuiteNameBefore s)
     (TestNameBefore s) (SuiteNameAfter s) (TestNameAfter s), []).

Definition st_TestOne : code SuiteTester := fun s =>
  let beforeCount := TestOneRunCount s in
  let s' :=
    mkSuiteTester (SetupSuiteRunCount s) (TearDownSuiteRunCount s)
      (SetupTestRunCount s) (TearDownTestRunCount s) (TestOneRunCount s + 1)
      (TestTwoRunCount s) (NonTestMethodRunCount s) (SuiteNameBefore s)
      (TestNameBefore s) (SuiteNameAfter s) (TestNameAfter s) in
  (s', assert_Equal (TestOneRunCount s') (beforeCount + 1)
       ++ assert_Equal (TestOneRunCount s') (beforeCount + 1)).

Definition st_TestTwo : code SuiteTester := fun s =>
  let beforeCount := TestTwoRunCount s in
  let s' :=
    mkSuiteTester (SetupSuiteRunCount s) (TearDownSuiteRunCount s)
      (SetupTestRunCount s) (TearDownTestRunCount s) (TestOneRunCount s)
      (TestTwoRunCount s + 1) (NonTestMethodRunCount s) (SuiteNameBefore s)
      (TestNameBefore s) (SuiteNameAfter s) (TestNameAfter s) in
  (s', assert_NotEqual (TestTwoRunCount s') beforeCount).

(** suite.T().Skip() *)
Definition st_TestSkip : code SuiteTester := fun s => (s, [testing.SkipNow]).

Definition st_NonTestMethod : code SuiteTester := fun s =>
  (mkSuiteTester (SetupSuiteRunCount s) (TearDownSuiteRunCount s)
     (SetupTestRunCount s) (TearDownTestRunCount s) (TestOneRunCount s)
     (TestTwoRunCount s) (NonTestMethodRunCount s + 1) (SuiteNameBefore s)
     (TestNameBefore s) (SuiteNameAfter s) (TestNameAfter s), []).

(** A method that takes arguments cannot be applied to the receiver
    alone; [Run] never calls its [Func]. *)
Definition not_callable {U : Type} : code U := fun s => (s, []).

(** The exported methods of [*SuiteTester], those promoted from [Suite]
    included, in the order of [reflect] (sorted by name). *)
Definition SuiteTester_suite : TestingSuite SuiteTester :=
  mkTestingSuite "SuiteTester"
    [ mkMethod "AfterTest" 3 not_callable;
      mkMethod "BeforeTest" 3 not_callable;
      mkMethod "NonTestMethod" 1 st_NonTestMethod;
      mkMethod "SetT" 2 not_callable;
      mkMethod "SetupSuite" 1 st_SetupSuite;
      mkMethod "SetupTest" 1 st_SetupTest;
      mkMethod "T" 1 not_callable;
      mkMethod "TearDownSuite" 1 st_TearDownSuite;
      mkMethod "TearDownTest" 1 st_TearDownTest;
      mkMethod "TestOne" 1 st_TestOne;
      mkMethod "TestSkip" 1 st_TestSkip;
      mkMethod "TestTwo" 1 st_TestTwo ]
    (Some st_SetupSuite) (Some st_TearDownSuite)
    (Some st_SetupTest) (Some st_TearDownTest)
    (Some st_BeforeTest) (Some st_AfterTest).

(** [SuiteSkipTester]: its [SetupSuite] counts and then skips. *)
Record SuiteSkipTester := mkSuiteSkipTester {
  skip_SetupSuiteRunCount : Z;
  skip_TearDownSuiteRunCount : Z
}.

Definition sk_SetupSuite : code SuiteSkipTester := fun s =>
  (mkSuiteSkipTester (skip_SetupSuiteRunCount s + 1)
                     (skip_TearDownSuiteRunCount s),
   [testing.SkipNow]).

Definition sk_TearDownSuite : code SuiteSkipTester := fun s =>
  (mkSuiteSkipTester (skip_SetupSuiteRunCount s)
                     (skip_TearDownSuiteRunCount s + 1), []).

Definition SuiteSkipTester_suite : TestingSuite SuiteSkipTester :=
  mkTestingSuite "SuiteSkipTester"
    [ mkMethod "SetT" 2 not_callable;
      mkMethod "SetupSuite" 1 sk_SetupSuite;
      mkMethod "T" 1 not_callable;
      mkMethod "TearDownSuite" 1 sk_TearDownSuite ]
    (Some sk_SetupSuite) (Some sk_TearDownSuite) None None None None.

(** [SuiteWithBadSignature] *)
Definition bs_log : code unit := fun s => (s, [testing.Log "TESTLOGPASS"]).

Definition SuiteWithBadSignature_suite : TestingSuite unit :=
  mkTestingSuite "SuiteWithBadSignature"
    [ mkMethod "SetT" 2 not_callable;
      mkMethod "T" 1 not_callable;
      mkMethod "TestSomeOtherTestShouldRunAnyway" 1 bs_log;
      mkMethod "TestSomethingWithBadSignature" 2 not_callable ]
    None None None None None None.

(** [SuiteTester] without its three tests: only helpers and hooks. *)
Definition SuiteTester_helpers_only : TestingSuite SuiteTester :=
  mkTestingSuite "SuiteTester"
    [ mkMethod "AfterTest" 3 not_callable;
      mkMethod "BeforeTest" 3 not_callable;
      mkMethod "NonTestMethod" 1 st_NonTestMethod;
      mkMethod "SetT" 2 not_callable;
      mkMethod "SetupSuite" 1 st_SetupSuite;
      mkMethod "SetupTest" 1 st_SetupTest;
      mkMethod "T" 1 not_callable;
      mkMethod "TearDownSuite" 1 st_TearDownSuite;
      mkMethod "TearDownTest" 1 st_TearDownTest ]
    (Some st_SetupSuite) (Some st_TearDownSuite)
    (Some st_SetupTest) (Some st_TearDownTest)
    (Some st_BeforeTest) (Some st_AfterTest).

(** [SuiteSkipTester] with one test added. *)
Definition sk_TestOne : code SuiteSkipTester := fun s => (s, []).

Definition SuiteSkipTester_with_test : TestingSuite SuiteSkipTester :=
  mkTestingSuite "SuiteSkipTester"
    [ mkMethod "SetT" 2 not_callable;
      mkMethod "SetupSuite" 1 sk_SetupSuite;
      mkMethod "T" 1 not_callable;
      mkMethod "TearDownSuite" 1 sk_TearDownSuite;
      mkMethod "TestOne" 1 sk_TestOne ]
    (Some sk_SetupSuite) (Some sk_TearDownSuite) None None None None.

(** [SuiteLoggingTester]: one test that logs and passes, one that logs and
    fails. *)
Definition lg_TestLoggingPass : code unit := fun s =>
  (s, [testing.Log "TESTLOGPASS"]).

Definition lg_TestLoggingFail : code unit := fun s =>
  (s, [testing.Log "TESTLOGFAIL"; testing.Fail]).

Definition SuiteLoggingTester_suite : TestingSuite unit :=
  mkTestingSuite "SuiteLoggingTester"
    [ mkMethod "SetT" 2 not_callable;
      mkMethod "T" 1 not_callable;
      mkMethod "TestLoggingFail" 1 lg_TestLoggingFail;
      mkMethod "TestLoggingPass" 1 lg_TestLoggingPass ]
    None None None None None None.

(** Variants of [SuiteTester] that are not in the repository: its
    [SetupTest] skips after counting; its [BeforeTest] fails the test at
    once after recording the names; its [AfterTest] skips after recording
    them; its [TestOne] panics after counting. *)
Definition st_SetupTest_skips : code SuiteTester := fun s =>
  (fst (st_SetupTest s), [testing.SkipNow]).

Definition st_BeforeTest_fails (suiteName testName : string)
  : code SuiteTester := fun s =>
  (fst (st_BeforeTest suiteName testName s), [testing.FailNow]).

Definition st_AfterTest_skips (suiteName testName : string)
  : code SuiteTester := fun s =>
  (fst (st_AfterTest suiteName testName s), [testing.SkipNow]).

Definition st_TestOne_panics : code SuiteTester := fun s =>
  (fst (st_TestOne s), [testing.panic "TestOne"]).

Definition SuiteTester_SetupTest_skips : TestingSuite SuiteTester :=
  mkTestingSuite "SuiteTester" (Methods SuiteTester_suite)
    (Some st_SetupSuite) (Some st_TearDownSuite)
    (Some st_SetupTest_skips) (Some st_TearDownTest)
    (Some st_BeforeTest) (Some st_AfterTest).

Definition SuiteTester_BeforeTest_fails : TestingSuite SuiteTester :=
  mkTestingSuite "SuiteTester" (Methods SuiteTester_suite)
    (Some st_SetupSuite) (Some st_TearDownSuite)
    (Some st_SetupTest) (Some st_TearDownTest)
    (Some st_BeforeTest_fails) (Some st_AfterTest).

Definition SuiteTester_AfterTest_skips : TestingSuite SuiteTester :=
  mkTestingSuite "SuiteTester" (Methods SuiteTester_suite)
    (Some st_SetupSuite) (Some st_TearDownSuite)
    (Some st_SetupTest) (Some st_TearDownTest)
    (Some st_BeforeTest) (Some st_AfterTest_skips).

Definition SuiteTester_TestOne_panics : TestingSuite SuiteTester :=
  mkTestingSuite "SuiteTester"
    [ mkMethod "AfterTest" 3 not_callable;
      mkMethod "BeforeTest" 3 not_callable;
      mkMethod "NonTestMethod" 1 st_NonTestMethod;
      mkMethod "SetT" 2 not_callable;
      mkMethod "SetupSuite" 1 st_SetupSuite;
      mkMethod "SetupTest" 1 st_SetupTest;
      mkMethod "T" 1 not_callable;
      mkMethod "TearDownSuite" 1 st_TearDownSuite;
      mkMethod "TearDownTest" 1 st_TearDownTest;
      mkMethod "TestOne" 1 st_TestOne_panics;
      mkMethod "TestSkip" 1 st_TestSkip;
      mkMethod "TestTwo" 1 st_TestTwo ]
    (Some st_SetupSuite) (Some st_TearDownSuite)
    (Some st_SetupTest) (Some st_TearDownTest)
    (Some st_BeforeTest) (Some st_AfterTest).

(** The suite value [new(S)] and the handle of the enclosing test. *)
Definition new (U : Type) (u : U) : object U := mkObject (mkSuite None) u.

Definition t0 : testing.T := testing.Top "TestRunSuite".

End suite_test.

(** ** Reading a run *)

Section Reading.

Variable U : Type.

Definition trace (r : list event * object U * ctl) : list event := fst (fst r).
Definition final (r : list event * object U * ctl) : object U := snd (fst r).
Definition outcome (r : list event * object U * ctl) : ctl := snd r.


(** The sub-tests started, in order. *)
Fixpoint runs (tr : list event) : list string :=
  match tr with
  | [] => []
  | E_Run _ name :: tr' => name :: runs tr'
  | _ :: tr' => runs tr'
  end.

(** How many times the handle was set. *)
Definition count_SetT (tr : list event) : nat :=
  List.length (filter (fun e => match e with E_SetT _ => true | _ => false end)
                      tr).

(** How many times a piece of user code was entered. *)
Definition is_call (p : call -> bool) (e : event) : bool :=
  match e with
  | E_Call _ c => p c
  | _ => false
  end.

Definition is_SetupSuite (c : call) : bool :=
  match c with SetupSuite_ => true | _ => false end.

Definition is_TearDownSuite (c : call) : bool :=
  match c with TearDownSuite_ => true | _ => false end.

Definition is_SetupTest (c : call) : bool :=
  match c with SetupTest_ => true | _ => false end.

Definition is_TearDownTest (c : call) : bool :=
  match c with TearDownTest_ => true | _ => false end.

Definition is_BeforeTest (c : call) : bool :=
  match c with BeforeTest_ _ _ => true | _ => false end.

Definition is_AfterTest (c : call) : bool :=
  match c with AfterTest_ _ _ => true | _ => false end.

Definition count (p : call -> bool) (tr : list event) : nat :=
  List.length (filter (is_call p) tr).

(** How a piece of suite code ends, given a handle that is not nil. *)
Fixpoint ends (ops : list testing.op) : ctl :=
  match ops with
  | [] => Return
  | testing.Log _ :: ops' | testing.Fail :: ops' => ends ops'
  | testing.FailNow :: _ | testing.SkipNow :: _ => Goexit
  | testing.panic _ :: _ => Panic
  end.

(** The code stops at a [SkipNow]. *)
Fixpoint skips (ops : list testing.op) : bool :=
  match ops with
  | testing.Log _ :: ops' | testing.Fail :: ops' => skips ops'
  | testing.SkipNow :: _ => true
  | _ => false
  end.

Definition returns (f : code U) : Prop :=
  forall u, ends (snd (f u)) = Return.

Definition never_panics (f : code U) : Prop :=
  forall u, ends (snd (f u)) <> Panic.

(** The four hooks around a test always return. *)
Definition test_hooks_return (suite : TestingSuite U) : Prop :=
  (forall f, SetupTest suite = Some f -> returns f) /\
  (forall f, TearDownTest suite = Some f -> returns f) /\
  (forall f a b, BeforeTest suite = Some f -> returns (f a b)) /\
  (forall f a b, AfterTest suite = Some f -> returns (f a b)).

Definition SetupSuite_returns (suite : TestingSuite U) : Prop :=
  forall f, SetupSuite suite = Some f -> returns f.

Definition TearDownSuite_returns (suite : TestingSuite U) : Prop :=
  forall f, TearDownSuite suite = Some f -> returns f.

(** None of the four hooks around a test panics. *)
Definition test_hooks_never_panic (suite : TestingSuite U) : Prop :=
  (forall f, SetupTest suite = Some f -> never_panics f) /\
  (forall f, TearDownTest suite = Some f -> never_panics f) /\
  (forall f a b, BeforeTest suite = Some f -> never_panics (f a b)) /\
  (forall f a b, AfterTest suite = Some f -> never_panics (f a b)).

(** Nothing that runs inside a sub-test panics. *)
Definition tests_never_panic (suite : TestingSuite U) : Prop :=
  test_hooks_never_panic suite /\
  forall m, In m (Methods suite) -> never_panics (Func m).

(** [[c]] when the hook is implemented. *)
Definition when_impl (A B : Type) (h : option A) (c : B) : list B :=
  match h with
  | Some _ => [c]
  | None => []
  end.

End Reading.

(** ** The notions of the statements and of the proofs *)

(** The events of [Run] itself: a trace without what the suite code did to
    its handle. *)
Definition own (tr : list event) : list event :=
  filter (fun e => match e with
                   | E_Log _ _ | E_Fail _ | E_Skip _ => false
                   | _ => true
                   end) tr.

(** The events of a piece of suite code on the handle [h]. *)
Fixpoint op_events (h : testing.T) (ops : list testing.op) : list event :=
  match ops with
  | [] => []
  | testing.Log msg :: ops' => E_Log h msg :: op_events h ops'
  | testing.Fail :: ops' => E_Fail h :: op_events h ops'
  | testing.FailNow :: _ => [E_Fail h]
  | testing.SkipNow :: _ => [E_Skip h]
  | testing.panic _ :: _ => []
  end.

(** The pattern [^Test], compiled. *)
Definition re_Test : re2.regex :=
  Eval cbv in match re2.compile "^Test" with inl r => r | inr _ => re2.Eps end.

Section Assertions.

Context {U : Type}.

Implicit Types (g : go U) (o : object U) (h : testing.T)
         (P : object U -> Prop) (E : event -> Prop)
         (Q : object U -> ctl -> Prop).

(** [hoare P g E Q]: from a suite value satisfying [P], every event of [g]
    satisfies [E], and the final suite value and the way [g] ends satisfy
    [Q]. *)
Definition hoare P g E Q : Prop :=
  forall o, P o ->
    Forall E (trace (g o)) /\ Q (final (g o)) (outcome (g o)).

Definition handle_is h o : Prop := T (base o) = Some h.

(** The events suite code can cause on the handle [h]. *)
Definition allows E h : Prop :=
  E (E_Fail h) /\ E (E_Skip h) /\ forall msg, E (E_Log h msg).

End Assertions.

Section Events.

Context {U : Type} `{regexp.Lib}.

Variables (matchMethod : string) (suiteT : testing.T)
          (suite : TestingSuite U).

Definition compiles (pattern : string) : Prop :=
  exists re, regexp.Compile pattern = inl re.

(** One turn of the loop of [Run]. *)
Definition iteration (method : Method U) : go U :=
  match methodFilter matchMethod (Name method) with
  | (_, Some err) =>
    seq (emit (E_Stderr ("testify: invalid regexp for -m: "
                         ++ err ++ newline)%string))
        (os_Exit 1)
  | (true, None) =>
    seq (t_Run suiteT (Name method) (subtest suiteT suite method))
        (setT suiteT)
  | (false, None) => skip
  end.

(** The events the sub-test of [m] can log. *)
Definition subtest_event (m : Method U) (e : event) : Prop :=
  let testT := testing.Sub suiteT (Name m) in
  match e with
  | E_SetT t => t = testT \/ t = suiteT
  | E_Call cur c =>
    cur = Some testT /\
    (c = SetupTest_ \/ c = TearDownTest_ \/
     c = BeforeTest_ (ElemName suite) (Name m) \/
     c = AfterTest_ (ElemName suite) (Name m) \/
     (c = Method_ (Name m) /\ NumIn m = 1))
  | E_Log t _ | E_Fail t | E_Skip t => t = testT
  | E_Fatalf t msg =>
    t = testT /\ NumIn m <> 1 /\
    msg = ("suite: too many arguments to method " ++ Name m)%string
  | E_Run _ _ | E_Stderr _ | E_Exit _ => False
  end.

(** How the sub-test of [m] can end: it leaves the handle set, it does
    not end the process by itself, and it panics only if a hook or the
    method does. *)
Definition subtest_post (m : Method U) (o : object U) (c : ctl) : Prop :=
  (handle_is suiteT o \/ handle_is (testing.Sub suiteT (Name m)) o) /\
  (forall n, c <> Exit n) /\
  (test_hooks_never_panic suite -> never_panics (Func m) -> c <> Panic).

(** The events one turn of the loop can log. *)
Definition iteration_event (m : Method U) (e : event) : Prop :=
  (methodFilter matchMethod (Name m) = (true, None) /\
   (subtest_event m e \/ e = E_Run suiteT (Name m) \/ e = E_SetT suiteT))
  \/
  (exists err,
      regexp.Compile matchMethod = inr err /\
      prefix "Test" (Name m) = true /\
      (e = E_Stderr ("testify: invalid regexp for -m: "
                     ++ err ++ newline)%string
       \/ e = E_Exit 1)).

Definition loop_event (l : list (Method U)) (e : event) : Prop :=
  exists m, In m l /\ iteration_event m e.

(** How the loop of [Run] over the methods [l] can end: normally, with
    the handle back at [suiteT]; by [os.Exit(1)], on a pattern that does
    not compile; or with the process brought down by a panic inside the
    sub-test of one of [l]. *)
Definition loop_post (l : list (Method U)) (o : object U) (c : ctl) : Prop :=
  match c with
  | Return => handle_is suiteT o
  | Exit n =>
    (n = 1%Z /\ handle_is suiteT o /\
     exists err, regexp.Compile matchMethod = inr err)
    \/ (n = 2%Z /\
        exists m, In m l /\
          ~ (test_hooks_never_panic suite /\ never_panics (Func m)))
  | _ => False
  end.

(** The events of a run: those of the loop, and around them the handle
    set to [suiteT] and the two suite hooks called on it. *)
Definition Run_event (e : event) : Prop :=
  loop_event (Methods suite) e \/
  match e with
  | E_SetT t => t = suiteT
  | E_Call cur c => cur = Some suiteT /\ (c = SetupSuite_ \/ c = TearDownSuite_)
  | E_Log t _ | E_Fail t | E_Skip t => t = suiteT
  | _ => False
  end.

(** [Run] leaves the handle at [suiteT], unless a panic inside a sub-test
    has brought the process down. *)
Definition Run_post (o : object U) (c : ctl) : Prop :=
  (c <> Exit 2 -> handle_is suiteT o) /\
  (c = Exit 2 ->
   exists m, In m (Methods suite) /\
     ~ (test_hooks_never_panic suite /\ never_panics (Func m))).

(** The sub-test of [m], hooks returning: what [Run] does in it. *)
Definition subtest_plan (m : Method U) : list event :=
  let testT := testing.Sub suiteT (Name m) in
  [E_SetT testT]
  ++ when_impl (SetupTest suite) (E_Call (Some testT) SetupTest_)
  ++ when_impl (BeforeTest suite)
       (E_Call (Some testT) (BeforeTest_ (ElemName suite) (Name m)))
  ++ [if Nat.eqb (NumIn m) 1
      then E_Call (Some testT) (Method_ (Name m))
      else E_Fatalf testT
             ("suite: too many arguments to method " ++ Name m)%string]
  ++ when_impl (AfterTest suite)
       (E_Call (Some testT) (AfterTest_ (ElemName suite) (Name m)))
  ++ when_impl (TearDownTest suite) (E_Call (Some testT) TearDownTest_)
  ++ [E_SetT suiteT].

(** One turn of the loop, hooks returning and the pattern compiled. *)
Definition iteration_plan (m : Method U) : list event :=
  match methodFilter matchMethod (Name m) with
  | (true, None) =>
    E_Run suiteT (Name m) :: subtest_plan m ++ [E_SetT suiteT]
  | _ => []
  end.

(** A whole run, hooks returning, no test panicking, the pattern
    compiled. *)
Definition Run_plan : list event :=
  [E_SetT suiteT]
  ++ when_impl (SetupSuite suite) (E_Call (Some suiteT) SetupSuite_)
  ++ flat_map iteration_plan (Methods suite)
  ++ [E_SetT suiteT]
  ++ when_impl (TearDownSuite suite) (E_Call (Some suiteT) TearDownSuite_).

(** [name] is the name of a method the filter selects. *)
Definition selected_name (name : string) : Prop :=
  exists m, In m (Methods suite) /\
            methodFilter matchMethod (Name m) = (true, None) /\
            Name m = name.

(** What [suite.T()] is when user code is entered: [suiteT] in the two
    suite hooks, the handle of the sub-test in the hooks around a test and
    in the test. *)
Definition handle_at_call (e : event) : Prop :=
  match e with
  | E_Call cur SetupSuite_ | E_Call cur TearDownSuite_ => cur = Some suiteT
  | E_Call cur SetupTest_ | E_Call cur TearDownTest_ =>
    exists name, selected_name name /\ cur = Some (testing.Sub suiteT name)
  | E_Call cur (BeforeTest_ _ name) | E_Call cur (AfterTest_ _ name)
  | E_Call cur (Method_ name) =>
    selected_name name /\ cur = Some (testing.Sub suiteT name)
  | _ => True
  end.

(** What [BeforeTest] and [AfterTest] are given: the name of the struct
    and the name of the selected method in whose sub-test they are
    called. *)
Definition hook_arguments (e : event) : Prop :=
  match e with
  | E_Call cur (BeforeTest_ suiteName testName)
  | E_Call cur (AfterTest_ suiteName testName) =>
    suiteName = ElemName suite /\ selected_name testName /\
    cur = Some (testing.Sub suiteT testName)
  | _ => True
  end.

End Events.

(** The error message of a pattern that does not compile is on standard
    error before [SetupSuite] is entered. *)
Definition error_before_SetupSuite (tr : list event) : Prop :=
  forall before msg after,
    tr = before ++ E_Stderr msg :: after -> count is_SetupSuite before = 0.

(** The user code [Run] enters in the sub-test of [m], hooks returning. *)
Definition test_calls {U : Type} (suite : TestingSuite U) (m : Method U)
  : list call :=
  when_impl (SetupTest suite) SetupTest_
  ++ when_impl (BeforeTest suite) (BeforeTest_ (ElemName suite) (Name m))
  ++ (if Nat.eqb (NumIn m) 1 then [Method_ (Name m)] else [])
  ++ when_impl (AfterTest suite) (AfterTest_ (ElemName suite) (Name m))
  ++ when_impl (TearDownTest suite) TearDownTest_.

(** The user code entered in a run, in order. *)
Fixpoint calls (tr : list event) : list call :=
  match tr with
  | [] => []
  | E_Call _ c :: tr' => c :: calls tr'
  | _ :: tr' => calls tr'
  end.

(** A call made inside a sub-test: a hook around a test, or a test. *)
Definition is_test_call (c : call) : bool :=
  match c with
  | SetupSuite_ | TearDownSuite_ => false
  | _ => true
  end.

(** The test names [BeforeTest] and [AfterTest] were given, in order. *)
Definition BeforeTest_names (tr : list event) : list string :=
  flat_map (fun c => match c with BeforeTest_ _ n => [n] | _ => [] end)
           (calls tr).

Definition AfterTest_names (tr : list event) : list string :=
  flat_map (fun c => match c with AfterTest_ _ n => [n] | _ => [] end)
           (calls tr).

(** The methods of [suite] that [methodFilter] selects, in the order of
    the method list. *)
Definition selected {U : Type} `{regexp.Lib} (matchMethod : string)
           (suite : TestingSuite U) : list (Method U) :=
  filter (fun m => fst (methodFilter matchMethod (Name m))) (Methods suite).

(** The suite type with the method list [l] in place of its own. *)
Definition with_methods {U : Type} (suite : TestingSuite U)
           (l : list (Method U)) : TestingSuite U :=
  mkTestingSuite (ElemName suite) l
    (SetupSuite suite) (TearDownSuite suite)
    (SetupTest suite) (TearDownTest suite)
    (BeforeTest suite) (AfterTest suite).

(** A piece of suite code keeps the property [I] of the struct's fields,
    however it ends. *)
Definition preserves {U : Type} (I : U -> Prop) (f : code U) : Prop :=
  forall u, I u -> I (fst (f u)).

(** The same of a computation. *)
Definition keeps {U : Type} (I : U -> Prop) (g : go U) : Prop :=
  forall o, I (fields o) -> I (fields (final (g o))).

(** All the user code [Run] can call keeps [I]: the six hooks, and the
    methods the filter selects that take no argument beyond the
    receiver. *)
Definition suite_preserves {U : Type} `{regexp.Lib} (matchMethod : string)
           (suite : TestingSuite U) (I : U -> Prop) : Prop :=
  (forall f, SetupSuite suite = Some f -> preserves I f) /\
  (forall f, TearDownSuite suite = Some f -> preserves I f) /\
  (forall f, SetupTest suite = Some f -> preserves I f) /\
  (forall f, TearDownTest suite = Some f -> preserves I f) /\
  (forall f a b, BeforeTest suite = Some f -> preserves I (f a b)) /\
  (forall f a b, AfterTest suite = Some f -> preserves I (f a b)) /\
  (forall m, In m (Methods suite) ->
             methodFilter matchMethod (Name m) = (true, None) ->
             NumIn m = 1 -> preserves I (Func m)).

(** ** The RE2 fragment implements [regexp.Lib] *)

Lemma re2_empty_matches (s : string) : re2.matches re2.Eps s = true.
Proof.
  unfold re2.matches. destruct (list_ascii_of_string s); reflexivity.
Qed.

Lemma re_Test_not_later (l : list ascii) : re2.search re_Test false l = false.
Proof.
  induction l as [|a l IH]; [reflexivity|].
  cbn [re2.search]. rewrite IH. reflexivity.
Qed.

Lemma re_Test_prefix (s : string) : re2.matches re_Test s = prefix "Test" s.
Proof.
  unfold re2.matches.
  assert (E : forall l, re2.search re_Test true l
                        = re2.m re_Test true l (fun _ _ => true)).
  { intros [|a l]; cbn [re2.search].
    - now rewrite orb_false_r.
    - now rewrite re_Test_not_later, orb_false_r. }
  rewrite E. clear E.
  destruct s as [|a [|b [|c [|d s]]]]; cbn -[ascii_dec];
    repeat match goal with
           | |- context [Ascii.eqb ?x ?y] =>
             destruct (Ascii.eqb_spec x y); subst; cbn -[ascii_dec]
           | |- context [ascii_dec ?x ?y] =>
             destruct (ascii_dec x y); subst; cbn -[ascii_dec]
           end; try reflexivity; try congruence.
  destruct s; reflexivity.
Qed.

#[export] Instance re2_Lib : regexp.Lib.
Proof.
  refine {| regexp.Regexp := re2.regex;
            regexp.Compile := re2.compile;
            regexp.Match := re2.matches |}.
  - exists re_Test. split; [reflexivity | exact re_Test_prefix].
  - exists re2.Eps. split; [reflexivity | exact re2_empty_matches].
Defined.

Example re2_matches :
  regexp.MatchString "One" "TestOne" = (true, None) /\
  regexp.MatchString "One" "TestTwo" = (false, None) /\
  regexp.MatchString "^Test(One|Two)$" "TestTwo" = (true, None) /\
  regexp.MatchString "^Test(One|Two)$" "TestTwos" = (false, None) /\
  regexp.MatchString "T.*o" "TestTwo" = (true, None) /\
  regexp.MatchString "Skip?x+" "TestSkixx" = (true, None) /\
  regexp.MatchString "(" "TestOne" = (false, Some "missing closing )") /\
  regexp.MatchString "a)" "TestOne" = (false, Some "unexpected )") /\
  regexp.MatchString "*" "TestOne"
  = (false, Some "missing argument to repetition operator: *").
Proof. repeat split; reflexivity. Qed.

(** ** Laws of the control operators *)

Section Laws.

Context {U : Type}.

Implicit Types (a b d g : go U) (o : object U) (h : testing.T).

Lemma seq_eq a b o :
  seq a b o =
  match outcome (a o) with
  | Return => (trace (a o) ++ trace (b (final (a o))),
               final (b (final (a o))), outcome (b (final (a o))))
  | c => (trace (a o), final (a o), c)
  end.
Proof.
  unfold seq, trace, final, outcome.
  destruct (a o) as [[e1 o1] c1]; cbn.
  destruct c1; try reflexivity.
  destruct (b o1) as [[e2 o2] c2]; reflexivity.
Qed.

Lemma defer_eq d g o :
  defer d g o =
  match outcome (g o) with
  | Exit n => (trace (g o), final (g o), Exit n)
  | c => (trace (g o) ++ trace (d (final (g o))),
          final (d (final (g o))),
          match outcome (d (final (g o))) with
          | Return => c
          | _ => outcome (d (final (g o)))
          end)
  end.
Proof.
  unfold defer, trace, final, outcome.
  destruct (g o) as [[e1 o1] c1]; cbn.
  destruct c1; try reflexivity;
    destruct (d o1) as [[e2 o2] c2]; reflexivity.
Qed.

Lemma seq_Return a b o e1 o1 :
  a o = (e1, o1, Return) ->
  seq a b o = (e1 ++ trace (b o1), final (b o1), outcome (b o1)).
Proof. intros E. rewrite seq_eq, E. reflexivity. Qed.

Lemma seq_stop a b o e1 o1 c :
  a o = (e1, o1, c) -> c <> Return -> seq a b o = (e1, o1, c).
Proof.
  intros E N. rewrite seq_eq, E. unfold outcome, trace, final. cbn.
  destruct c; congruence.
Qed.

Lemma seq_ext a b b' o :
  (forall o', b o' = b' o') -> seq a b o = seq a b' o.
Proof. intros E. rewrite !seq_eq, !E. reflexivity. Qed.

Lemma seq_assoc a b d o :
  seq (seq a b) d o = seq a (seq b d) o.
Proof.
  unfold seq.
  destruct (a o) as [[e1 o1] c1]. destruct c1; try reflexivity.
  destruct (b o1) as [[e2 o2] c2]. destruct c2; try reflexivity.
  destruct (d o2) as [[e3 o3] c3]. rewrite app_assoc. reflexivity.
Qed.

Lemma seq_skip_l a o : seq skip a o = a o.
Proof. unfold seq, skip. destruct (a o) as [[e o'] c]. reflexivity. Qed.

Lemma for_each_app (A : Type) (l1 l2 : list A) (body : A -> go U) o :
  for_each (l1 ++ l2) body o
  = seq (for_each l1 body) (for_each l2 body) o.
Proof.
  revert o. induction l1 as [|x l1 IH]; intros o; cbn [app for_each].
  - now rewrite seq_skip_l.
  - rewrite seq_assoc. apply seq_ext. exact IH.
Qed.

Lemma result_eta (r : list event * object U * ctl) :
  r = (trace r, final r, outcome r).
Proof. destruct r as [[e o] c]; reflexivity. Qed.

(** *** Suite code on a handle that is not nil *)

Lemma run_ops_Some h ops :
  run_ops (Some h) ops = (op_events h ops, ends ops).
Proof.
  induction ops as [|x ops IH]; [reflexivity|].
  destruct x; cbn; rewrite ?IH; reflexivity.
Qed.

Lemma invoke_eq (c : call) (f : code U) o h :
  T (base o) = Some h ->
  invoke c f o
  = (E_Call (Some h) c :: op_events h (snd (f (fields o))),
     mkObject (base o) (fst (f (fields o))),
     ends (snd (f (fields o)))).
Proof.
  intros E. unfold invoke. destruct (f (fields o)) as [u ops].
  rewrite E, run_ops_Some. reflexivity.
Qed.

End Laws.

(** ** A program logic for [go]

    [hoare P g E Q]: from a suite value satisfying [P], every event of [g]
    satisfies [E], and the final suite value and the way [g] ends satisfy
    [Q]. *)

Section Logic.

Context {U : Type}.

Implicit Types (a b d g : go U) (o : object U) (h : testing.T)
         (P R : object U -> Prop) (E : event -> Prop)
         (Q : object U -> ctl -> Prop).

Lemma hoare_weaken P P' g E Q Q' :
  hoare P' g E Q' ->
  (forall o, P o -> P' o) ->
  (forall o c, Q' o c -> Q o c) ->
  hoare P g E Q.
Proof.
  intros Hg HP HQ o Ho. destruct (Hg o (HP o Ho)). auto.
Qed.

Lemma hoare_events P g (E E' : event -> Prop) Q :
  hoare P g E' Q -> (forall e, E' e -> E e) -> hoare P g E Q.
Proof.
  intros Hg HE o Ho. destruct (Hg o Ho) as [He HQ]. split; [|exact HQ].
  eapply Forall_impl; [exact HE | exact He].
Qed.

Lemma hoare_skip P E Q :
  (forall o, P o -> Q o Return) -> hoare P skip E Q.
Proof. intros HQ o Ho. cbn. auto. Qed.

Lemma hoare_emit P E Q e :
  E e -> (forall o, P o -> Q o Return) -> hoare P (emit e) E Q.
Proof. intros He HQ o Ho. cbn. auto. Qed.

Lemma hoare_setT P E Q h :
  E (E_SetT h) ->
  (forall o, P o -> Q (mkObject (SetT (base o) h) (fields o)) Return) ->
  hoare P (setT h) E Q.
Proof. intros He HQ o Ho. cbn. auto. Qed.

Lemma hoare_os_Exit P E Q n :
  E (E_Exit n) -> (forall o, P o -> Q o (Exit n)) ->
  hoare P (os_Exit n) E Q.
Proof. intros He HQ o Ho. cbn. auto. Qed.

Lemma hoare_Fatalf P E Q h msg :
  E (E_Fatalf h msg) -> (forall o, P o -> Q o Goexit) ->
  hoare P (Fatalf h msg) E Q.
Proof. intros He HQ o Ho. cbn. auto. Qed.

Lemma hoare_seq P R a b E Q :
  hoare P a E (fun o c => match c with Return => R o | _ => Q o c end) ->
  hoare R b E Q ->
  hoare P (seq a b) E Q.
Proof.
  intros Ha Hb o Ho. destruct (Ha o Ho) as [Ea Qa].
  rewrite seq_eq.
  destruct (outcome (a o)) eqn:Ec; cbn [trace final outcome fst snd];
    try (split; assumption).
  destruct (Hb _ Qa) as [Eb Qb].
  split; [apply Forall_app; split|]; assumption.
Qed.

Lemma hoare_defer P (Qg : object U -> ctl -> Prop) d g E Q :
  hoare P g E Qg ->
  (forall o n, Qg o (Exit n) -> Q o (Exit n)) ->
  (forall c, (forall n, c <> Exit n) ->
     hoare (fun o => Qg o c) d E
           (fun o c' => Q o match c' with Return => c | _ => c' end)) ->
  hoare P (defer d g) E Q.
Proof.
  intros Hg Hexit Hd o Ho. destruct (Hg o Ho) as [Eg Q1].
  rewrite defer_eq.
  destruct (outcome (g o)) eqn:Ec; cbn [trace final outcome fst snd].
  - destruct (Hd Return ltac:(discriminate) _ Q1) as [Ed Q2].
    split; [apply Forall_app; split; assumption | exact Q2].
  - destruct (Hd Goexit ltac:(discriminate) _ Q1) as [Ed Q2].
    split; [apply Forall_app; split; assumption | exact Q2].
  - destruct (Hd Panic ltac:(discriminate) _ Q1) as [Ed Q2].
    split; [apply Forall_app; split; assumption | exact Q2].
  - split; [assumption | apply Hexit; assumption].
Qed.

Lemma hoare_for_each (A : Type) (l : list A) (body : A -> go U) P E Q :
  (forall x, In x l ->
     hoare P (body x) E
           (fun o c => match c with Return => P o | _ => Q o c end)) ->
  (forall o, P o -> Q o Return) ->
  hoare P (for_each l body) E Q.
Proof.
  intros Hbody Hend. induction l as [|x l IH]; cbn [for_each].
  - apply hoare_skip. exact Hend.
  - apply hoare_seq with (R := P).
    + apply Hbody. left. reflexivity.
    + apply IH. intros y Hy. apply Hbody. right. exact Hy.
Qed.

Lemma hoare_if_implements (A : Type) (x : option A) (k : A -> go U) P E Q :
  (forall f, x = Some f -> hoare P (k f) E Q) ->
  (x = None -> forall o, P o -> Q o Return) ->
  hoare P (if_implements x k) E Q.
Proof.
  intros Hs Hn. destruct x as [f|]; cbn [if_implements].
  - apply Hs. reflexivity.
  - apply hoare_skip. apply Hn. reflexivity.
Qed.

Lemma Forall_op_events E h ops : allows E h -> Forall E (op_events h ops).
Proof.
  intros (Hf & Hs & Hl).
  induction ops as [|x ops IH]; cbn; [constructor|].
  destruct x; auto.
Qed.

Lemma hoare_invoke (c : call) (f : code U) h P E Q :
  (forall o, P o -> handle_is h o) ->
  E (E_Call (Some h) c) ->
  allows E h ->
  (forall o, P o ->
     Q (mkObject (base o) (fst (f (fields o)))) (ends (snd (f (fields o))))) ->
  hoare P (invoke c f) E Q.
Proof.
  intros Hh Hc Ha HQ o Ho. rewrite (invoke_eq c f o (Hh o Ho)).
  cbn [trace final outcome fst snd]. split.
  - constructor; [exact Hc | apply Forall_op_events; exact Ha].
  - apply HQ. exact Ho.
Qed.

Lemma hoare_t_Run (parent : testing.T) (name : string)
      (f : testing.T -> go U) P (Qf : object U -> ctl -> Prop) E Q :
  E (E_Run parent name) ->
  hoare P (f (testing.Sub parent name)) E Qf ->
  (forall o c, Qf o c ->
     Q o match c with
         | Return | Goexit => Return
         | Panic => Exit 2
         | Exit n => Exit n
         end) ->
  hoare P (t_Run parent name f) E Q.
Proof.
  intros He Hf HQ o Ho. destruct (Hf o Ho) as [Ef Q1].
  unfold t_Run. rewrite (result_eta (f _ o)).
  cbn [trace final outcome fst snd]. split.
  - constructor; assumption.
  - apply HQ. exact Q1.
Qed.

End Logic.

(** ** [methodFilter] *)

Section Filter.

Context `{regexp.Lib}.

Lemma MatchString_Test (name : string) :
  regexp.MatchString "^Test" name = (prefix "Test" name, None).
Proof.
  unfold regexp.MatchString.
  destruct regexp.Compile_Test as (re & -> & Hre). now rewrite Hre.
Qed.

Lemma MatchString_empty (name : string) :
  regexp.MatchString "" name = (true, None).
Proof.
  unfold regexp.MatchString.
  destruct regexp.Compile_empty as (re & -> & Hre). now rewrite Hre.
Qed.

Lemma methodFilter_eq (matchMethod name : string) :
  methodFilter matchMethod name =
  if prefix "Test" name then regexp.MatchString matchMethod name
  else (false, None).
Proof.
  unfold methodFilter. rewrite MatchString_Test.
  destruct (prefix "Test" name); reflexivity.
Qed.

Lemma methodFilter_compiled (matchMethod name : string) re :
  regexp.Compile matchMethod = inl re ->
  methodFilter matchMethod name
  = (prefix "Test" name && regexp.Match re name, None).
Proof.
  intros E. rewrite methodFilter_eq. unfold regexp.MatchString. rewrite E.
  destruct (prefix "Test" name); reflexivity.
Qed.

Lemma methodFilter_invalid (matchMethod name : string) err :
  regexp.Compile matchMethod = inr err ->
  methodFilter matchMethod name
  = if prefix "Test" name then (false, Some err) else (false, None).
Proof.
  intros E. rewrite methodFilter_eq. unfold regexp.MatchString. rewrite E.
  reflexivity.
Qed.

Lemma methodFilter_error (matchMethod name : string) ok err :
  methodFilter matchMethod name = (ok, Some err) ->
  regexp.Compile matchMethod = inr err /\ prefix "Test" name = true.
Proof.
  rewrite methodFilter_eq. unfold regexp.MatchString.
  destruct (prefix "Test" name); [|discriminate].
  destruct (regexp.Compile matchMethod); [discriminate|].
  intros [= _ ->]. split; reflexivity.
Qed.

Lemma methodFilter_true (matchMethod name : string) :
  methodFilter matchMethod name = (true, None) ->
  prefix "Test" name = true /\
  exists re, regexp.Compile matchMethod = inl re /\
             regexp.Match re name = true.
Proof.
  rewrite methodFilter_eq. unfold regexp.MatchString.
  destruct (prefix "Test" name); [|discriminate].
  destruct (regexp.Compile matchMethod) as [re|]; [|discriminate].
  intros [= E]. split; [reflexivity|]. exists re. split; [reflexivity|exact E].
Qed.

End Filter.

(** ** What [Run] can do, whatever the suite code does *)

Section Invariant.

Context {U : Type} `{regexp.Lib}.

Variables (matchMethod : string) (suiteT : testing.T)
          (suite : TestingSuite U).

Lemma Run_eq :
  Run matchMethod suiteT suite =
  seq (setT suiteT)
 (seq (if_implements (SetupSuite suite) (invoke SetupSuite_))
      (defer
         (seq (setT suiteT)
              (if_implements (TearDownSuite suite) (invoke TearDownSuite_)))
         (for_each (Methods suite) (iteration matchMethod suiteT suite)))).
Proof. reflexivity. Qed.

Lemma ends_not_Exit (ops : list testing.op) n : ends ops <> Exit n.
Proof.
  induction ops as [|x ops IH]; cbn; [discriminate|].
  destruct x; auto; discriminate.
Qed.

Lemma subtest_hoare m :
  hoare (fun _ => True)
        (subtest suiteT suite m (testing.Sub suiteT (Name m)))
        (subtest_event suiteT suite m) (subtest_post suiteT suite m).
Proof.
  set (testT := testing.Sub suiteT (Name m)).
  assert (Ha : allows (subtest_event suiteT suite m) testT)
    by (repeat split; reflexivity).
  set (calm := test_hooks_never_panic suite /\ never_panics (Func m)).
  assert (Hkeep : forall (o : object U) u ops,
             handle_is testT o -> (calm -> ends ops <> Panic) ->
             match ends ops with
             | Return => handle_is testT (mkObject (base o) u)
             | _ => subtest_post suiteT suite m (mkObject (base o) u) (ends ops)
             end).
  { intros o u ops Ho Hp. destruct (ends ops) eqn:Ee; try exact Ho;
      (split; [right; exact Ho
              | split; [intros n; rewrite <- Ee; apply ends_not_Exit
                       | intros H1 H2; apply Hp; split; assumption]]). }
  unfold subtest.
  apply hoare_seq with (R := handle_is testT).
  { apply hoare_setT; [left; reflexivity | reflexivity]. }
  apply hoare_seq with (R := handle_is testT).
  { apply hoare_if_implements; [|auto].
    intros f Ef. apply hoare_invoke with (h := testT);
      [auto | cbn; auto 8 | exact Ha |].
    intros o Ho. apply Hkeep; [exact Ho|].
    intros [(H1 & _) _]. apply (H1 f Ef). }
  apply hoare_seq with (R := handle_is testT).
  { apply hoare_if_implements; [|auto].
    intros f Ef. apply hoare_invoke with (h := testT);
      [auto | cbn; auto 8 | exact Ha |].
    intros o Ho. apply Hkeep; [exact Ho|].
    intros [(_ & _ & H3 & _) _]. apply (H3 f _ _ Ef). }
  apply hoare_defer
    with (Qg := fun o c => handle_is testT o /\ (forall n, c <> Exit n)
                           /\ (calm -> c <> Panic)).
  - destruct (Nat.eqb_spec (NumIn m) 1) as [E1|N1].
    + apply hoare_invoke with (h := testT);
        [auto | cbn; auto 10 | exact Ha |].
      intros o Ho. split; [exact Ho|].
      split; [intros n; apply ends_not_Exit | intros [_ H5]; apply H5].
    + apply hoare_Fatalf; [cbn; auto|].
      intros o Ho. repeat split; [exact Ho | discriminate | discriminate].
  - intros o n (_ & Hn & _). exfalso. apply (Hn n). reflexivity.
  - intros c Hc.
    assert (Hkeep' : forall (o : object U) u ops,
               handle_is testT o -> (calm -> ends ops <> Panic) ->
               match ends ops with
               | Return => True
               | _ => subtest_post suiteT suite m (mkObject (base o) u)
                        match ends ops with Return => c | _ => ends ops end
               end).
    { intros o u ops Ho Hp. destruct (ends ops) eqn:Ee; try exact I;
        (split; [right; exact Ho
                | split; [intros n; rewrite <- Ee; apply ends_not_Exit
                         | intros H1 H2; apply Hp; split; assumption]]). }
    apply hoare_seq
      with (R := fun o => handle_is testT o /\ (calm -> c <> Panic)).
    { apply hoare_if_implements.
      - intros f Ef. apply hoare_invoke with (h := testT);
          [tauto | cbn; auto 8 | exact Ha |].
        intros o (Ho & _ & Hp).
        pose proof (Hkeep' o (fst (f (ElemName suite) (Name m) (fields o)))
                      (snd (f (ElemName suite) (Name m) (fields o))) Ho) as K.
        destruct (ends _) eqn:Ee.
        + split; [exact Ho | exact Hp].
        + apply K. discriminate.
        + apply K. intros [(_ & _ & _ & H4) _] _.
          apply (H4 f (ElemName suite) (Name m) Ef (fields o)). exact Ee.
        + apply K. discriminate.
      - intros _ o (Ho & _ & Hp). split; assumption. }
    apply hoare_seq
      with (R := fun o => handle_is testT o /\ (calm -> c <> Panic)).
    { apply hoare_if_implements; [|auto].
      intros f Ef. apply hoare_invoke with (h := testT);
        [tauto | cbn; auto 8 | exact Ha |].
      intros o (Ho & Hp).
      pose proof (Hkeep' o (fst (f (fields o))) (snd (f (fields o))) Ho) as K.
      destruct (ends _) eqn:Ee.
      + split; [exact Ho | exact Hp].
      + apply K. discriminate.
      + apply K. intros [(_ & H2 & _) _] _.
        apply (H2 f Ef (fields o)). exact Ee.
      + apply K. discriminate. }
    apply hoare_setT; [right; reflexivity|].
    intros o (_ & Hp). split; [left; reflexivity|].
    split.
    + intros n. destruct c; try discriminate. apply Hc.
    + intros H1 H2. apply Hp. split; assumption.
Qed.

Lemma iteration_hoare l m :
  In m l ->
  hoare (handle_is suiteT) (iteration matchMethod suiteT suite m) (iteration_event matchMethod suiteT suite m)
        (fun o c => match c with
                    | Return => handle_is suiteT o
                    | _ => loop_post matchMethod suiteT suite l o c
                    end).
Proof.
  intros Hin. unfold iteration.
  destruct (methodFilter matchMethod (Name m)) as [ok [err|]] eqn:Ef.
  - destruct (methodFilter_error _ _ Ef) as [Ec Ep].
    destruct ok; (apply hoare_seq with (R := handle_is suiteT);
      [ apply hoare_emit; [right; exists err; auto | auto]
      | apply hoare_os_Exit; [right; exists err; auto|];
        intros o Ho; cbn; left; eauto ]).
  - destruct ok; [|apply hoare_skip; auto].
    apply hoare_seq with (R := fun _ => True).
    + apply hoare_t_Run with (Qf := subtest_post suiteT suite m).
      * left. auto.
      * apply hoare_weaken
          with (P' := fun _ => True) (Q' := subtest_post suiteT suite m);
          [ | intros; exact I | intros o c Hq; exact Hq].
        apply hoare_events with (E' := subtest_event suiteT suite m);
          [apply subtest_hoare | intros e He; left; auto].
      * intros o c (_ & Hexit & Hpanic). destruct c; try exact I.
        -- cbn. right. split; [reflexivity|]. exists m.
           split; [exact Hin|].
           intros [Hh Hb]. apply (Hpanic Hh Hb). reflexivity.
        -- exfalso. apply (Hexit status). reflexivity.
    + apply hoare_setT; [left; auto | reflexivity].
Qed.

Lemma loop_hoare l :
  hoare (handle_is suiteT) (for_each l (iteration matchMethod suiteT suite))
        (loop_event matchMethod suiteT suite l) (loop_post matchMethod suiteT suite l).
Proof.
  apply hoare_for_each.
  - intros m Hin.
    apply hoare_events with (E' := iteration_event matchMethod suiteT suite m);
      [apply iteration_hoare; exact Hin | intros e He; exists m; auto].
  - auto.
Qed.

Lemma Run_hoare :
  hoare (fun _ => True) (Run matchMethod suiteT suite) (Run_event matchMethod suiteT suite) (Run_post suiteT suite).
Proof.
  assert (Ha : allows (Run_event matchMethod suiteT suite) suiteT)
    by (repeat split; right; reflexivity).
  assert (Hends : forall (o : object U) ops,
             handle_is suiteT o -> (Run_post suiteT suite) o (ends ops)).
  { intros o ops Ho. split; [intros _; exact Ho|].
    intros E. exfalso. exact (ends_not_Exit _ E). }
  rewrite Run_eq.
  apply hoare_seq with (R := handle_is suiteT).
  { apply hoare_setT; [right; reflexivity | reflexivity]. }
  apply hoare_seq with (R := handle_is suiteT).
  { apply hoare_if_implements; [|auto].
    intros f _. apply hoare_invoke with (h := suiteT);
      [auto | right; cbn; auto | exact Ha |].
    intros o Ho. destruct (ends _) eqn:Ee; try exact Ho;
      rewrite <- Ee; apply Hends; exact Ho. }
  apply hoare_defer with (Qg := loop_post matchMethod suiteT suite (Methods suite)).
  - apply hoare_events with (E' := loop_event matchMethod suiteT suite (Methods suite));
      [apply loop_hoare | intros e He; left; exact He].
  - intros o n [(-> & Ho & _)|(-> & Hm)]; split;
      try congruence; auto.
  - intros c Hc.
    apply hoare_seq with (R := handle_is suiteT).
    { apply hoare_setT; [right; reflexivity | reflexivity]. }
    apply hoare_if_implements.
    + intros f _. apply hoare_invoke with (h := suiteT);
        [auto | right; cbn; auto | exact Ha |].
      intros o Ho. destruct (ends _) eqn:Ee.
      * split; [intros _; exact Ho|]. intros ->. exfalso.
        apply (Hc 2%Z). reflexivity.
      * rewrite <- Ee. apply Hends. exact Ho.
      * rewrite <- Ee. apply Hends. exact Ho.
      * rewrite <- Ee. apply Hends. exact Ho.
    + intros _ o Ho. split; [intros _; exact Ho|]. intros ->. exfalso.
      apply (Hc 2%Z). reflexivity.
Qed.

End Invariant.

(** ** What [Run] does when the hooks return *)

Section Plan.

Context {U : Type} `{regexp.Lib}.

Variables (matchMethod : string) (suiteT : testing.T)
          (suite : TestingSuite U).

Lemma own_app (a b : list event) : own (a ++ b) = own a ++ own b.
Proof. apply filter_app. Qed.

Lemma own_op_events h ops : own (op_events h ops) = [].
Proof.
  induction ops as [|x ops IH]; [reflexivity|].
  destruct x; cbn; auto.
Qed.

Lemma object_eta (o : object U) : o = mkObject (base o) (fields o).
Proof. destruct o; reflexivity. Qed.

(** A piece of suite code entered on the handle [h]. *)
Lemma invoke_own (c : call) (f : code U) (o : object U) h :
  handle_is h o ->
  exists tr u,
    invoke c f o = (tr, mkObject (base o) u, ends (snd (f (fields o)))) /\
    own tr = [E_Call (Some h) c].
Proof.
  intros Ho. rewrite (invoke_eq c f o Ho).
  eexists _, _. split; [reflexivity|].
  cbn. rewrite own_op_events. reflexivity.
Qed.

(** An optional hook that returns. *)
Lemma hook_own (A : Type) (x : option A) (g : A -> code U) (c : call)
      (o : object U) h :
  handle_is h o ->
  (forall f, x = Some f -> returns (g f)) ->
  exists tr u,
    if_implements x (fun f => invoke c (g f)) o
    = (tr, mkObject (base o) u, Return) /\
    own tr = when_impl x (E_Call (Some h) c).
Proof.
  intros Ho Hr. destruct x as [f|]; cbn [if_implements when_impl].
  - destruct (invoke_own c (g f) Ho) as (tr & u & E & Hown).
    exists tr, u. rewrite E, (Hr f eq_refl). auto.
  - exists [], (fields o). unfold skip. rewrite <- object_eta. auto.
Qed.

Lemma subtest_own (m : Method U) (o : object U) :
  test_hooks_return suite ->
  own (trace (subtest suiteT suite m (testing.Sub suiteT (Name m)) o))
  = subtest_plan suiteT suite m.
Proof.
  intros (Hst & Htt & Hbt & Hat).
  set (testT := testing.Sub suiteT (Name m)).
  unfold subtest, subtest_plan. fold testT.
  set (o1 := mkObject (SetT (base o) testT) (fields o)).
  assert (E0 : setT testT o = ([E_SetT testT], o1, Return)) by reflexivity.
  assert (H1 : handle_is testT o1) by reflexivity.
  destruct (hook_own (x := SetupTest suite) (fun f => f)
              SetupTest_ H1 Hst)
    as (tr1 & u1 & E1 & W1).
  set (o2 := mkObject (base o1) u1) in *.
  assert (H2 : handle_is testT o2) by reflexivity.
  destruct (hook_own (x := BeforeTest suite)
              (fun f => f (ElemName suite) (Name m))
              (BeforeTest_ (ElemName suite) (Name m)) H2
              (fun f E => Hbt f _ _ E))
    as (tr2 & u2 & E2 & W2).
  set (o3 := mkObject (base o2) u2) in *.
  assert (H3 : handle_is testT o3) by reflexivity.
  assert (Ebody : exists tr3 u3 k,
             (if Nat.eqb (NumIn m) 1
              then invoke (Method_ (Name m)) (Func m)
              else Fatalf testT
                     ("suite: too many arguments to method " ++ Name m)%string)
               o3 = (tr3, mkObject (base o3) u3, k)
             /\ (forall n, k <> Exit n)
             /\ own tr3 = [if Nat.eqb (NumIn m) 1
                           then E_Call (Some testT) (Method_ (Name m))
                           else E_Fatalf testT
                                  ("suite: too many arguments to method "
                                   ++ Name m)%string]).
  { destruct (Nat.eqb (NumIn m) 1).
    - destruct (invoke_own (Method_ (Name m)) (Func m) H3)
        as (tr3 & u3 & E3 & W3).
      exists tr3, u3, (ends (snd (Func m (fields o3)))).
      split; [exact E3 | split; [intros n; apply ends_not_Exit | exact W3]].
    - exists [E_Fatalf testT
                ("suite: too many arguments to method " ++ Name m)%string],
             (fields o3), Goexit.
      split; [unfold Fatalf; rewrite <- object_eta; reflexivity|].
      split; [discriminate | reflexivity]. }
  destruct Ebody as (tr3 & u3 & k & E3 & Hk & W3).
  set (o4 := mkObject (base o3) u3) in *.
  assert (H4 : handle_is testT o4) by reflexivity.
  destruct (hook_own (x := AfterTest suite)
              (fun f => f (ElemName suite) (Name m))
              (AfterTest_ (ElemName suite) (Name m)) H4
              (fun f E => Hat f _ _ E))
    as (tr4 & u4 & E4 & W4).
  set (o5 := mkObject (base o4) u4) in *.
  assert (H5 : handle_is testT o5) by reflexivity.
  destruct (hook_own (x := TearDownTest suite) (fun f => f)
              TearDownTest_ H5 Htt)
    as (tr5 & u5 & E5 & W5).
  set (o6 := mkObject (base o5) u5) in *.
  rewrite (seq_Return _ _ _ E0).
  rewrite (seq_Return _ _ _ E1).
  rewrite (seq_Return _ _ _ E2).
  rewrite defer_eq, E3.
  rewrite (seq_Return _ _ _ E4).
  rewrite (seq_Return _ _ _ E5).
  unfold trace, final, outcome. cbn [fst snd setT].
  destruct k; try (exfalso; eapply Hk; reflexivity);
    cbn [fst snd]; rewrite !own_app, W1, W2, W3, W4, W5; reflexivity.
Qed.

Lemma returns_never_panics (f : code U) : returns f -> never_panics f.
Proof. intros Hr u. rewrite Hr. discriminate. Qed.

Lemma test_hooks_return_never_panic :
  test_hooks_return suite -> test_hooks_never_panic suite.
Proof.
  intros (H1 & H2 & H3 & H4).
  repeat split; intros; apply returns_never_panics; eauto.
Qed.

(** The sub-test of a selected method, whatever it does. *)
Lemma iteration_selected (m : Method U) (o : object U) :
  methodFilter matchMethod (Name m) = (true, None) ->
  let r := subtest suiteT suite m (testing.Sub suiteT (Name m)) o in
  iteration matchMethod suiteT suite m o
  = match outcome r with
    | Panic => (E_Run suiteT (Name m) :: trace r, final r, Exit 2)
    | Exit n => (E_Run suiteT (Name m) :: trace r, final r, Exit n)
    | _ => (E_Run suiteT (Name m) :: trace r ++ [E_SetT suiteT],
            mkObject (SetT (base (final r)) suiteT) (fields (final r)),
            Return)
    end.
Proof.
  intros Ef r. unfold iteration. rewrite Ef.
  rewrite seq_eq. unfold t_Run. fold r. rewrite (result_eta r).
  unfold trace, final, outcome. cbn [fst snd].
  destruct (snd r); reflexivity.
Qed.

Lemma iteration_own (m : Method U) (o : object U) :
  test_hooks_return suite -> never_panics (Func m) ->
  compiles matchMethod ->
  own (trace (iteration matchMethod suiteT suite m o)) = iteration_plan matchMethod suiteT suite m /\
  outcome (iteration matchMethod suiteT suite m o) = Return.
Proof.
  intros Hh Hb (re & Hre). unfold iteration_plan.
  destruct (methodFilter matchMethod (Name m)) as [ok [err|]] eqn:Ef.
  - apply methodFilter_error in Ef. destruct Ef. congruence.
  - destruct ok.
    + rewrite (iteration_selected m o Ef). cbv zeta.
      destruct (@subtest_hoare _ suiteT suite m o I)
        as [_ (_ & Hexit & Hpanic)].
      pose proof (subtest_own m o Hh) as Hown.
      destruct (outcome _) eqn:Ec.
      * unfold trace at 1, outcome. cbn [fst snd own filter].
        fold (own (trace (subtest suiteT suite m
                            (testing.Sub suiteT (Name m)) o) ++ [E_SetT suiteT])).
        rewrite own_app, Hown. auto.
      * unfold trace at 1, outcome. cbn [fst snd own filter].
        fold (own (trace (subtest suiteT suite m
                            (testing.Sub suiteT (Name m)) o) ++ [E_SetT suiteT])).
        rewrite own_app, Hown. auto.
      * exfalso. apply Hpanic;
          [apply test_hooks_return_never_panic; exact Hh | exact Hb
          | reflexivity].
      * exfalso. apply (Hexit status). reflexivity.
    + unfold iteration. rewrite Ef. auto.
Qed.

Lemma loop_own (l : list (Method U)) :
  test_hooks_return suite ->
  (forall m, In m l -> never_panics (Func m)) ->
  compiles matchMethod ->
  forall o,
    own (trace (for_each l (iteration matchMethod suiteT suite) o))
    = flat_map (iteration_plan matchMethod suiteT suite) l /\
    outcome (for_each l (iteration matchMethod suiteT suite) o) = Return.
Proof.
  intros Hh Hb Hc. induction l as [|m l IH]; intros o; cbn [for_each flat_map].
  - auto.
  - destruct (iteration_own m o Hh (Hb m (or_introl eq_refl)) Hc) as [E1 E2].
    rewrite seq_eq, E2.
    destruct (IH (fun x Hx => Hb x (or_intror Hx))
                 (final (iteration matchMethod suiteT suite m o)))
      as [E3 E4].
    unfold trace at 1, outcome at 1. cbn [fst snd].
    rewrite own_app, E1, E3, E4. auto.
Qed.

(** An optional hook, whatever it does. *)
Lemma hook_any_own (A : Type) (x : option A) (g : A -> code U) (c : call)
      (o : object U) h :
  handle_is h o ->
  exists tr u k,
    if_implements x (fun f => invoke c (g f)) o
    = (tr, mkObject (base o) u, k) /\
    own tr = when_impl x (E_Call (Some h) c) /\
    ((forall f, x = Some f -> returns (g f)) -> k = Return).
Proof.
  intros Ho. destruct x as [f|]; cbn [if_implements when_impl].
  - destruct (invoke_own c (g f) Ho) as (tr & u & E & Hown).
    exists tr, u, (ends (snd (g f (fields o)))).
    repeat split; auto. intros Hr. apply (Hr f eq_refl).
  - exists [], (fields o), Return. unfold skip. rewrite <- object_eta. auto.
Qed.

Lemma Run_own (o : object U) :
  SetupSuite_returns suite ->
  test_hooks_return suite ->
  (forall m, In m (Methods suite) -> never_panics (Func m)) ->
  compiles matchMethod ->
  own (trace (Run matchMethod suiteT suite o)) = Run_plan matchMethod suiteT suite /\
  (TearDownSuite_returns suite ->
   outcome (Run matchMethod suiteT suite o) = Return).
Proof.
  intros Hss Hh Hb Hc. rewrite Run_eq. unfold Run_plan.
  set (o1 := mkObject (SetT (base o) suiteT) (fields o)).
  assert (E0 : setT suiteT o = ([E_SetT suiteT], o1, Return)) by reflexivity.
  assert (H1 : handle_is suiteT o1) by reflexivity.
  destruct (hook_own (x := SetupSuite suite) (fun f => f) SetupSuite_ H1 Hss)
    as (tr1 & u1 & E1 & W1).
  set (o2 := mkObject (base o1) u1) in *.
  destruct (loop_own (Methods suite) Hh Hb Hc o2) as [W2 K2].
  set (loop := for_each (Methods suite) (iteration matchMethod suiteT suite))
    in *.
  set (o3 := final (loop o2)).
  set (o4 := mkObject (SetT (base o3) suiteT) (fields o3)).
  assert (E3 : setT suiteT o3 = ([E_SetT suiteT], o4, Return))
    by reflexivity.
  assert (H4 : handle_is suiteT o4) by reflexivity.
  destruct (hook_any_own (TearDownSuite suite) (fun f => f)
              TearDownSuite_ H4)
    as (tr4 & u4 & k & E4 & W4 & K4).
  change (if_implements (TearDownSuite suite) (invoke TearDownSuite_) o4
          = (tr4, mkObject (base o4) u4, k)) in E4.
  rewrite (seq_Return _ _ _ E0).
  rewrite (seq_Return _ _ _ E1).
  rewrite defer_eq, K2. fold o3.
  rewrite (seq_Return _ _ _ E3), E4.
  unfold outcome. cbn [fst snd].
  split.
  - unfold trace in *. cbn [fst snd] in *.
    rewrite !own_app, W1, W2, W4. reflexivity.
  - intros Hts. rewrite (K4 Hts). reflexivity.
Qed.

End Plan.

(** ** Handles and the readings of a trace *)







Lemma runs_app (a b : list event) : runs (a ++ b) = runs a ++ runs b.
Proof.
  induction a as [|e a IH]; [reflexivity|].
  destruct e; cbn; rewrite ?IH; reflexivity.
Qed.

Lemma runs_own (tr : list event) : runs (own tr) = runs tr.
Proof.
  unfold own. induction tr as [|e tr IH]; [reflexivity|].
  destruct e; cbn; rewrite ?IH; reflexivity.
Qed.

Lemma In_own (e : event) (tr : list event) : In e (own tr) -> In e tr.
Proof. unfold own. intros Hin. apply filter_In in Hin. tauto. Qed.

Lemma count_own (p : call -> bool) (tr : list event) :
  count p (own tr) = count p tr.
Proof.
  unfold count, own. induction tr as [|e tr IH]; [reflexivity|].
  destruct e; cbn; auto; destruct (p c); cbn; auto.
Qed.

Lemma count_app (p : call -> bool) (a b : list event) :
  count p (a ++ b) = count p a + count p b.
Proof. unfold count. now rewrite filter_app, length_app. Qed.


(** ** A run taken apart *)

Section Parts.

Context {U : Type} `{regexp.Lib}.

Variables (matchMethod : string) (suiteT : testing.T)
          (suite : TestingSuite U).

(** When [SetupSuite] returns, a run is: the handle set, [SetupSuite], the
    loop, and, unless the loop ended the process, the handle set again and
    [TearDownSuite]. *)
Lemma Run_parts (o : object U) :
  SetupSuite_returns suite ->
  exists tr1 o2 tr4,
    handle_is suiteT o2
    /\ own tr1 = when_impl (SetupSuite suite) (E_Call (Some suiteT) SetupSuite_)
    /\ own tr4
       = when_impl (TearDownSuite suite) (E_Call (Some suiteT) TearDownSuite_)
    /\ trace (Run matchMethod suiteT suite o)
       = [E_SetT suiteT] ++ tr1
         ++ trace (for_each (Methods suite)
                            (iteration matchMethod suiteT suite) o2)
         ++ match outcome (for_each (Methods suite)
                                    (iteration matchMethod suiteT suite) o2)
            with
            | Exit _ => []
            | _ => [E_SetT suiteT] ++ tr4
            end
    /\ (forall n,
           outcome (for_each (Methods suite)
                             (iteration matchMethod suiteT suite) o2) = Exit n ->
           outcome (Run matchMethod suiteT suite o) = Exit n)
    /\ (outcome (for_each (Methods suite)
                          (iteration matchMethod suiteT suite) o2) = Return ->
        TearDownSuite_returns suite ->
        outcome (Run matchMethod suiteT suite o) = Return).
Proof.
  intros Hss. rewrite Run_eq.
  set (loop := for_each (Methods suite) (iteration matchMethod suiteT suite)).
  set (o1 := mkObject (SetT (base o) suiteT) (fields o)).
  assert (E0 : setT suiteT o = ([E_SetT suiteT], o1, Return)) by reflexivity.
  assert (H1 : handle_is suiteT o1) by reflexivity.
  destruct (hook_own (x := SetupSuite suite) (fun f => f) SetupSuite_ H1 Hss)
    as (tr1 & u1 & E1 & W1).
  set (o2 := mkObject (base o1) u1) in *.
  set (o3 := final (loop o2)).
  set (o4 := mkObject (SetT (base o3) suiteT) (fields o3)).
  assert (E3 : setT suiteT o3 = ([E_SetT suiteT], o4, Return))
    by reflexivity.
  assert (H4 : handle_is suiteT o4) by reflexivity.
  destruct (hook_any_own (TearDownSuite suite) (fun f => f)
              TearDownSuite_ H4)
    as (tr4 & u4 & k & E4 & W4 & K4).
  change (if_implements (TearDownSuite suite) (invoke TearDownSuite_) o4
          = (tr4, mkObject (base o4) u4, k)) in E4.
  exists tr1, o2, tr4.
  split; [reflexivity|]. split; [exact W1|]. split; [exact W4|].
  rewrite (seq_Return _ _ _ E0).
  rewrite (seq_Return _ _ _ E1).
  rewrite defer_eq. fold o3.
  rewrite (seq_Return _ _ _ E3), E4.
  destruct (outcome (loop o2)) eqn:Ek;
    unfold trace at 1 2, outcome at 1 2; cbn [fst snd];
    unfold trace at 3; cbn [fst snd];
    (split; [rewrite ?app_nil_r; reflexivity|]);
    (split; [intros n Hn; first [discriminate Hn | exact Hn]|]);
    try discriminate.
  intros _ Hts. rewrite (K4 Hts). reflexivity.
Qed.

(** Methods whose names do not begin with [Test] leave no trace. *)
Lemma loop_no_Test (l : list (Method U)) (o : object U) :
  (forall m, In m l -> prefix "Test" (Name m) = false) ->
  for_each l (iteration matchMethod suiteT suite) o = ([], o, Return).
Proof.
  induction l as [|m l IH]; intros Hl; cbn [for_each]; [reflexivity|].
  assert (E : iteration matchMethod suiteT suite m o = ([], o, Return)).
  { unfold iteration. rewrite methodFilter_eq, (Hl m (or_introl eq_refl)).
    reflexivity. }
  rewrite (seq_Return _ _ _ E), IH by (intros x Hx; apply Hl; now right).
  reflexivity.
Qed.

(** The first method whose name begins with [Test], if there is one. *)
Lemma first_Test (l : list (Method U)) :
  (exists m, In m l /\ prefix "Test" (Name m) = true) ->
  exists pre m post,
    l = pre ++ m :: post /\
    (forall x, In x pre -> prefix "Test" (Name x) = false) /\
    prefix "Test" (Name m) = true.
Proof.
  induction l as [|x l IH]; intros (m & Hin & Hm); [destruct Hin|].
  destruct (prefix "Test" (Name x)) eqn:Ex.
  - exists [], x, l. split; [reflexivity|]. split; [intros ? []|exact Ex].
  - destruct Hin as [->|Hin]; [congruence|].
    destruct IH as (pre & m' & post & -> & Hpre & Hm'); [eauto|].
    exists (x :: pre), m', post. split; [reflexivity|].
    split; [|exact Hm']. intros y [<-|Hy]; auto.
Qed.

(** On a pattern that does not compile the loop stops at the first
    method whose name begins with [Test]. *)
Lemma loop_invalid (pre post : list (Method U)) (m : Method U)
      (o : object U) err :
  regexp.Compile matchMethod = inr err ->
  (forall x, In x pre -> prefix "Test" (Name x) = false) ->
  prefix "Test" (Name m) = true ->
  for_each (pre ++ m :: post) (iteration matchMethod suiteT suite) o
  = ([E_Stderr ("testify: invalid regexp for -m: " ++ err ++ newline)%string;
      E_Exit 1], o, Exit 1).
Proof.
  intros Hc Hpre Hm. rewrite for_each_app.
  rewrite (seq_Return _ _ _ (loop_no_Test pre o Hpre)).
  cbn [for_each app].
  assert (E : iteration matchMethod suiteT suite m o
              = ([E_Stderr ("testify: invalid regexp for -m: "
                            ++ err ++ newline)%string; E_Exit 1],
                 o, Exit 1)).
  { unfold iteration. rewrite (methodFilter_invalid _ _ Hc), Hm.
    reflexivity. }
  rewrite (seq_stop _ _ _ E) by discriminate. reflexivity.
Qed.

End Parts.

(** ** The filter pattern that does not compile *)

Import suite_test.

Lemma count_when_impl (A : Type) (x : option A) (p : call -> bool)
      (cur : option testing.T) (c : call) :
  count p (when_impl x (E_Call cur c))
  = match x with Some _ => if p c then 1 else 0 | None => 0 end.
Proof. destruct x; cbn; [destruct (p c)|]; reflexivity. Qed.

(** C9. A method whose name does not begin with [Test] gets [(false, nil)]
    from [methodFilter] whatever the pattern is, compiled or not; so a run
    over a suite with no method named [Test...] returns normally, with
    [SetupSuite] and [TearDownSuite] called once each and nothing else done,
    even on a pattern that is not a regular expression. *)
Theorem no_Test_method_no_pattern_error
        {U : Type} `{regexp.Lib} (matchMethod : string) (suiteT : testing.T)
        (suite : TestingSuite U) (o : object U) :
  (forall m, In m (Methods suite) -> prefix "Test" (Name m) = false) ->
  SetupSuite_returns suite ->
  TearDownSuite_returns suite ->
  (forall pattern name, prefix "Test" name = false ->
                        methodFilter pattern name = (false, None)) /\
  outcome (Run matchMethod suiteT suite o) = Return /\
  own (trace (Run matchMethod suiteT suite o))
  = [E_SetT suiteT]
    ++ when_impl (SetupSuite suite) (E_Call (Some suiteT) SetupSuite_)
    ++ [E_SetT suiteT]
    ++ when_impl (TearDownSuite suite) (E_Call (Some suiteT) TearDownSuite_) /\
  count is_SetupSuite (trace (Run matchMethod suiteT suite o))
  = match SetupSuite suite with Some _ => 1 | None => 0 end /\
  count is_TearDownSuite (trace (Run matchMethod suiteT suite o))
  = match TearDownSuite suite with Some _ => 1 | None => 0 end.
Proof.
  intros Hno Hss Hts.
  split.
  { intros pattern name Hp. rewrite methodFilter_eq, Hp. reflexivity. }
  destruct (Run_parts matchMethod suiteT o Hss)
    as (tr1 & o2 & tr4 & Ho2 & W1 & W4 & Etr & _ & Hret).
  rewrite (loop_no_Test matchMethod suiteT suite (Methods suite) o2 Hno) in *.
  unfold trace at 2, outcome at 1 in Etr. cbn [fst snd] in Etr.
  assert (Eown : own (trace (Run matchMethod suiteT suite o))
                 = [E_SetT suiteT]
                   ++ when_impl (SetupSuite suite)
                        (E_Call (Some suiteT) SetupSuite_)
                   ++ [E_SetT suiteT]
                   ++ when_impl (TearDownSuite suite)
                        (E_Call (Some suiteT) TearDownSuite_)).
  { rewrite Etr, !own_app, W1, W4. reflexivity. }
  split; [apply Hret; [reflexivity | exact Hts]|].
  split; [exact Eown|].
  rewrite <- !(count_own _ (trace _)), Eown, !count_app, !count_when_impl.
  split; destruct (SetupSuite suite), (TearDownSuite suite); reflexivity.
Qed.

Lemma no_Test_method_no_pattern_error_witness :
  regexp.Compile "(" = inr "missing closing )" /\
  outcome (Run "(" t0 SuiteTester_helpers_only (new new_SuiteTester)) = Return /\
  count is_SetupSuite
    (trace (Run "(" t0 SuiteTester_helpers_only (new new_SuiteTester))) = 1 /\
  count is_TearDownSuite
    (trace (Run "(" t0 SuiteTester_helpers_only (new new_SuiteTester))) = 1.
Proof.
  split; [reflexivity|].
  assert (Hno : forall m, In m (Methods SuiteTester_helpers_only) ->
                          prefix "Test" (Name m) = false).
  { intros m Hm. cbn in Hm.
    repeat (destruct Hm as [<-|Hm]; [reflexivity|]). destruct Hm. }
  assert (Hss : SetupSuite_returns SuiteTester_helpers_only)
    by (intros f [= <-] u; reflexivity).
  assert (Hts : TearDownSuite_returns SuiteTester_helpers_only)
    by (intros f [= <-] u; reflexivity).
  destruct (@no_Test_method_no_pattern_error _ re2_Lib "(" t0
              SuiteTester_helpers_only (new new_SuiteTester) Hno Hss Hts)
    as (_ & Hret & _ & Hs & Ht).
  exact (conj Hret (conj Hs Ht)).
Defined.

(** What [Run] does up to the loop, and the loop on a pattern that does
    not compile. *)
Lemma Run_invalid {U : Type} `{regexp.Lib} (matchMethod : string)
      (suiteT : testing.T) (suite : TestingSuite U) (o : object U) err :
  regexp.Compile matchMethod = inr err ->
  (exists m, In m (Methods suite) /\ prefix "Test" (Name m) = true) ->
  SetupSuite_returns suite ->
  exists before,
    own before
    = [E_SetT suiteT]
      ++ when_impl (SetupSuite suite) (E_Call (Some suiteT) SetupSuite_) /\
    trace (Run matchMethod suiteT suite o)
    = before
      ++ [E_Stderr ("testify: invalid regexp for -m: " ++ err ++ newline)%string;
          E_Exit 1] /\
    outcome (Run matchMethod suiteT suite o) = Exit 1.
Proof.
  intros Hc Hex Hss.
  destruct (first_Test (Methods suite) Hex) as (pre & m & post & El & Hpre & Hm).
  destruct (Run_parts matchMethod suiteT o Hss)
    as (tr1 & o2 & tr4 & Ho2 & W1 & _ & Etr & Hexit & _).
  rewrite El in *.
  rewrite (loop_invalid matchMethod suiteT suite pre post m o2 Hc Hpre Hm) in *.
  unfold trace at 2, outcome at 1 in Etr. cbn [fst snd] in Etr.
  exists ([E_SetT suiteT] ++ tr1). split; [|split].
  - rewrite own_app, W1. reflexivity.
  - rewrite Etr, app_nil_r, <- app_assoc. reflexivity.
  - apply Hexit. reflexivity.
Qed.

(** C10. When [methodFilter] reports that the pattern does not compile,
    [Run] writes the error to standard error and exits with status 1;
    [SetupSuite] has run by then, and neither the deferred [TearDownSuite]
    nor the deferred [SetT(suiteT)] is executed: the handle is set once, at
    the start. *)
Theorem invalid_pattern_exits_without_teardown
        {U : Type} `{regexp.Lib} (matchMethod : string) (suiteT : testing.T)
        (suite : TestingSuite U) (o : object U)
        (m : Method U) (ok : bool) (err : string) :
  SetupSuite_returns suite ->
  In m (Methods suite) ->
  methodFilter matchMethod (Name m) = (ok, Some err) ->
  outcome (Run matchMethod suiteT suite o) = Exit 1 /\
  own (trace (Run matchMethod suiteT suite o))
  = [E_SetT suiteT]
    ++ when_impl (SetupSuite suite) (E_Call (Some suiteT) SetupSuite_)
    ++ [E_Stderr ("testify: invalid regexp for -m: " ++ err ++ newline)%string;
        E_Exit 1] /\
  count is_TearDownSuite (trace (Run matchMethod suiteT suite o)) = 0 /\
  count_SetT (trace (Run matchMethod suiteT suite o)) = 1.
Proof.
  intros Hss Hin Hf.
  destruct (methodFilter_error _ _ Hf) as [Hc Hp].
  destruct (@Run_invalid _ _ matchMethod suiteT suite o err Hc
              (ex_intro _ m (conj Hin Hp)) Hss)
    as (before & Wb & Etr & Hout).
  assert (Eown : own (trace (Run matchMethod suiteT suite o))
                 = [E_SetT suiteT]
                   ++ when_impl (SetupSuite suite)
                        (E_Call (Some suiteT) SetupSuite_)
                   ++ [E_Stderr ("testify: invalid regexp for -m: "
                                 ++ err ++ newline)%string; E_Exit 1]).
  { rewrite Etr, own_app, Wb, <- app_assoc. reflexivity. }
  split; [exact Hout|]. split; [exact Eown|]. split.
  - rewrite <- count_own, Eown, !count_app, count_when_impl.
    destruct (SetupSuite suite); reflexivity.
  - assert (Ecs : forall tr, count_SetT (own tr) = count_SetT tr).
    { unfold count_SetT, own. induction tr as [|e tr IH]; [reflexivity|].
      destruct e; cbn; auto. }
    rewrite <- Ecs, Eown. unfold count_SetT. rewrite !filter_app.
    destruct (SetupSuite suite); reflexivity.
Qed.

Lemma invalid_pattern_exits_without_teardown_witness :
  outcome (Run "(" t0 SuiteTester_suite (new new_SuiteTester)) = Exit 1 /\
  own (trace (Run "(" t0 SuiteTester_suite (new new_SuiteTester)))
  = [E_SetT t0; E_Call (Some t0) SetupSuite_;
     E_Stderr ("testify: invalid regexp for -m: missing closing )" ++ newline);
     E_Exit 1] /\
  count is_TearDownSuite
    (trace (Run "(" t0 SuiteTester_suite (new new_SuiteTester))) = 0 /\
  count_SetT (trace (Run "(" t0 SuiteTester_suite (new new_SuiteTester))) = 1.
Proof.
  assert (Hss : SetupSuite_returns SuiteTester_suite)
    by (intros f [= <-] u; reflexivity).
  assert (Hin : In (mkMethod "TestOne" 1 st_TestOne) (Methods SuiteTester_suite))
    by (cbn; auto 12).
  exact (@invalid_pattern_exits_without_teardown _ re2_Lib "(" t0 SuiteTester_suite
           (new new_SuiteTester) (mkMethod "TestOne" 1 st_TestOne) false
           "missing closing )" Hss Hin eq_refl).
Defined.

(** C6, as stated, fails on [SuiteTester] with the pattern [(]: [methodFilter]
    reports no error on the first method it is given ([AfterTest]), and the
    error comes after [SetupSuite] has run. *)
Lemma invalid_pattern_surfaces_after_SetupSuite :
  regexp.Compile "(" = inr "missing closing )" /\
  option_map (fun m => methodFilter "(" (Name m))
             (hd_error (Methods SuiteTester_suite)) = Some (false, None) /\
  trace (Run "(" t0 SuiteTester_suite (new new_SuiteTester))
  = [E_SetT t0; E_Call (Some t0) SetupSuite_;
     E_Stderr ("testify: invalid regexp for -m: missing closing )" ++ newline);
     E_Exit 1] /\
  ~ error_before_SetupSuite
      (trace (Run "(" t0 SuiteTester_suite (new new_SuiteTester))).
Proof.
  split; [reflexivity|]. split; [reflexivity|]. split; [reflexivity|].
  intros Hbefore.
  specialize (Hbefore [E_SetT t0; E_Call (Some t0) SetupSuite_]
                _ [E_Exit 1] eq_refl).
  discriminate Hbefore.
Qed.

(** C6, amended. On a pattern that does not compile, [methodFilter] gives
    [(false, nil)] for the methods that come before the first one named
    [Test...] and the error for that one; [Run] then exits with status 1
    before any sub-test is started, [SetupSuite] having already run. *)
Theorem invalid_pattern_detected_at_first_Test_method
        {U : Type} `{regexp.Lib} (matchMethod : string) (suiteT : testing.T)
        (suite : TestingSuite U) (o : object U)
        (pre post : list (Method U)) (m : Method U) (err : string) :
  regexp.Compile matchMethod = inr err ->
  Methods suite = pre ++ m :: post ->
  (forall x, In x pre -> prefix "Test" (Name x) = false) ->
  prefix "Test" (Name m) = true ->
  SetupSuite_returns suite ->
  (forall x, In x pre -> methodFilter matchMethod (Name x) = (false, None)) /\
  methodFilter matchMethod (Name m) = (false, Some err) /\
  outcome (Run matchMethod suiteT suite o) = Exit 1 /\
  runs (trace (Run matchMethod suiteT suite o)) = [] /\
  exists before,
    trace (Run matchMethod suiteT suite o)
    = before
      ++ [E_Stderr ("testify: invalid regexp for -m: " ++ err ++ newline)%string;
          E_Exit 1] /\
    count is_SetupSuite before
    = match SetupSuite suite with Some _ => 1 | None => 0 end.
Proof.
  intros Hc El Hpre Hm Hss.
  split.
  { intros x Hx. rewrite (methodFilter_invalid _ _ Hc), (Hpre x Hx).
    reflexivity. }
  split.
  { rewrite (methodFilter_invalid _ _ Hc), Hm. reflexivity. }
  assert (Hex : exists x, In x (Methods suite) /\ prefix "Test" (Name x) = true).
  { exists m. rewrite El. split; [apply in_elt | exact Hm]. }
  destruct (@Run_invalid _ _ matchMethod suiteT suite o err Hc Hex Hss)
    as (before & Wb & Etr & Hout).
  split; [exact Hout|]. split.
  - rewrite Etr, <- runs_own, own_app, Wb.
    destruct (SetupSuite suite); reflexivity.
  - exists before. split; [exact Etr|].
    rewrite <- count_own, Wb, count_app, count_when_impl.
    destruct (SetupSuite suite); reflexivity.
Qed.

Lemma invalid_pattern_detected_at_first_Test_method_witness :
  methodFilter "(" "TestOne" = (false, Some "missing closing )") /\
  outcome (Run "(" t0 SuiteTester_suite (new new_SuiteTester)) = Exit 1 /\
  runs (trace (Run "(" t0 SuiteTester_suite (new new_SuiteTester))) = [].
Proof.
  assert (Hss : SetupSuite_returns SuiteTester_suite)
    by (intros f [= <-] u; reflexivity).
  assert (Hpre : forall x,
             In x (firstn 9 (Methods SuiteTester_suite)) ->
             prefix "Test" (Name x) = false).
  { intros x Hx. cbn in Hx.
    repeat (destruct Hx as [<-|Hx]; [reflexivity|]). destruct Hx. }
  destruct (@invalid_pattern_detected_at_first_Test_method _ re2_Lib "(" t0
              SuiteTester_suite (new new_SuiteTester)
              (firstn 9 (Methods SuiteTester_suite))
              (skipn 10 (Methods SuiteTester_suite))
              (mkMethod "TestOne" 1 st_TestOne) "missing closing )"
              eq_refl eq_refl Hpre eq_refl Hss)
    as (_ & Hm & Hout & Hruns & _).
  exact (conj Hm (conj Hout Hruns)).
Defined.

(** ** A skip inside [SetupSuite] *)

Lemma skips_Goexit (ops : list testing.op) :
  skips ops = true -> ends ops = Goexit.
Proof.
  induction ops as [|x ops IH]; [discriminate|].
  destruct x; cbn; auto; discriminate.
Qed.

Lemma skips_E_Skip (h : testing.T) (ops : list testing.op) :
  skips ops = true -> In (E_Skip h) (op_events h ops).
Proof.
  induction ops as [|x ops IH]; [discriminate|].
  destruct x; cbn; auto; discriminate.
Qed.

(** C2. The repository's test runs [SuiteSkipTester], whose [SetupSuite]
    calls [Skip], and expects [TearDownSuiteRunCount] to be 1 afterwards.
    [Run] ends there with the Goexit of [Skip]: [SetupSuite] has been
    called once and [TearDownSuite] not at all, its [defer] statement coming
    after the call of [SetupSuite]. *)
Theorem SuiteSkipTester_TearDownSuite_not_run :
  let r := Run "" t0 SuiteSkipTester_suite (new (mkSuiteSkipTester 0 0)) in
  outcome r = Goexit /\
  skip_SetupSuiteRunCount (fields (final r)) = 1%Z /\
  skip_TearDownSuiteRunCount (fields (final r)) = 0%Z /\
  count is_SetupSuite (trace r) = 1 /\
  count is_TearDownSuite (trace r) = 0.
Proof. cbv zeta. repeat split; reflexivity. Qed.

(** C8, as stated, fails on [SuiteSkipTester] with a test added: the
    filter selects [TestOne], and no sub-test is started after the skip in
    [SetupSuite]. *)
Lemma skip_in_SetupSuite_prevents_subtests :
  map (@Name _)
      (filter (fun m => fst (methodFilter "" (Name m)))
              (Methods SuiteSkipTester_with_test)) = ["TestOne"] /\
  runs (trace (Run "" t0 SuiteSkipTester_with_test
                   (new (mkSuiteSkipTester 0 0)))) = [] /\
  outcome (Run "" t0 SuiteSkipTester_with_test
               (new (mkSuiteSkipTester 0 0))) = Goexit /\
  runs (trace (Run "" t0 SuiteSkipTester_with_test
                   (new (mkSuiteSkipTester 0 0))))
  <> map (@Name _)
         (filter (fun m => fst (methodFilter "" (Name m)))
                 (Methods SuiteSkipTester_with_test)).
Proof. repeat split; try reflexivity. discriminate. Qed.

(** C8, amended. A skip inside [SetupSuite] is a skip of the handle
    [suiteT] itself, and its Goexit ends [Run] on the spot: no sub-test is
    started. *)
Theorem skip_in_SetupSuite_ends_Run
        {U : Type} `{regexp.Lib} (matchMethod : string) (suiteT : testing.T)
        (suite : TestingSuite U) (o : object U) (f : code U) :
  SetupSuite suite = Some f ->
  skips (snd (f (fields o))) = true ->
  outcome (Run matchMethod suiteT suite o) = Goexit /\
  runs (trace (Run matchMethod suiteT suite o)) = [] /\
  In (E_Skip suiteT) (trace (Run matchMethod suiteT suite o)) /\
  own (trace (Run matchMethod suiteT suite o))
  = [E_SetT suiteT; E_Call (Some suiteT) SetupSuite_].
Proof.
  intros Ef Hs. rewrite Run_eq, Ef. cbn [if_implements].
  set (o1 := mkObject (SetT (base o) suiteT) (fields o)).
  assert (E0 : setT suiteT o = ([E_SetT suiteT], o1, Return)) by reflexivity.
  assert (H1 : handle_is suiteT o1) by reflexivity.
  pose proof (invoke_eq SetupSuite_ f o1 H1) as E1.
  cbn [fields o1] in E1. rewrite (skips_Goexit _ Hs) in E1.
  rewrite (seq_Return _ _ _ E0).
  rewrite (seq_stop _ _ _ E1) by discriminate.
  unfold trace, outcome. cbn [fst snd app].
  split; [reflexivity|]. split; [|split].
  - cbn. rewrite <- runs_own, own_op_events. reflexivity.
  - right. right. apply skips_E_Skip. exact Hs.
  - cbn. rewrite own_op_events. reflexivity.
Qed.

Lemma skip_in_SetupSuite_ends_Run_witness :
  outcome (Run "" t0 SuiteSkipTester_with_test (new (mkSuiteSkipTester 0 0)))
  = Goexit /\
  runs (trace (Run "" t0 SuiteSkipTester_with_test
                   (new (mkSuiteSkipTester 0 0)))) = [] /\
  In (E_Skip t0)
     (trace (Run "" t0 SuiteSkipTester_with_test (new (mkSuiteSkipTester 0 0)))).
Proof.
  destruct (@skip_in_SetupSuite_ends_Run _ re2_Lib "" t0
              SuiteSkipTester_with_test (new (mkSuiteSkipTester 0 0))
              sk_SetupSuite eq_refl eq_refl)
    as (Hout & Hruns & Hskip & _).
  exact (conj Hout (conj Hruns Hskip)).
Defined.

(** ** The handle and the arguments of the hooks *)

Section Calls.

Context {U : Type} `{regexp.Lib}.

Variables (matchMethod : string) (suiteT : testing.T)
          (suite : TestingSuite U).

Lemma Run_event_calls (e : event) :
  Run_event matchMethod suiteT suite e ->
  handle_at_call matchMethod suiteT suite e /\ hook_arguments matchMethod suiteT suite e.
Proof.
  intros [(m & Hin & [(Hf & [He | [-> | ->]]) | (err & _ & _ & [-> | ->])])
         | He]; try (split; exact I).
  - assert (Hs : selected_name matchMethod suite (Name m)) by (exists m; auto).
    destruct e as [ | cur c | | | | | | | ]; try (split; exact I).
    destruct He as (-> & [-> | [-> | [-> | [-> | (-> & _)]]]]); cbn; eauto.
  - destruct e as [ | cur c | | | | | | | ]; try (split; exact I).
    destruct He as (-> & [-> | ->]); cbn; auto.
Qed.

End Calls.

(** C5. Whenever [Run] enters user code, [suite.T()] is the handle of the
    sub-test if the code is a hook around a test or the test itself (with
    the name the hook or the test is called for), and [suiteT] if it is
    [SetupSuite] or [TearDownSuite].  Each turn of the loop, that is one
    sub-test with all its hooks and the [SetT(suiteT)] that follows it,
    leaves the handle at [suiteT] however the hooks and the test ended, and
    so does [Run]; the one exception is a panic in a sub-test, which ends
    the process (status 2) and needs a hook or a method that panics. *)
Theorem current_handle
        {U : Type} `{regexp.Lib} (matchMethod : string) (suiteT : testing.T)
        (suite : TestingSuite U) (o : object U) :
  Forall (handle_at_call matchMethod suiteT suite)
         (trace (Run matchMethod suiteT suite o)) /\
  (forall m o',
      In m (Methods suite) ->
      T (base o') = Some suiteT ->
      outcome (iteration matchMethod suiteT suite m o') <> Exit 2 ->
      T (base (final (iteration matchMethod suiteT suite m o')))
      = Some suiteT) /\
  (outcome (Run matchMethod suiteT suite o) <> Exit 2 ->
   T (base (final (Run matchMethod suiteT suite o))) = Some suiteT) /\
  (outcome (Run matchMethod suiteT suite o) = Exit 2 ->
   ~ tests_never_panic suite).
Proof.
  destruct (@Run_hoare _ _ matchMethod suiteT suite o I) as [He [Hq1 Hq2]].
  split; [|split; [|split]].
  - eapply Forall_impl; [|exact He].
    intros e Hev. apply (Run_event_calls Hev).
  - intros m o' Hin Ho' Hc.
    pose proof (@iteration_hoare _ _ matchMethod suiteT suite (Methods suite)
                  m Hin o' Ho') as K.
    destruct K as [_ Hq]. cbv beta in Hq.
    destruct (outcome (iteration matchMethod suiteT suite m o')) eqn:Ec;
      cbn in Hq; try contradiction; try exact Hq.
    destruct Hq as [(_ & Hq & _) | (-> & _)]; [exact Hq | congruence].
  - exact Hq1.
  - intros E [Hh Hb]. destruct (Hq2 E) as (m & Hin & Hm).
    apply Hm. split; [exact Hh | apply Hb; exact Hin].
Qed.

(** C7. Every call of [BeforeTest] and of [AfterTest] gets the name of the
    suite's struct type as its first argument and, as its second, the name
    of the selected method in whose sub-test it is made. *)
Theorem BeforeTest_AfterTest_arguments
        {U : Type} `{regexp.Lib} (matchMethod : string) (suiteT : testing.T)
        (suite : TestingSuite U) (o : object U) :
  Forall (hook_arguments matchMethod suiteT suite)
         (trace (Run matchMethod suiteT suite o)).
Proof.
  destruct (@Run_hoare _ _ matchMethod suiteT suite o I) as [He _].
  eapply Forall_impl; [|exact He].
  intros e Hev. apply (Run_event_calls Hev).
Qed.

(** ** Which methods are run as tests *)

Section Selection.

Context {U : Type} `{regexp.Lib}.

Variables (matchMethod : string) (suiteT : testing.T)
          (suite : TestingSuite U).

Lemma subtest_event_no_run (m : Method U) (tr : list event) :
  Forall (subtest_event suiteT suite m) tr -> runs tr = [].
Proof.
  induction 1 as [|e tr He _ IH]; [reflexivity|].
  destruct e; cbn; auto. destruct He.
Qed.

(** A selected method whose sub-test does not panic: the sub-test is
    started, and the loop goes on. *)
Lemma iteration_runs (m : Method U) (o : object U) :
  test_hooks_never_panic suite -> never_panics (Func m) ->
  compiles matchMethod ->
  runs (trace (iteration matchMethod suiteT suite m o))
  = (if fst (methodFilter matchMethod (Name m)) then [Name m] else []) /\
  outcome (iteration matchMethod suiteT suite m o) = Return.
Proof.
  intros Hh Hb (re & Hre).
  destruct (methodFilter matchMethod (Name m)) as [ok [err|]] eqn:Ef.
  - apply methodFilter_error in Ef. destruct Ef. congruence.
  - destruct ok; cbn [fst].
    + rewrite (@iteration_selected _ _ matchMethod suiteT suite m o Ef).
      cbv zeta.
      destruct (@subtest_hoare _ suiteT suite m o I)
        as [Hev (_ & Hexit & Hpanic)].
      pose proof (subtest_event_no_run Hev) as Hr.
      destruct (outcome _) eqn:Ec.
      * unfold trace at 1, outcome. cbn [fst snd runs].
        rewrite runs_app, Hr. auto.
      * unfold trace at 1, outcome. cbn [fst snd runs].
        rewrite runs_app, Hr. auto.
      * exfalso. apply Hpanic; [exact Hh | exact Hb | reflexivity].
      * exfalso. apply (Hexit status). reflexivity.
    + unfold iteration. rewrite Ef. auto.
Qed.

Lemma loop_runs (l : list (Method U)) :
  test_hooks_never_panic suite ->
  (forall m, In m l -> never_panics (Func m)) ->
  compiles matchMethod ->
  forall o,
    runs (trace (for_each l (iteration matchMethod suiteT suite) o))
    = map (@Name U)
          (filter (fun m => fst (methodFilter matchMethod (Name m))) l) /\
    outcome (for_each l (iteration matchMethod suiteT suite) o) = Return.
Proof.
  intros Hh Hb Hc. induction l as [|m l IH]; intros o;
    cbn [for_each filter map]; [auto|].
  destruct (iteration_runs m o Hh (Hb m (or_introl eq_refl)) Hc) as [E1 E2].
  rewrite seq_eq, E2.
  destruct (IH (fun x Hx => Hb x (or_intror Hx))
               (final (iteration matchMethod suiteT suite m o)))
    as [E3 E4].
  unfold trace at 1, outcome at 1. cbn [fst snd].
  rewrite runs_app, E1, E3, E4.
  destruct (fst (methodFilter matchMethod (Name m))); auto.
Qed.

End Selection.

Lemma methodFilter_selects `{regexp.Lib} (matchMethod : string) :
  compiles matchMethod ->
  forall name,
    methodFilter matchMethod name
    = (prefix "Test" name && fst (regexp.MatchString matchMethod name), None).
Proof.
  intros (re & Hre) name. rewrite (methodFilter_compiled _ name Hre).
  unfold regexp.MatchString. rewrite Hre. reflexivity.
Qed.

Lemma runs_when_impl (A : Type) (x : option A) cur c :
  runs (when_impl x (E_Call cur c)) = [].
Proof. destruct x; reflexivity. Qed.

(** The sub-tests of a run that goes through the whole method list. *)
Lemma Run_runs {U : Type} `{regexp.Lib} (matchMethod : string)
      (suiteT : testing.T) (suite : TestingSuite U) (o : object U) :
  compiles matchMethod ->
  SetupSuite_returns suite ->
  tests_never_panic suite ->
  runs (trace (Run matchMethod suiteT suite o))
  = map (@Name U)
        (filter (fun m => fst (methodFilter matchMethod (Name m)))
                (Methods suite)).
Proof.
  intros Hc Hss [Hh Hb].
  destruct (Run_parts matchMethod suiteT o Hss)
    as (tr1 & o2 & tr4 & Ho2 & W1 & W4 & Etr & _ & _).
  destruct (@loop_runs _ _ matchMethod suiteT suite (Methods suite) Hh Hb Hc o2)
    as [Er Eo].
  rewrite Eo in Etr. rewrite Etr, !runs_app, Er.
  rewrite <- (runs_own tr1), <- (runs_own tr4), W1, W4, !runs_when_impl.
  cbn [runs app]. rewrite app_nil_r. reflexivity.
Qed.

(** C3. [methodFilter] gives [(false, nil)] for a name that does not begin
    with [Test], whatever the pattern; with the empty pattern it selects
    exactly the names that begin with [Test]; with a pattern that compiles
    it selects the names that begin with [Test] and match the pattern.  And
    the sub-tests [Run] starts are, in the order of the method list, the
    methods the filter selects. *)
Theorem Run_runs_the_selected_methods
        {U : Type} `{regexp.Lib} (matchMethod : string) (suiteT : testing.T)
        (suite : TestingSuite U) (o : object U) :
  compiles matchMethod ->
  SetupSuite_returns suite ->
  tests_never_panic suite ->
  (forall pattern name, prefix "Test" name = false ->
                        methodFilter pattern name = (false, None)) /\
  (forall name, methodFilter "" name = (prefix "Test" name, None)) /\
  (forall name,
      methodFilter matchMethod name
      = (prefix "Test" name && fst (regexp.MatchString matchMethod name),
         None)) /\
  runs (trace (Run matchMethod suiteT suite o))
  = map (@Name U)
        (filter (fun m => prefix "Test" (Name m)
                          && fst (regexp.MatchString matchMethod (Name m)))
                (Methods suite)).
Proof.
  intros Hc Hss Hnp.
  pose proof (methodFilter_selects Hc) as Hf.
  split.
  { intros pattern name Hp. rewrite methodFilter_eq, Hp. reflexivity. }
  split.
  { intros name. rewrite methodFilter_eq, MatchString_empty.
    destruct (prefix "Test" name); reflexivity. }
  split; [exact Hf|].
  rewrite (Run_runs suiteT o Hc Hss Hnp).
  f_equal. apply filter_ext. intros m. rewrite Hf. reflexivity.
Qed.

Lemma Run_runs_the_selected_methods_witness :
  runs (trace (Run "One" t0 SuiteTester_suite (new new_SuiteTester)))
  = ["TestOne"] /\
  runs (trace (Run "" t0 SuiteTester_suite (new new_SuiteTester)))
  = ["TestOne"; "TestSkip"; "TestTwo"].
Proof.
  assert (Hss : SetupSuite_returns SuiteTester_suite)
    by (intros f [= <-] u; reflexivity).
  assert (Hnp : tests_never_panic SuiteTester_suite).
  { split.
    - repeat split; intros f; intros; match goal with
        | E : _ = Some _ |- _ => injection E as <-
        end; intros u; cbn; discriminate.
    - intros m Hm u. cbn in Hm.
      repeat (destruct Hm as [<-|Hm]; [cbn; try discriminate|]);
        try destruct Hm.
      + unfold assert_Equal. rewrite Z.eqb_refl. discriminate.
      + unfold assert_NotEqual.
        destruct (Z.eqb_spec (TestTwoRunCount u + 1) (TestTwoRunCount u));
          [lia | discriminate]. }
  split.
  - exact (proj2 (proj2 (proj2
      (@Run_runs_the_selected_methods _ re2_Lib "One" t0 SuiteTester_suite
         (new new_SuiteTester) (ex_intro _ _ eq_refl) Hss Hnp)))).
  - exact (proj2 (proj2 (proj2
      (@Run_runs_the_selected_methods _ re2_Lib "" t0 SuiteTester_suite
         (new new_SuiteTester) (ex_intro _ _ eq_refl) Hss Hnp)))).
Defined.

(** ** A method with too many arguments *)

Lemma NoDup_Name_inj {U : Type} (l : list (Method U)) (a b : Method U) :
  NoDup (map (@Name U) l) -> In a l -> In b l -> Name a = Name b -> a = b.
Proof.
  induction l as [|x l IH]; cbn; [intros _ []|].
  intros Hnd [->|Ha] [->|Hb] E; auto.
  - apply NoDup_cons_iff in Hnd. destruct Hnd as [Hx _]. exfalso. apply Hx.
    rewrite E. apply in_map. exact Hb.
  - apply NoDup_cons_iff in Hnd. destruct Hnd as [Hx _]. exfalso. apply Hx.
    rewrite <- E. apply in_map. exact Ha.
  - apply NoDup_cons_iff in Hnd. destruct Hnd as [_ Hnd]. auto.
Qed.

Lemma In_Run_plan {U : Type} `{regexp.Lib} (matchMethod : string)
      (suiteT : testing.T) (suite : TestingSuite U) (m : Method U) (e : event) :
  In m (Methods suite) ->
  methodFilter matchMethod (Name m) = (true, None) ->
  In e (subtest_plan suiteT suite m) ->
  In e (Run_plan matchMethod suiteT suite).
Proof.
  intros Hin Hf He. unfold Run_plan.
  apply in_or_app. right. apply in_or_app. right. apply in_or_app. left.
  apply in_flat_map. exists m. split; [exact Hin|].
  unfold iteration_plan. rewrite Hf. right. apply in_or_app. left. exact He.
Qed.

Lemma In_subtest_plan_body {U : Type} (suiteT : testing.T)
      (suite : TestingSuite U) (m : Method U) :
  In (if Nat.eqb (NumIn m) 1
      then E_Call (Some (testing.Sub suiteT (Name m))) (Method_ (Name m))
      else E_Fatalf (testing.Sub suiteT (Name m))
             ("suite: too many arguments to method " ++ Name m)%string)
     (subtest_plan suiteT suite m).
Proof.
  unfold subtest_plan. cbv zeta.
  apply in_or_app. right. apply in_or_app. right. apply in_or_app. right.
  apply in_or_app. left. left. reflexivity.
Qed.

Lemma count_TearDownSuite_loop {U : Type} `{regexp.Lib} (matchMethod : string)
      (suiteT : testing.T) (suite : TestingSuite U) (l : list (Method U)) :
  count is_TearDownSuite
        (flat_map (iteration_plan matchMethod suiteT suite) l) = 0 /\
  count is_SetupSuite
        (flat_map (iteration_plan matchMethod suiteT suite) l) = 0.
Proof.
  induction l as [|m l [IH1 IH2]]; [split; reflexivity|].
  cbn [flat_map]. rewrite !count_app, IH1, IH2, !Nat.add_0_r.
  unfold iteration_plan.
  destruct (methodFilter matchMethod (Name m)) as [[|] [err|]];
    try (split; reflexivity).
  unfold subtest_plan. cbv zeta.
  destruct (SetupTest suite), (BeforeTest suite), (AfterTest suite),
    (TearDownTest suite), (Nat.eqb (NumIn m) 1); split; reflexivity.
Qed.

(** C4. A selected method that takes arguments beyond the receiver: its
    sub-test is failed by [Fatalf] with the message [suite: too many
    arguments to method <Name>], on its own handle; [Fatalf] is never
    called for anything else than such a method; the method is not called;
    the sub-tests of all the selected methods are started, and those
    without extra arguments are called; and [TearDownSuite] runs, once. *)
Theorem too_many_arguments_fails_the_subtest
        {U : Type} `{regexp.Lib} (matchMethod : string) (suiteT : testing.T)
        (suite : TestingSuite U) (o : object U) (m : Method U) :
  NoDup (map (@Name U) (Methods suite)) ->
  In m (Methods suite) ->
  methodFilter matchMethod (Name m) = (true, None) ->
  NumIn m <> 1 ->
  SetupSuite_returns suite ->
  test_hooks_return suite ->
  (forall x, In x (Methods suite) -> never_panics (Func x)) ->
  let tr := trace (Run matchMethod suiteT suite o) in
  In (E_Fatalf (testing.Sub suiteT (Name m))
               ("suite: " ++ "too many arguments to method " ++ Name m)%string)
     tr /\
  (forall t msg, In (E_Fatalf t msg) tr ->
     exists x, In x (Methods suite) /\ NumIn x <> 1 /\
               t = testing.Sub suiteT (Name x) /\
               msg = ("suite: too many arguments to method " ++ Name x)%string) /\
  (forall cur, ~ In (E_Call cur (Method_ (Name m))) tr) /\
  runs tr
  = map (@Name U)
        (filter (fun x => fst (methodFilter matchMethod (Name x)))
                (Methods suite)) /\
  (forall x, In x (Methods suite) ->
             methodFilter matchMethod (Name x) = (true, None) ->
             NumIn x = 1 ->
             In (E_Call (Some (testing.Sub suiteT (Name x))) (Method_ (Name x)))
                tr) /\
  count is_TearDownSuite tr
  = match TearDownSuite suite with Some _ => 1 | None => 0 end.
Proof.
  intros Hnd Hin Hf Hn Hss Hh Hb tr.
  assert (Hc : compiles matchMethod).
  { destruct (methodFilter_true _ _ Hf) as (_ & re & Hre & _). exists re.
    exact Hre. }
  destruct (@Run_own _ _ matchMethod suiteT suite o Hss Hh Hb Hc) as [Eown _].
  fold tr in Eown.
  destruct (@Run_hoare _ _ matchMethod suiteT suite o I) as [Hev _].
  fold tr in Hev. rewrite Forall_forall in Hev.
  split; [|split; [|split; [|split; [|split]]]].
  - apply In_own. rewrite Eown. apply (@In_Run_plan _ _ matchMethod suiteT suite m _ Hin Hf).
    pose proof (In_subtest_plan_body suiteT suite m) as Hbody.
    apply Nat.eqb_neq in Hn. rewrite Hn in Hbody. exact Hbody.
  - intros t msg He.
    destruct (Hev _ He)
      as [(x & Hx & [(_ & [Hs | [E | E]]) | (err & _ & _ & [E | E])]) | []];
      try discriminate.
    destruct Hs as (-> & Hnx & ->). exists x. auto.
  - intros cur He.
    destruct (Hev _ He)
      as [(x & Hx & [(_ & [Hs | [E | E]]) | (err & _ & _ & [E | E])])
         | (_ & [E | E])];
      try discriminate.
    destruct Hs as (_ & [E | [E | [E | [E | ([= E] & Hx1)]]]]);
      try discriminate.
    apply Hn. rewrite (@NoDup_Name_inj _ _ _ _ Hnd Hin Hx E). exact Hx1.
  - apply Run_runs; [exact Hc | exact Hss|].
    split; [apply test_hooks_return_never_panic; exact Hh | exact Hb].
  - intros x Hx Hfx Hx1. apply In_own. rewrite Eown.
    apply (@In_Run_plan _ _ matchMethod suiteT suite x _ Hx Hfx).
    pose proof (In_subtest_plan_body suiteT suite x) as Hbody.
    apply Nat.eqb_eq in Hx1. rewrite Hx1 in Hbody. exact Hbody.
  - rewrite <- count_own, Eown. unfold Run_plan.
    rewrite !count_app, !count_when_impl.
    destruct (count_TearDownSuite_loop matchMethod suiteT suite (Methods suite))
      as [-> _].
    destruct (SetupSuite suite), (TearDownSuite suite); reflexivity.
Qed.

Lemma too_many_arguments_fails_the_subtest_witness :
  let tr := trace (Run "" t0 SuiteWithBadSignature_suite (new tt)) in
  In (E_Fatalf (testing.Sub t0 "TestSomethingWithBadSignature")
        "suite: too many arguments to method TestSomethingWithBadSignature")
     tr /\
  (forall cur,
      ~ In (E_Call cur (Method_ "TestSomethingWithBadSignature")) tr) /\
  runs tr
  = ["TestSomeOtherTestShouldRunAnyway"; "TestSomethingWithBadSignature"] /\
  In (E_Call (Some (testing.Sub t0 "TestSomeOtherTestShouldRunAnyway"))
             (Method_ "TestSomeOtherTestShouldRunAnyway")) tr.
Proof.
  assert (Hnd : NoDup (map (@Name unit) (Methods SuiteWithBadSignature_suite))).
  { cbn. repeat (constructor; [cbn; intuition discriminate|]). constructor. }
  assert (Hin : In (mkMethod "TestSomethingWithBadSignature" 2 not_callable)
                   (Methods SuiteWithBadSignature_suite))
    by (cbn; auto 6).
  assert (Hss : SetupSuite_returns SuiteWithBadSignature_suite)
    by (intros f [=]).
  assert (Hh : test_hooks_return SuiteWithBadSignature_suite)
    by (repeat split; intros; discriminate).
  assert (Hb : forall x, In x (Methods SuiteWithBadSignature_suite) ->
                         never_panics (Func x)).
  { intros x Hx u. cbn in Hx.
    repeat (destruct Hx as [<-|Hx]; [cbn; discriminate|]). destruct Hx. }
  destruct (@too_many_arguments_fails_the_subtest _ re2_Lib "" t0
              SuiteWithBadSignature_suite (new tt)
              (mkMethod "TestSomethingWithBadSignature" 2 not_callable)
              Hnd Hin eq_refl ltac:(discriminate) Hss Hh Hb)
    as (H1 & _ & H3 & H4 & H5 & _).
  cbv zeta. split; [exact H1|]. split; [exact H3|]. split; [exact H4|].
  apply (H5 (mkMethod "TestSomeOtherTestShouldRunAnyway" 1 bs_log));
    [cbn; auto 6 | reflexivity | reflexivity].
Defined.

(** ** The hooks around one test *)





Section Around.

Context {U : Type} `{regexp.Lib}.

Variables (matchMethod : string) (suiteT : testing.T)
          (suite : TestingSuite U).



End Around.



(** ** The suite hooks, once each *)

Lemma loop_event_no_suite_hook {U : Type} `{regexp.Lib} (matchMethod : string)
      (suiteT : testing.T) (suite : TestingSuite U) (l : list (Method U))
      (tr : list event) :
  Forall (loop_event matchMethod suiteT suite l) tr ->
  count is_SetupSuite tr = 0 /\ count is_TearDownSuite tr = 0.
Proof.
  unfold count. induction 1 as [|e tr He _ [IH1 IH2]]; [split; reflexivity|].
  destruct e as [ | cur c | | | | | | | ]; cbn; auto.
  destruct He
    as (x & _ & [(_ & [(_ & Hc) | [E | E]]) | (err & _ & _ & [E | E])]);
    try discriminate.
  destruct Hc as [-> | [-> | [-> | [-> | (-> & _)]]]]; cbn; auto.
Qed.

(** X1. In a run that goes through the whole method list, [SetupSuite] and
    [TearDownSuite] are called once each, whatever the number of tests and
    however they end. *)
Lemma suite_hooks_once {U : Type} `{regexp.Lib} (matchMethod : string)
      (suiteT : testing.T) (suite : TestingSuite U) (o : object U) :
  compiles matchMethod ->
  SetupSuite_returns suite ->
  tests_never_panic suite ->
  count is_SetupSuite (trace (Run matchMethod suiteT suite o))
  = match SetupSuite suite with Some _ => 1 | None => 0 end /\
  count is_TearDownSuite (trace (Run matchMethod suiteT suite o))
  = match TearDownSuite suite with Some _ => 1 | None => 0 end.
Proof.
  intros Hc Hss [Hh Hb].
  destruct (Run_parts matchMethod suiteT o Hss)
    as (tr1 & o2 & tr4 & Ho2 & W1 & W4 & Etr & _ & _).
  destruct (@loop_runs _ _ matchMethod suiteT suite (Methods suite) Hh Hb Hc o2)
    as [_ Eo].
  destruct (@loop_hoare _ _ matchMethod suiteT suite (Methods suite) o2 Ho2)
    as [Hev _].
  destruct (loop_event_no_suite_hook Hev) as [L1 L2].
  rewrite Eo in Etr. rewrite Etr, !count_app, L1, L2.
  rewrite <- !(count_own _ tr1), <- !(count_own _ tr4), W1, W4.
  rewrite !count_when_impl.
  destruct (SetupSuite suite), (TearDownSuite suite); split; reflexivity.
Qed.

(** The assertions of [TestRunSuite] on [SuiteTester]. *)
Example TestRunSuite_SuiteTester :
  let r := Run "" t0 SuiteTester_suite (new new_SuiteTester) in
  let s := fields (final r) in
  outcome r = Return /\
  SetupSuiteRunCount s = 1%Z /\ TearDownSuiteRunCount s = 1%Z /\
  SuiteNameBefore s = ["SuiteTester"; "SuiteTester"; "SuiteTester"] /\
  SuiteNameAfter s = ["SuiteTester"; "SuiteTester"; "SuiteTester"] /\
  TestNameBefore s = ["TestOne"; "TestSkip"; "TestTwo"] /\
  TestNameAfter s = ["TestOne"; "TestSkip"; "TestTwo"] /\
  SetupTestRunCount s = 3%Z /\ TearDownTestRunCount s = 3%Z /\
  TestOneRunCount s = 1%Z /\ TestTwoRunCount s = 1%Z /\
  NonTestMethodRunCount s = 0%Z.
Proof. cbv zeta. repeat split; reflexivity. Qed.

(** ** The hooks around the tests, once for each test *)

Lemma count_flat_map_plan {U : Type} `{regexp.Lib} (matchMethod : string)
      (suiteT : testing.T) (suite : TestingSuite U) (p : call -> bool)
      (k : nat) (l : list (Method U)) :
  compiles matchMethod ->
  (forall m, count p (subtest_plan suiteT suite m) = k) ->
  count p (flat_map (iteration_plan matchMethod suiteT suite) l)
  = k * List.length
          (filter (fun m => fst (methodFilter matchMethod (Name m))) l).
Proof.
  intros (re & Hre) Hk.
  induction l as [|m l IH]; cbn [flat_map filter]; [cbn; lia|].
  rewrite count_app, IH. unfold iteration_plan.
  destruct (methodFilter matchMethod (Name m)) as [ok [err|]] eqn:Ef.
  { apply methodFilter_error in Ef. destruct Ef. congruence. }
  destruct ok; cbn [fst]; [|cbn; lia].
  change (E_Run suiteT (Name m) :: subtest_plan suiteT suite m ++ [E_SetT suiteT])
    with ([E_Run suiteT (Name m)]
          ++ subtest_plan suiteT suite m ++ [E_SetT suiteT]).
  rewrite !count_app, Hk. cbn [List.length]. cbn. lia.
Qed.

(** X2. In a run that goes through the whole method list with the hooks
    returning, each of the four hooks around a test is called as many times
    as there are selected methods. *)
Lemma test_hooks_N_times {U : Type} `{regexp.Lib} (matchMethod : string)
      (suiteT : testing.T) (suite : TestingSuite U) (o : object U) :
  compiles matchMethod ->
  SetupSuite_returns suite ->
  test_hooks_return suite ->
  (forall x, In x (Methods suite) -> never_panics (Func x)) ->
  let tr := trace (Run matchMethod suiteT suite o) in
  let N := List.length
             (filter (fun m => fst (methodFilter matchMethod (Name m)))
                     (Methods suite)) in
  count is_SetupTest tr
  = match SetupTest suite with Some _ => N | None => 0 end /\
  count is_BeforeTest tr
  = match BeforeTest suite with Some _ => N | None => 0 end /\
  count is_AfterTest tr
  = match AfterTest suite with Some _ => N | None => 0 end /\
  count is_TearDownTest tr
  = match TearDownTest suite with Some _ => N | None => 0 end.
Proof.
  intros Hc Hss Hh Hb tr N. subst tr N.
  destruct (@Run_own _ _ matchMethod suiteT suite o Hss Hh Hb Hc) as [Eown _].
  rewrite <- !(count_own _ (trace _)), Eown. unfold Run_plan.
  rewrite !count_app, !count_when_impl.
  assert (K : forall p : call -> bool,
             p SetupSuite_ = false -> p TearDownSuite_ = false ->
             forall k, (forall m, count p (subtest_plan suiteT suite m) = k) ->
             count p [E_SetT suiteT]
             + ((match SetupSuite suite with
                 | Some _ => if p SetupSuite_ then 1 else 0
                 | None => 0
                 end)
                + (count p (flat_map (iteration_plan matchMethod suiteT suite)
                                     (Methods suite))
                   + (count p [E_SetT suiteT]
                      + match TearDownSuite suite with
                        | Some _ => if p TearDownSuite_ then 1 else 0
                        | None => 0
                        end)))
             = k * List.length
                     (filter (fun m => fst (methodFilter matchMethod (Name m)))
                             (Methods suite))).
  { intros p H1 H2 k Hk. rewrite H1, H2, (count_flat_map_plan suiteT suite _ _ Hc Hk).
    destruct (SetupSuite suite), (TearDownSuite suite); cbn; lia. }
  repeat split.
  - rewrite (K is_SetupTest eq_refl eq_refl
               (match SetupTest suite with Some _ => 1 | None => 0 end)).
    + destruct (SetupTest suite); lia.
    + intros m. unfold subtest_plan. cbv zeta.
      destruct (SetupTest suite), (BeforeTest suite), (AfterTest suite),
        (TearDownTest suite), (Nat.eqb (NumIn m) 1); reflexivity.
  - rewrite (K is_BeforeTest eq_refl eq_refl
               (match BeforeTest suite with Some _ => 1 | None => 0 end)).
    + destruct (BeforeTest suite); lia.
    + intros m. unfold subtest_plan. cbv zeta.
      destruct (SetupTest suite), (BeforeTest suite), (AfterTest suite),
        (TearDownTest suite), (Nat.eqb (NumIn m) 1); reflexivity.
  - rewrite (K is_AfterTest eq_refl eq_refl
               (match AfterTest suite with Some _ => 1 | None => 0 end)).
    + destruct (AfterTest suite); lia.
    + intros m. unfold subtest_plan. cbv zeta.
      destruct (SetupTest suite), (BeforeTest suite), (AfterTest suite),
        (TearDownTest suite), (Nat.eqb (NumIn m) 1); reflexivity.
  - rewrite (K is_TearDownTest eq_refl eq_refl
               (match TearDownTest suite with Some _ => 1 | None => 0 end)).
    + destruct (TearDownTest suite); lia.
    + intros m. unfold subtest_plan. cbv zeta.
      destruct (SetupTest suite), (BeforeTest suite), (AfterTest suite),
        (TearDownTest suite), (Nat.eqb (NumIn m) 1); reflexivity.
Qed.

(** ** The methods [Run] calls *)

(** X3. [Run] calls a method of the suite only if the method's name begins
    with [Test], the pattern compiles and matches the name, and the method
    takes no argument beyond the receiver; it reports too many arguments
    only for a selected method that takes some, on that method's sub-test;
    and a method whose name does not begin with [Test] is never called. *)
Theorem Run_calls_only_selected_methods
        {U : Type} `{regexp.Lib} (matchMethod : string) (suiteT : testing.T)
        (suite : TestingSuite U) (o : object U) :
  let tr := trace (Run matchMethod suiteT suite o) in
  (forall cur name,
      In (E_Call cur (Method_ name)) tr ->
      prefix "Test" name = true /\
      (exists re, regexp.Compile matchMethod = inl re /\
                  regexp.Match re name = true) /\
      cur = Some (testing.Sub suiteT name) /\
      exists m, In m (Methods suite) /\ Name m = name /\ NumIn m = 1) /\
  (forall t msg,
      In (E_Fatalf t msg) tr ->
      exists m, In m (Methods suite) /\
                methodFilter matchMethod (Name m) = (true, None) /\
                NumIn m <> 1 /\
                t = testing.Sub suiteT (Name m) /\
                msg = ("suite: too many arguments to method " ++ Name m)%string) /\
  (forall m cur,
      In m (Methods suite) -> prefix "Test" (Name m) = false ->
      ~ In (E_Call cur (Method_ (Name m))) tr).
Proof.
  intros tr.
  destruct (@Run_hoare _ _ matchMethod suiteT suite o I) as [Hev _].
  fold tr in Hev. rewrite Forall_forall in Hev.
  assert (Hcall : forall cur name,
             In (E_Call cur (Method_ name)) tr ->
             exists m, In m (Methods suite) /\
                       methodFilter matchMethod (Name m) = (true, None) /\
                       cur = Some (testing.Sub suiteT (Name m)) /\
                       Name m = name /\ NumIn m = 1).
  { intros cur name Hin.
    destruct (Hev _ Hin) as [(m & Hm & He) | (_ & [E | E])];
      try discriminate.
    destruct He as [(Hf & [Hs | [E | E]]) | (err & _ & _ & [E | E])];
      try discriminate.
    destruct Hs as (-> & [E | [E | [E | [E | ([= En] & Hn)]]]]);
      try discriminate.
    exists m. repeat split; auto. }
  split; [|split].
  - intros cur name Hin.
    destruct (Hcall cur name Hin) as (m & Hm & Hf & -> & <- & Hn).
    destruct (methodFilter_true _ _ Hf) as (Hp & re & Hre & Hma).
    repeat split; eauto.
  - intros t msg Hin.
    destruct (Hev _ Hin) as [(m & Hm & He) | []].
    destruct He as [(Hf & [Hs | [E | E]]) | (err & _ & _ & [E | E])];
      try discriminate.
    destruct Hs as (-> & Hn & ->). exists m. repeat split; auto.
  - intros m cur Hm Hp Hin.
    destruct (Hcall cur _ Hin) as (x & _ & Hf & _ & En & _).
    destruct (methodFilter_true _ _ Hf) as (Hx & _). congruence.
Qed.

(** ** When [Run] ends the process *)

Section Exit.

Context {U : Type} `{regexp.Lib}.

Variables (matchMethod : string) (suiteT : testing.T)
          (suite : TestingSuite U).

(** How [Run] can end the process: see [loop_post]. *)
Lemma Run_exit_hoare :
  hoare (fun _ => True) (Run matchMethod suiteT suite) (fun _ => True)
        (fun _ c => forall n, c = Exit n ->
           (n = 1%Z /\ exists err, regexp.Compile matchMethod = inr err)
           \/ (n = 2%Z /\
               exists m, In m (Methods suite) /\
                 ~ (test_hooks_never_panic suite /\ never_panics (Func m)))).
Proof.
  assert (Ha : allows (fun _ : event => True) suiteT) by (repeat split).
  rewrite Run_eq.
  apply hoare_seq with (R := handle_is suiteT).
  { apply hoare_setT; [exact I | reflexivity]. }
  apply hoare_seq with (R := handle_is suiteT).
  { apply hoare_if_implements; [|auto].
    intros f _. apply hoare_invoke with (h := suiteT);
      [auto | exact I | exact Ha |].
    intros o Ho. destruct (ends _) eqn:Ee; try exact Ho; try discriminate.
    exfalso. exact (ends_not_Exit _ Ee). }
  apply hoare_defer
    with (Qg := loop_post matchMethod suiteT suite (Methods suite)).
  - apply hoare_events
      with (E' := loop_event matchMethod suiteT suite (Methods suite));
      [apply loop_hoare | auto].
  - intros o n Hpost k [= <-].
    destruct Hpost as [(-> & _ & He) | (-> & Hm)]; auto.
  - intros c Hc.
    apply hoare_seq with (R := handle_is suiteT).
    { apply hoare_setT; [exact I | reflexivity]. }
    apply hoare_if_implements.
    + intros f _. apply hoare_invoke with (h := suiteT);
        [auto | exact I | exact Ha |].
      intros o Ho n. destruct (ends _) eqn:Ee; intros E; try discriminate.
      * exfalso. exact (Hc n E).
      * exfalso. exact (ends_not_Exit _ Ee).
    + intros _ o Ho n E. exfalso. exact (Hc n E).
Qed.

End Exit.

(** X4. Suite code acting on its handle only, [Run] ends the process in
    two cases: with status 1, on a pattern that does not compile; and with
    status 2, when code inside a sub-test panics.  It writes to standard
    error and calls [os.Exit] for nothing but a pattern that does not
    compile, and what it writes is the error of the compilation in the
    format of [Run]. *)
Theorem Run_ends_the_process_only_on
        {U : Type} `{regexp.Lib} (matchMethod : string) (suiteT : testing.T)
        (suite : TestingSuite U) (o : object U) :
  let r := Run matchMethod suiteT suite o in
  (forall n, outcome r = Exit n ->
     (n = 1%Z /\ exists err, regexp.Compile matchMethod = inr err)
     \/ (n = 2%Z /\ ~ tests_never_panic suite)) /\
  (forall msg, In (E_Stderr msg) (trace r) ->
     exists err,
       regexp.Compile matchMethod = inr err /\
       msg = ("testify: invalid regexp for -m: " ++ err ++ newline)%string) /\
  (forall n, In (E_Exit n) (trace r) ->
     n = 1%Z /\ exists err, regexp.Compile matchMethod = inr err).
Proof.
  intros r.
  destruct (@Run_exit_hoare _ _ matchMethod suiteT suite o I) as [_ Hout].
  destruct (@Run_hoare _ _ matchMethod suiteT suite o I) as [Hev _].
  fold r in Hout, Hev. rewrite Forall_forall in Hev.
  split; [|split].
  - intros n En. destruct (Hout n En) as [K | (-> & m & Hm & Hp)];
      [left; exact K | right].
    split; [reflexivity|]. intros [Hh Hb]. apply Hp. split; auto.
  - intros msg Hin.
    destruct (Hev _ Hin) as [(m & Hm & He) | []].
    destruct He as [(Hf & [[] | [E | E]]) | (err & Hc & _ & [E | E])];
      try discriminate.
    injection E as ->. eauto.
  - intros n Hin.
    destruct (Hev _ Hin) as [(m & Hm & He) | []].
    destruct He as [(Hf & [[] | [E | E]]) | (err & Hc & _ & [E | E])];
      try discriminate.
    injection E as ->. eauto.
Qed.

(** ** What [Run] leaves of the suite's fields *)

Section Keeps.

Context {U : Type}.

Variable I : U -> Prop.

Implicit Types (a b d g : go U).

Lemma keeps_skip : keeps I (@skip U).
Proof. intros o Ho. exact Ho. Qed.

Lemma keeps_emit e : keeps I (@emit U e).
Proof. intros o Ho. exact Ho. Qed.

Lemma keeps_setT h : keeps I (@setT U h).
Proof. intros o Ho. exact Ho. Qed.

Lemma keeps_os_Exit n : keeps I (@os_Exit U n).
Proof. intros o Ho. exact Ho. Qed.

Lemma keeps_Fatalf h msg : keeps I (@Fatalf U h msg).
Proof. intros o Ho. exact Ho. Qed.

Lemma keeps_seq a b : keeps I a -> keeps I b -> keeps I (seq a b).
Proof.
  intros Ha Hb o Ho. rewrite seq_eq.
  destruct (outcome (a o)); cbn [final fst snd];
    try apply Hb; apply Ha, Ho.
Qed.

Lemma keeps_defer d g : keeps I d -> keeps I g -> keeps I (defer d g).
Proof.
  intros Hd Hg o Ho. rewrite defer_eq.
  destruct (outcome (g o)); cbn [final fst snd];
    try apply Hd; apply Hg, Ho.
Qed.

Lemma keeps_for_each (A : Type) (l : list A) (body : A -> go U) :
  (forall x, In x l -> keeps I (body x)) -> keeps I (for_each l body).
Proof.
  induction l as [|x l IH]; intros Hb; cbn [for_each].
  - apply keeps_skip.
  - apply keeps_seq; [apply Hb; now left|].
    apply IH. intros y Hy. apply Hb. now right.
Qed.

Lemma keeps_if_implements (A : Type) (x : option A) (k : A -> go U) :
  (forall f, x = Some f -> keeps I (k f)) -> keeps I (if_implements x k).
Proof.
  intros Hk. destruct x as [f|]; cbn [if_implements];
    [apply Hk; reflexivity | apply keeps_skip].
Qed.

(** The fields a piece of suite code leaves are the fields [Run] goes on
    with, however the code ended. *)
Lemma keeps_invoke (c : call) (f : code U) :
  preserves I f -> keeps I (invoke c f).
Proof.
  intros Hf o Ho. unfold invoke.
  pose proof (Hf _ Ho) as K.
  destruct (f (fields o)) as [u ops].
  destruct (run_ops (T (base o)) ops) as [e k]. exact K.
Qed.

Lemma keeps_t_Run (parent : testing.T) (name : string)
      (f : testing.T -> go U) :
  keeps I (f (testing.Sub parent name)) -> keeps I (t_Run parent name f).
Proof.
  intros Hf o Ho. unfold t_Run. specialize (Hf o Ho).
  destruct (f (testing.Sub parent name) o) as [[e o'] c]. exact Hf.
Qed.

End Keeps.

(** X5. [Run] changes the fields of the suite's struct through the user code
    it calls and through nothing else: a property of the fields that the
    implemented hooks keep, and that the selected methods without extra
    arguments keep, holds after [Run] if it held before, however [Run]
    ends.  Nothing is asked of the other methods. *)
Theorem Run_keeps_invariant
        {U : Type} `{regexp.Lib} (matchMethod : string) (suiteT : testing.T)
        (suite : TestingSuite U) (o : object U) (I : U -> Prop) :
  suite_preserves matchMethod suite I ->
  I (fields o) ->
  I (fields (final (Run matchMethod suiteT suite o))).
Proof.
  intros (H1 & H2 & H3 & H4 & H5 & H6 & H7). revert o.
  change (keeps I (Run matchMethod suiteT suite)). rewrite Run_eq.
  apply keeps_seq; [apply keeps_setT|].
  apply keeps_seq.
  { apply keeps_if_implements. intros f E. apply keeps_invoke. eauto. }
  apply keeps_defer.
  { apply keeps_seq; [apply keeps_setT|].
    apply keeps_if_implements. intros f E. apply keeps_invoke. eauto. }
  apply keeps_for_each. intros m Hm. unfold iteration.
  destruct (methodFilter matchMethod (Name m)) as [ok [err|]] eqn:Ef.
  { destruct ok; (apply keeps_seq; [apply keeps_emit | apply keeps_os_Exit]). }
  destruct ok; [|apply keeps_skip].
  apply keeps_seq; [|apply keeps_setT].
  apply keeps_t_Run. unfold subtest.
  apply keeps_seq; [apply keeps_setT|].
  apply keeps_seq.
  { apply keeps_if_implements. intros f E. apply keeps_invoke. eauto. }
  apply keeps_seq.
  { apply keeps_if_implements. intros f E. apply keeps_invoke. eauto. }
  apply keeps_defer.
  - apply keeps_seq.
    { apply keeps_if_implements. intros f E. apply keeps_invoke. eauto. }
    apply keeps_seq; [|apply keeps_setT].
    apply keeps_if_implements. intros f E. apply keeps_invoke. eauto.
  - destruct (Nat.eqb_spec (NumIn m) 1) as [E1|N1].
    + apply keeps_invoke. eauto.
    + apply keeps_Fatalf.
Qed.

(** [NonTestMethod] is the one method of [SuiteTester] that changes
    [NonTestMethodRunCount]: the count is 0 after a run. *)
Lemma Run_keeps_invariant_witness :
  NonTestMethodRunCount
    (fields (final (Run "" t0 SuiteTester_suite (new new_SuiteTester))))
  = 0%Z.
Proof.
  apply (@Run_keeps_invariant _ re2_Lib "" t0 SuiteTester_suite
           (new new_SuiteTester) (fun s => NonTestMethodRunCount s = 0%Z));
    [|reflexivity].
  repeat split; try (intros f; intros; match goal with
    | E : _ = Some _ |- _ => injection E as <-
    end; intros u Hu; exact Hu).
  intros m Hm Hf Hn. cbn in Hm.
  repeat (destruct Hm as [<-|Hm];
          [first [discriminate Hf | discriminate Hn | intros u Hu; exact Hu]|]).
  destruct Hm.
Defined.

(** ** The user code entered, in order *)

Lemma calls_app (a b : list event) : calls (a ++ b) = calls a ++ calls b.
Proof.
  induction a as [|e a IH]; [reflexivity|].
  destruct e; cbn; rewrite ?IH; reflexivity.
Qed.

Lemma calls_own (tr : list event) : calls (own tr) = calls tr.
Proof.
  unfold own. induction tr as [|e tr IH]; [reflexivity|].
  destruct e; cbn; rewrite ?IH; reflexivity.
Qed.

Lemma calls_when_impl (A : Type) (x : option A) cur (c : call) :
  calls (when_impl x (E_Call cur c)) = when_impl x c.
Proof. destruct x; reflexivity. Qed.

Lemma calls_subtest_plan {U : Type} (suiteT : testing.T)
      (suite : TestingSuite U) (m : Method U) :
  calls (subtest_plan suiteT suite m) = test_calls suite m.
Proof.
  unfold subtest_plan, test_calls. cbv zeta.
  destruct (SetupTest suite), (BeforeTest suite), (AfterTest suite),
    (TearDownTest suite), (Nat.eqb (NumIn m) 1); reflexivity.
Qed.

Lemma calls_flat_map_plan {U : Type} `{regexp.Lib} (matchMethod : string)
      (suiteT : testing.T) (suite : TestingSuite U) (l : list (Method U)) :
  compiles matchMethod ->
  calls (flat_map (iteration_plan matchMethod suiteT suite) l)
  = flat_map (test_calls suite)
             (filter (fun m => fst (methodFilter matchMethod (Name m))) l).
Proof.
  intros (re & Hre).
  induction l as [|m l IH]; cbn [flat_map filter]; [reflexivity|].
  rewrite calls_app, IH. unfold iteration_plan.
  destruct (methodFilter matchMethod (Name m)) as [ok [err|]] eqn:Ef.
  { apply methodFilter_error in Ef. destruct Ef. congruence. }
  destruct ok; cbn [fst flat_map]; [|reflexivity].
  cbn [calls]. rewrite calls_app, calls_subtest_plan. cbn [calls].
  rewrite app_nil_r. reflexivity.
Qed.

Lemma calls_op_events (h : testing.T) (ops : list testing.op) :
  calls (op_events h ops) = [].
Proof. rewrite <- calls_own, own_op_events. reflexivity. Qed.

Lemma runs_op_events (h : testing.T) (ops : list testing.op) :
  runs (op_events h ops) = [].
Proof. rewrite <- runs_own, own_op_events. reflexivity. Qed.

(** ** Suite code that stops *)

Section Steps.

Context {U : Type}.

Implicit Types (a b d g : go U) (o : object U).

Lemma seq_run a b o e1 o1 e2 o2 c2 :
  a o = (e1, o1, Return) -> b o1 = (e2, o2, c2) ->
  seq a b o = (e1 ++ e2, o2, c2).
Proof. intros Ea Eb. rewrite (seq_Return _ _ _ Ea), Eb. reflexivity. Qed.

Lemma defer_run d g o e1 o1 c1 e2 o2 c2 :
  g o = (e1, o1, c1) -> d o1 = (e2, o2, c2) ->
  (forall n, c1 <> Exit n) ->
  defer d g o = (e1 ++ e2, o2, match c2 with Return => c1 | _ => c2 end).
Proof.
  intros Eg Ed Hn. unfold defer. rewrite Eg.
  destruct c1; try (rewrite Ed; reflexivity).
  exfalso. apply (Hn status). reflexivity.
Qed.

End Steps.

(** X6. When [SetupSuite] does not return, whether it stops by [FailNow] or
    [SkipNow] or panics, [Run] ends there in the same way: [SetupSuite] is
    the only user code entered, no sub-test is started, [TearDownSuite] is
    not called, and the suite is left as [SetupSuite] left it, with
    [suiteT] as its handle. *)
Theorem SetupSuite_that_stops_ends_Run
        {U : Type} `{regexp.Lib} (matchMethod : string) (suiteT : testing.T)
        (suite : TestingSuite U) (o : object U) (f : code U) :
  SetupSuite suite = Some f ->
  ends (snd (f (fields o))) <> Return ->
  let r := Run matchMethod suiteT suite o in
  outcome r = ends (snd (f (fields o))) /\
  calls (trace r) = [SetupSuite_] /\
  runs (trace r) = [] /\
  count is_TearDownSuite (trace r) = 0 /\
  final r = mkObject (mkSuite (Some suiteT)) (fst (f (fields o))).
Proof.
  intros Ef Hs r. subst r. rewrite Run_eq, Ef. cbn [if_implements].
  set (o1 := mkObject (SetT (base o) suiteT) (fields o)).
  assert (E0 : setT suiteT o = ([E_SetT suiteT], o1, Return)) by reflexivity.
  assert (H1 : handle_is suiteT o1) by reflexivity.
  pose proof (invoke_eq SetupSuite_ f o1 H1) as E1.
  cbn [fields o1] in E1.
  rewrite (seq_Return _ _ _ E0).
  rewrite (seq_stop _ _ _ E1) by exact Hs.
  unfold trace, final, outcome. cbn [fst snd app].
  split; [reflexivity|]. split; [|split; [|split]].
  - cbn [calls]. rewrite calls_op_events. reflexivity.
  - cbn [runs]. rewrite runs_op_events. reflexivity.
  - rewrite <- count_own. cbn. rewrite own_op_events. reflexivity.
  - reflexivity.
Qed.

Lemma SetupSuite_that_stops_ends_Run_witness :
  let r := Run "" t0 SuiteSkipTester_suite (new (mkSuiteSkipTester 0 0)) in
  outcome r = Goexit /\
  calls (trace r) = [SetupSuite_] /\
  runs (trace r) = [] /\
  count is_TearDownSuite (trace r) = 0 /\
  final r = mkObject (mkSuite (Some t0)) (mkSuiteSkipTester 1 0).
Proof.
  apply (@SetupSuite_that_stops_ends_Run _ re2_Lib "" t0
           SuiteSkipTester_suite (new (mkSuiteSkipTester 0 0))
           sk_SetupSuite eq_refl).
  cbn. discriminate.
Defined.

Section Stops.

Context {U : Type} `{regexp.Lib}.

Variables (matchMethod : string) (suiteT : testing.T)
          (suite : TestingSuite U).

(** The sub-test of [m] when the hooks return: it ends as the method
    does, or by the Goexit of [Fatalf]. *)
Lemma subtest_outcome (m : Method U) (o : object U) :
  test_hooks_return suite ->
  exists u,
    outcome (subtest suiteT suite m (testing.Sub suiteT (Name m)) o)
    = if Nat.eqb (NumIn m) 1 then ends (snd (Func m u)) else Goexit.
Proof.
  intros (Hst & Htt & Hbt & Hat).
  set (testT := testing.Sub suiteT (Name m)).
  unfold subtest. fold testT.
  set (o1 := mkObject (SetT (base o) testT) (fields o)).
  assert (E0 : setT testT o = ([E_SetT testT], o1, Return)) by reflexivity.
  assert (H1 : handle_is testT o1) by reflexivity.
  destruct (hook_own (x := SetupTest suite) (fun f => f)
              SetupTest_ H1 Hst)
    as (tr1 & u1 & E1 & _).
  set (o2 := mkObject (base o1) u1) in *.
  assert (H2 : handle_is testT o2) by reflexivity.
  destruct (hook_own (x := BeforeTest suite)
              (fun f => f (ElemName suite) (Name m))
              (BeforeTest_ (ElemName suite) (Name m)) H2
              (fun f E => Hbt f _ _ E))
    as (tr2 & u2 & E2 & _).
  set (o3 := mkObject (base o2) u2) in *.
  assert (H3 : handle_is testT o3) by reflexivity.
  exists u2.
  set (body := if Nat.eqb (NumIn m) 1
               then invoke (Method_ (Name m)) (Func m)
               else Fatalf testT
                      ("suite: too many arguments to method " ++ Name m)%string).
  assert (Ebody : exists tr3 u3,
             body o3
             = (tr3, mkObject (base o3) u3,
                if Nat.eqb (NumIn m) 1 then ends (snd (Func m u2)) else Goexit)).
  { subst body. destruct (Nat.eqb (NumIn m) 1).
    - destruct (invoke_own (Method_ (Name m)) (Func m) H3)
        as (tr3 & u3 & E3 & _).
      exists tr3, u3. exact E3.
    - eexists _, (fields o3). unfold Fatalf. rewrite <- object_eta.
      reflexivity. }
  destruct Ebody as (tr3 & u3 & E3).
  set (o4 := mkObject (base o3) u3) in *.
  assert (H4 : handle_is testT o4) by reflexivity.
  destruct (hook_own (x := AfterTest suite)
              (fun f => f (ElemName suite) (Name m))
              (AfterTest_ (ElemName suite) (Name m)) H4
              (fun f E => Hat f _ _ E))
    as (tr4 & u4 & E4 & _).
  set (o5 := mkObject (base o4) u4) in *.
  assert (H5 : handle_is testT o5) by reflexivity.
  destruct (hook_own (x := TearDownTest suite) (fun f => f)
              TearDownTest_ H5 Htt)
    as (tr5 & u5 & E5 & _).
  rewrite (seq_Return _ _ _ E0).
  rewrite (seq_Return _ _ _ E1).
  rewrite (seq_Return _ _ _ E2).
  rewrite defer_eq. fold body. rewrite E3.
  rewrite (seq_Return _ _ _ E4).
  rewrite (seq_Return _ _ _ E5).
  unfold trace, final, outcome. cbn [fst snd setT].
  destruct (Nat.eqb (NumIn m) 1); [|reflexivity].
  destruct (ends (snd (Func m u2))); reflexivity.
Qed.

End Stops.

(** X7. In the sub-test of a selected method, a [SetupTest] that stops the
    test by [FailNow] or [SkipNow] is the only user code entered:
    [BeforeTest] and the method are not reached, and [AfterTest] and
    [TearDownTest] are not called either, their [defer] statement coming
    after the calls of [SetupTest] and [BeforeTest].  The loop of [Run]
    goes on, with the handle back at [suiteT]. *)
Theorem SetupTest_that_stops_skips_the_test
        {U : Type} `{regexp.Lib} (matchMethod : string) (suiteT : testing.T)
        (suite : TestingSuite U) (o : object U) (m : Method U) (f : code U) :
  methodFilter matchMethod (Name m) = (true, None) ->
  SetupTest suite = Some f ->
  ends (snd (f (fields o))) = Goexit ->
  let r := iteration matchMethod suiteT suite m o in
  outcome r = Return /\
  runs (trace r) = [Name m] /\
  calls (trace r) = [SetupTest_] /\
  final r = mkObject (mkSuite (Some suiteT)) (fst (f (fields o))).
Proof.
  intros Ef Es He r. subst r.
  rewrite (@iteration_selected _ _ matchMethod suiteT suite m o Ef). cbv zeta.
  set (testT := testing.Sub suiteT (Name m)).
  set (o1 := mkObject (SetT (base o) testT) (fields o)).
  assert (E0 : setT testT o = ([E_SetT testT], o1, Return)) by reflexivity.
  assert (H1 : handle_is testT o1) by reflexivity.
  pose proof (invoke_eq SetupTest_ f o1 H1) as E1.
  cbn [fields o1] in E1. rewrite He in E1.
  unfold subtest. rewrite Es. cbn [if_implements].
  rewrite (seq_Return _ _ _ E0).
  rewrite (seq_stop _ _ _ E1) by discriminate.
  unfold trace, final, outcome. cbn [fst snd app].
  split; [reflexivity|]. split; [|split; [|reflexivity]].
  - cbn [runs]. rewrite runs_app. cbn [runs].
    rewrite runs_op_events. reflexivity.
  - cbn [calls]. rewrite calls_app. cbn [calls].
    rewrite calls_op_events. reflexivity.
Qed.

Lemma SetupTest_that_stops_skips_the_test_witness :
  let r := iteration "" t0 SuiteTester_SetupTest_skips
             (mkMethod "TestOne" 1 st_TestOne) (new new_SuiteTester) in
  outcome r = Return /\
  runs (trace r) = ["TestOne"] /\
  calls (trace r) = [SetupTest_] /\
  final r
  = mkObject (mkSuite (Some t0)) (mkSuiteTester 0 0 1 0 0 0 0 [] [] [] []).
Proof.
  exact (@SetupTest_that_stops_skips_the_test _ re2_Lib "" t0
           SuiteTester_SetupTest_skips (new new_SuiteTester)
           (mkMethod "TestOne" 1 st_TestOne) st_SetupTest_skips
           eq_refl eq_refl eq_refl).
Defined.

(** X8. In the sub-test of a selected method, when [SetupTest] returns and
    [BeforeTest] stops the test by [FailNow] or [SkipNow], the method is
    not called, and neither are [AfterTest] and [TearDownTest]: the test
    has been set up and is not torn down.  The loop of [Run] goes on, with
    the handle back at [suiteT]. *)
Theorem BeforeTest_that_stops_skips_the_teardown
        {U : Type} `{regexp.Lib} (matchMethod : string) (suiteT : testing.T)
        (suite : TestingSuite U) (o : object U) (m : Method U)
        (f : string -> string -> code U) :
  methodFilter matchMethod (Name m) = (true, None) ->
  (forall g, SetupTest suite = Some g -> returns g) ->
  BeforeTest suite = Some f ->
  (forall u, ends (snd (f (ElemName suite) (Name m) u)) = Goexit) ->
  let r := iteration matchMethod suiteT suite m o in
  outcome r = Return /\
  runs (trace r) = [Name m] /\
  calls (trace r)
  = when_impl (SetupTest suite) SetupTest_
    ++ [BeforeTest_ (ElemName suite) (Name m)] /\
  T (base (final r)) = Some suiteT.
Proof.
  intros Ef Hst Eb He r. subst r.
  rewrite (@iteration_selected _ _ matchMethod suiteT suite m o Ef). cbv zeta.
  set (testT := testing.Sub suiteT (Name m)).
  set (o1 := mkObject (SetT (base o) testT) (fields o)).
  assert (E0 : setT testT o = ([E_SetT testT], o1, Return)) by reflexivity.
  assert (H1 : handle_is testT o1) by reflexivity.
  destruct (hook_own (x := SetupTest suite) (fun g => g)
              SetupTest_ H1 Hst)
    as (tr1 & u1 & E1 & W1).
  set (o2 := mkObject (base o1) u1) in *.
  assert (H2 : handle_is testT o2) by reflexivity.
  pose proof (invoke_eq (BeforeTest_ (ElemName suite) (Name m))
                (f (ElemName suite) (Name m)) o2 H2) as E2.
  rewrite He in E2.
  unfold subtest. rewrite Eb. cbn [if_implements].
  rewrite (seq_Return _ _ _ E0).
  rewrite (seq_Return _ _ _ E1).
  rewrite (seq_stop _ _ _ E2) by discriminate.
  unfold trace, final, outcome. cbn [fst snd app].
  split; [reflexivity|]. split; [|split; [|reflexivity]].
  - cbn [runs]. rewrite !runs_app. cbn [runs].
    rewrite runs_op_events, <- (runs_own tr1), W1, runs_when_impl.
    reflexivity.
  - cbn [calls]. rewrite !calls_app. cbn [calls].
    rewrite calls_op_events, <- (calls_own tr1), W1, calls_when_impl.
    rewrite app_nil_r. reflexivity.
Qed.

Lemma BeforeTest_that_stops_skips_the_teardown_witness :
  let r := iteration "" t0 SuiteTester_BeforeTest_fails
             (mkMethod "TestOne" 1 st_TestOne) (new new_SuiteTester) in
  outcome r = Return /\
  runs (trace r) = ["TestOne"] /\
  calls (trace r) = [SetupTest_; BeforeTest_ "SuiteTester" "TestOne"] /\
  T (base (final r)) = Some t0.
Proof.
  apply (@BeforeTest_that_stops_skips_the_teardown _ re2_Lib "" t0
           SuiteTester_BeforeTest_fails (new new_SuiteTester)
           (mkMethod "TestOne" 1 st_TestOne) st_BeforeTest_fails eq_refl).
  - intros g [= <-] u. reflexivity.
  - reflexivity.
  - intros u. reflexivity.
Defined.

(** X9. In the sub-test of a selected method that does not panic, when
    [SetupTest] and [BeforeTest] return and [AfterTest] stops the test by
    [FailNow] or [SkipNow], [TearDownTest] is not called: the deferred
    function ends with [AfterTest].  The loop of [Run] goes on, with the
    handle back at [suiteT]. *)
Theorem AfterTest_that_stops_skips_TearDownTest
        {U : Type} `{regexp.Lib} (matchMethod : string) (suiteT : testing.T)
        (suite : TestingSuite U) (o : object U) (m : Method U)
        (f : string -> string -> code U) :
  methodFilter matchMethod (Name m) = (true, None) ->
  never_panics (Func m) ->
  (forall g, SetupTest suite = Some g -> returns g) ->
  (forall g a b, BeforeTest suite = Some g -> returns (g a b)) ->
  AfterTest suite = Some f ->
  (forall u, ends (snd (f (ElemName suite) (Name m) u)) = Goexit) ->
  let r := iteration matchMethod suiteT suite m o in
  outcome r = Return /\
  calls (trace r)
  = when_impl (SetupTest suite) SetupTest_
    ++ when_impl (BeforeTest suite) (BeforeTest_ (ElemName suite) (Name m))
    ++ (if Nat.eqb (NumIn m) 1 then [Method_ (Name m)] else [])
    ++ [AfterTest_ (ElemName suite) (Name m)] /\
  T (base (final r)) = Some suiteT.
Proof.
  intros Ef Hnp Hst Hbt Ea He r. subst r.
  rewrite (@iteration_selected _ _ matchMethod suiteT suite m o Ef). cbv zeta.
  set (testT := testing.Sub suiteT (Name m)).
  set (o1 := mkObject (SetT (base o) testT) (fields o)).
  assert (E0 : setT testT o = ([E_SetT testT], o1, Return)) by reflexivity.
  assert (H1 : handle_is testT o1) by reflexivity.
  destruct (hook_own (x := SetupTest suite) (fun g => g)
              SetupTest_ H1 Hst)
    as (tr1 & u1 & E1 & W1).
  set (o2 := mkObject (base o1) u1) in *.
  assert (H2 : handle_is testT o2) by reflexivity.
  destruct (hook_own (x := BeforeTest suite)
              (fun g => g (ElemName suite) (Name m))
              (BeforeTest_ (ElemName suite) (Name m)) H2
              (fun g E => Hbt g _ _ E))
    as (tr2 & u2 & E2 & W2).
  set (o3 := mkObject (base o2) u2) in *.
  assert (H3 : handle_is testT o3) by reflexivity.
  set (body := if Nat.eqb (NumIn m) 1
               then invoke (Method_ (Name m)) (Func m)
               else Fatalf testT
                      ("suite: too many arguments to method " ++ Name m)%string).
  assert (Ebody : exists tr3 u3 k,
             body o3 = (tr3, mkObject (base o3) u3, k)
             /\ (k = Return \/ k = Goexit)
             /\ calls tr3
                = if Nat.eqb (NumIn m) 1 then [Method_ (Name m)] else []).
  { subst body. destruct (Nat.eqb (NumIn m) 1).
    - rewrite (invoke_eq (Method_ (Name m)) (Func m) o3 H3).
      eexists _, _, _. split; [reflexivity|]. split.
      + pose proof (Hnp (fields o3)) as Np.
        pose proof (@ends_not_Exit (snd (Func m (fields o3)))) as Ne.
        destruct (ends (snd (Func m (fields o3)))); auto;
          [contradiction | exfalso; eapply Ne; reflexivity].
      + cbn [calls]. rewrite calls_op_events. reflexivity.
    - exists [E_Fatalf testT
                ("suite: too many arguments to method " ++ Name m)%string],
             (fields o3), Goexit.
      unfold Fatalf. rewrite <- object_eta. auto. }
  destruct Ebody as (tr3 & u3 & k & E3 & Hk & W3).
  set (o4 := mkObject (base o3) u3) in *.
  assert (H4 : handle_is testT o4) by reflexivity.
  pose proof (invoke_eq (AfterTest_ (ElemName suite) (Name m))
                (f (ElemName suite) (Name m)) o4 H4) as E4.
  rewrite He in E4.
  assert (Ers : subtest suiteT suite m testT o
                = ([E_SetT testT] ++ tr1 ++ tr2 ++ tr3
                   ++ E_Call (Some testT)
                        (AfterTest_ (ElemName suite) (Name m))
                      :: op_events testT
                           (snd (f (ElemName suite) (Name m) (fields o4))),
                   mkObject (base o4)
                     (fst (f (ElemName suite) (Name m) (fields o4))),
                   Goexit)).
  { unfold subtest. rewrite Ea. cbn [if_implements]. fold testT body.
    eapply seq_run; [exact E0|].
    eapply seq_run; [exact E1|].
    eapply seq_run; [exact E2|].
    pose proof (seq_stop _
                  (if_implements (TearDownTest suite) (invoke TearDownTest_);;
                   setT suiteT) _ E4 ltac:(discriminate)) as Ed.
    erewrite defer_run
      by first [ exact E3 | exact Ed
               | destruct Hk as [-> | ->]; discriminate ].
    reflexivity. }
  rewrite Ers. unfold trace, final, outcome. cbn [fst snd].
  split; [reflexivity|]. split; [|reflexivity].
  cbn [calls app]. rewrite !calls_app. cbn [calls].
  rewrite calls_op_events, W3.
  rewrite <- (calls_own tr1), W1, <- (calls_own tr2), W2.
  rewrite !calls_when_impl, !app_nil_r. reflexivity.
Qed.

Lemma AfterTest_that_stops_skips_TearDownTest_witness :
  let r := iteration "" t0 SuiteTester_AfterTest_skips
             (mkMethod "TestOne" 1 st_TestOne) (new new_SuiteTester) in
  outcome r = Return /\
  calls (trace r)
  = [SetupTest_; BeforeTest_ "SuiteTester" "TestOne"; Method_ "TestOne";
     AfterTest_ "SuiteTester" "TestOne"] /\
  T (base (final r)) = Some t0.
Proof.
  apply (@AfterTest_that_stops_skips_TearDownTest _ re2_Lib "" t0
           SuiteTester_AfterTest_skips (new new_SuiteTester)
           (mkMethod "TestOne" 1 st_TestOne) st_AfterTest_skips eq_refl).
  - intros u. cbn. unfold assert_Equal. rewrite Z.eqb_refl. discriminate.
  - intros g [= <-] u. reflexivity.
  - intros g a b [= <-] u. reflexivity.
  - reflexivity.
  - intros u. reflexivity.
Defined.

(** ** A test that panics *)

Lemma runs_subtest_plan {U : Type} (suiteT : testing.T)
      (suite : TestingSuite U) (m : Method U) :
  runs (subtest_plan suiteT suite m) = [].
Proof.
  unfold subtest_plan. cbv zeta.
  destruct (SetupTest suite), (BeforeTest suite), (AfterTest suite),
    (TearDownTest suite), (Nat.eqb (NumIn m) 1); reflexivity.
Qed.

Lemma runs_flat_map_plan {U : Type} `{regexp.Lib} (matchMethod : string)
      (suiteT : testing.T) (suite : TestingSuite U) (l : list (Method U)) :
  compiles matchMethod ->
  runs (flat_map (iteration_plan matchMethod suiteT suite) l)
  = map (@Name U)
        (filter (fun m => fst (methodFilter matchMethod (Name m))) l).
Proof.
  intros (re & Hre).
  induction l as [|m l IH]; cbn [flat_map filter]; [reflexivity|].
  rewrite runs_app, IH. unfold iteration_plan.
  destruct (methodFilter matchMethod (Name m)) as [ok [err|]] eqn:Ef.
  { apply methodFilter_error in Ef. destruct Ef. congruence. }
  destruct ok; cbn [fst map]; [|reflexivity].
  cbn [runs]. rewrite runs_app, runs_subtest_plan. reflexivity.
Qed.

Section Panic.

Context {U : Type} `{regexp.Lib}.

Variables (matchMethod : string) (suiteT : testing.T)
          (suite : TestingSuite U).

(** The loop of [Run] stopped by a selected method that panics. *)
Lemma loop_panic (pre post : list (Method U)) (m : Method U) (o : object U) :
  methodFilter matchMethod (Name m) = (true, None) ->
  NumIn m = 1 ->
  (forall u, ends (snd (Func m u)) = Panic) ->
  test_hooks_return suite ->
  (forall x, In x pre -> never_panics (Func x)) ->
  outcome (for_each (pre ++ m :: post) (iteration matchMethod suiteT suite) o)
  = Exit 2 /\
  own (trace (for_each (pre ++ m :: post)
                       (iteration matchMethod suiteT suite) o))
  = flat_map (iteration_plan matchMethod suiteT suite) pre
    ++ E_Run suiteT (Name m) :: subtest_plan suiteT suite m.
Proof.
  intros Ef Hn Hp Hh Hb.
  assert (Hc : compiles matchMethod).
  { destruct (methodFilter_true _ _ Ef) as (_ & re & Hre & _).
    exists re. exact Hre. }
  destruct (@loop_own _ _ matchMethod suiteT suite pre Hh Hb Hc o) as [W1 K1].
  set (r1 := for_each pre (iteration matchMethod suiteT suite) o) in *.
  assert (Em : exists tr o',
             iteration matchMethod suiteT suite m (final r1)
             = (tr, o', Exit 2) /\
             own tr = E_Run suiteT (Name m) :: subtest_plan suiteT suite m).
  { rewrite (@iteration_selected _ _ matchMethod suiteT suite m (final r1) Ef).
    cbv zeta.
    destruct (@subtest_outcome _ suiteT suite m (final r1) Hh) as (u & Eo).
    rewrite Hn, Hp in Eo. cbn [Nat.eqb] in Eo. rewrite Eo.
    eexists _, _. split; [reflexivity|].
    cbn [own filter].
    fold (own (trace (subtest suiteT suite m
                        (testing.Sub suiteT (Name m)) (final r1)))).
    rewrite (@subtest_own _ suiteT suite m (final r1) Hh). reflexivity. }
  destruct Em as (tr & o' & Em & Wm).
  rewrite for_each_app, seq_eq. fold r1. rewrite K1.
  cbn [for_each]. rewrite (seq_stop _ _ _ Em) by discriminate.
  unfold trace, outcome in *. cbn [fst snd].
  split; [reflexivity|].
  rewrite own_app, W1, Wm. reflexivity.
Qed.

End Panic.

(** X10. A selected method that panics brings the process down with status 2
    once its [AfterTest] and [TearDownTest] have run: the methods that come
    after it in the method list are not run, and [TearDownSuite] is not
    called. *)
Theorem panic_in_a_test_ends_the_process
        {U : Type} `{regexp.Lib} (matchMethod : string) (suiteT : testing.T)
        (suite : TestingSuite U) (o : object U)
        (pre post : list (Method U)) (m : Method U) :
  Methods suite = pre ++ m :: post ->
  methodFilter matchMethod (Name m) = (true, None) ->
  NumIn m = 1 ->
  (forall u, ends (snd (Func m u)) = Panic) ->
  SetupSuite_returns suite ->
  test_hooks_return suite ->
  (forall x, In x pre -> never_panics (Func x)) ->
  let r := Run matchMethod suiteT suite o in
  let before :=
    filter (fun x => fst (methodFilter matchMethod (Name x))) pre in
  outcome r = Exit 2 /\
  runs (trace r) = map (@Name U) before ++ [Name m] /\
  calls (trace r)
  = when_impl (SetupSuite suite) SetupSuite_
    ++ flat_map (test_calls suite) before
    ++ test_calls suite m /\
  count is_TearDownSuite (trace r) = 0.
Proof.
  intros HM Ef Hn Hp Hss Hh Hb r before. subst r before.
  assert (Hc : compiles matchMethod).
  { destruct (methodFilter_true _ _ Ef) as (_ & re & Hre & _).
    exists re. exact Hre. }
  destruct (Run_parts matchMethod suiteT o Hss)
    as (tr1 & o2 & tr4 & Ho2 & W1 & W4 & Etr & Hexit & _).
  rewrite HM in Etr, Hexit.
  destruct (@loop_panic _ _ matchMethod suiteT suite pre post m o2
              Ef Hn Hp Hh Hb) as [Eo Wl].
  rewrite Eo in Etr.
  assert (Eown : own (trace (Run matchMethod suiteT suite o))
                 = [E_SetT suiteT]
                   ++ when_impl (SetupSuite suite)
                                (E_Call (Some suiteT) SetupSuite_)
                   ++ flat_map (iteration_plan matchMethod suiteT suite) pre
                   ++ E_Run suiteT (Name m) :: subtest_plan suiteT suite m).
  { rewrite Etr, !own_app, W1, Wl, app_nil_r. reflexivity. }
  split; [exact (Hexit _ Eo)|].
  split; [|split].
  - rewrite <- runs_own, Eown, !runs_app, runs_when_impl.
    rewrite (runs_flat_map_plan suiteT suite pre Hc).
    cbn [runs app]. rewrite runs_subtest_plan. reflexivity.
  - rewrite <- calls_own, Eown, !calls_app, calls_when_impl.
    rewrite (calls_flat_map_plan suiteT suite pre Hc).
    cbn [calls app]. rewrite calls_subtest_plan. reflexivity.
  - rewrite <- count_own, Eown, !count_app, count_when_impl.
    rewrite (@count_flat_map_plan _ _ matchMethod suiteT suite
               is_TearDownSuite 0 pre Hc).
    + change (E_Run suiteT (Name m) :: subtest_plan suiteT suite m)
        with ([E_Run suiteT (Name m)] ++ subtest_plan suiteT suite m).
      rewrite count_app.
      assert (K : count is_TearDownSuite (subtest_plan suiteT suite m) = 0).
      { unfold subtest_plan. cbv zeta.
        destruct (SetupTest suite), (BeforeTest suite), (AfterTest suite),
          (TearDownTest suite), (Nat.eqb (NumIn m) 1); reflexivity. }
      rewrite K. destruct (SetupSuite suite); reflexivity.
    + intros x. unfold subtest_plan. cbv zeta.
      destruct (SetupTest suite), (BeforeTest suite), (AfterTest suite),
        (TearDownTest suite), (Nat.eqb (NumIn x) 1); reflexivity.
Qed.

Lemma SuiteTester_hooks_return (suite : TestingSuite SuiteTester) :
  SetupTest suite = Some st_SetupTest ->
  TearDownTest suite = Some st_TearDownTest ->
  BeforeTest suite = Some st_BeforeTest ->
  AfterTest suite = Some st_AfterTest ->
  test_hooks_return suite.
Proof.
  intros E1 E2 E3 E4. split; [|split; [|split]].
  - intros f E u. rewrite E1 in E. injection E as <-. reflexivity.
  - intros f E u. rewrite E2 in E. injection E as <-. reflexivity.
  - intros f a b E u. rewrite E3 in E. injection E as <-. reflexivity.
  - intros f a b E u. rewrite E4 in E. injection E as <-. reflexivity.
Qed.

Lemma panic_in_a_test_ends_the_process_witness :
  let r := Run "" t0 SuiteTester_TestOne_panics (new new_SuiteTester) in
  outcome r = Exit 2 /\
  runs (trace r) = ["TestOne"] /\
  calls (trace r)
  = [SetupSuite_; SetupTest_; BeforeTest_ "SuiteTester" "TestOne";
     Method_ "TestOne"; AfterTest_ "SuiteTester" "TestOne"; TearDownTest_] /\
  count is_TearDownSuite (trace r) = 0.
Proof.
  apply (@panic_in_a_test_ends_the_process _ re2_Lib "" t0
           SuiteTester_TestOne_panics (new new_SuiteTester)
           (firstn 9 (Methods SuiteTester_TestOne_panics))
           (skipn 10 (Methods SuiteTester_TestOne_panics))
           (mkMethod "TestOne" 1 st_TestOne_panics)
           eq_refl eq_refl eq_refl).
  - intros u. reflexivity.
  - intros f [= <-] u. reflexivity.
  - apply SuiteTester_hooks_return; reflexivity.
  - intros x Hx u. cbn in Hx.
    repeat (destruct Hx as [<-|Hx]; [cbn; discriminate|]). destruct Hx.
Defined.

(** ** Tests that fail *)

(** X11. Tests that fail, that stop by [FailNow] or that skip do not stop
    [Run]: when the pattern compiles, the two suite hooks return and
    nothing inside a sub-test panics, [Run] returns to its caller, with
    [suiteT] as the suite's handle. *)
Theorem Run_returns_whatever_the_tests_do
        {U : Type} `{regexp.Lib} (matchMethod : string) (suiteT : testing.T)
        (suite : TestingSuite U) (o : object U) :
  compiles matchMethod ->
  SetupSuite_returns suite ->
  TearDownSuite_returns suite ->
  tests_never_panic suite ->
  outcome (Run matchMethod suiteT suite o) = Return /\
  T (base (final (Run matchMethod suiteT suite o))) = Some suiteT.
Proof.
  intros Hc Hss Hts [Hh Hb].
  destruct (Run_parts matchMethod suiteT o Hss)
    as (tr1 & o2 & tr4 & _ & _ & _ & _ & _ & Hret).
  destruct (@loop_runs _ _ matchMethod suiteT suite (Methods suite) Hh Hb Hc o2)
    as [_ Eo].
  pose proof (Hret Eo Hts) as Er.
  split; [exact Er|].
  destruct (@Run_hoare _ _ matchMethod suiteT suite o I) as [_ [Hpost _]].
  apply Hpost. rewrite Er. discriminate.
Qed.

Lemma Run_returns_whatever_the_tests_do_witness :
  outcome (Run "" t0 SuiteLoggingTester_suite (new tt)) = Return /\
  T (base (final (Run "" t0 SuiteLoggingTester_suite (new tt)))) = Some t0 /\
  In (E_Fail (testing.Sub t0 "TestLoggingFail"))
     (trace (Run "" t0 SuiteLoggingTester_suite (new tt))).
Proof.
  assert (K : outcome (Run "" t0 SuiteLoggingTester_suite (new tt)) = Return /\
              T (base (final (Run "" t0 SuiteLoggingTester_suite (new tt))))
              = Some t0).
  { apply (@Run_returns_whatever_the_tests_do _ re2_Lib "" t0
             SuiteLoggingTester_suite (new tt)).
    - exists re2.Eps. reflexivity.
    - intros f [=].
    - intros f [=].
    - split.
      + repeat split; intros f; intros; discriminate.
      + intros m Hm u. cbn in Hm.
        repeat (destruct Hm as [<-|Hm]; [cbn; discriminate|]). destruct Hm. }
  destruct K as [K1 K2].
  split; [exact K1|]. split; [exact K2|].
  cbn. auto 10.
Defined.

(** ** The order of a run *)

Lemma loop_event_test_calls {U : Type} `{regexp.Lib} (matchMethod : string)
      (suiteT : testing.T) (suite : TestingSuite U) (l : list (Method U))
      (tr : list event) :
  Forall (loop_event matchMethod suiteT suite l) tr ->
  Forall (fun c => is_test_call c = true) (calls tr).
Proof.
  induction 1 as [|e tr He _ IH]; [constructor|].
  destruct e as [ | cur c | | | | | | | ]; cbn [calls]; auto.
  constructor; [|exact IH].
  destruct He
    as (x & _ & [(_ & [(_ & Hc) | [E | E]]) | (err & _ & _ & [E | E])]);
    try discriminate.
  destruct Hc as [-> | [-> | [-> | [-> | (-> & _)]]]]; reflexivity.
Qed.

(** X12. Every run is made of three parts that follow one another: first the
    handle is set and [SetupSuite], if the suite implements it, is called;
    then come the sub-tests, and inside them calls of the hooks around a
    test and of the tests and no call of a suite hook; last, the handle is
    set again and [TearDownSuite] called, or nothing at all.  So
    [SetupSuite] is entered before any sub-test is started, [TearDownSuite]
    after the last of them has ended, and no sub-test is started outside
    the second part.  This holds however the suite code behaves. *)
Theorem Run_in_three_parts
        {U : Type} `{regexp.Lib} (matchMethod : string) (suiteT : testing.T)
        (suite : TestingSuite U) (o : object U) :
  exists setup tests teardown,
    trace (Run matchMethod suiteT suite o) = setup ++ tests ++ teardown /\
    calls setup = when_impl (SetupSuite suite) SetupSuite_ /\
    runs setup = [] /\
    Forall (fun c => is_test_call c = true) (calls tests) /\
    (calls teardown = [] \/ calls teardown = [TearDownSuite_]) /\
    runs teardown = [].
Proof.
  rewrite Run_eq.
  set (loop := for_each (Methods suite) (iteration matchMethod suiteT suite)).
  set (o1 := mkObject (SetT (base o) suiteT) (fields o)).
  assert (E0 : setT suiteT o = ([E_SetT suiteT], o1, Return)) by reflexivity.
  assert (H1 : handle_is suiteT o1) by reflexivity.
  destruct (hook_any_own (SetupSuite suite) (fun f => f) SetupSuite_ H1)
    as (tr1 & u1 & k1 & E1 & W1 & _).
  change (if_implements (SetupSuite suite) (invoke SetupSuite_) o1
          = (tr1, mkObject (base o1) u1, k1)) in E1.
  assert (C1 : calls ([E_SetT suiteT] ++ tr1)
               = when_impl (SetupSuite suite) SetupSuite_).
  { cbn [app calls]. rewrite <- calls_own, W1. apply calls_when_impl. }
  assert (R1 : runs ([E_SetT suiteT] ++ tr1) = []).
  { cbn [app runs]. rewrite <- runs_own, W1. apply runs_when_impl. }
  rewrite (seq_Return _ _ _ E0).
  destruct k1.
  2-4: exists ([E_SetT suiteT] ++ tr1), [], [];
       rewrite (seq_stop _ _ _ E1) by discriminate;
       unfold trace; cbn [fst snd];
       rewrite !app_nil_r; repeat split; auto; constructor.
  set (o2 := mkObject (base o1) u1) in *.
  assert (H2 : handle_is suiteT o2) by reflexivity.
  destruct (@loop_hoare _ _ matchMethod suiteT suite (Methods suite) o2 H2)
    as [Hev _].
  fold loop in Hev.
  set (o3 := final (loop o2)).
  set (o4 := mkObject (SetT (base o3) suiteT) (fields o3)).
  assert (E3 : setT suiteT o3 = ([E_SetT suiteT], o4, Return))
    by reflexivity.
  assert (H4 : handle_is suiteT o4) by reflexivity.
  destruct (hook_any_own (TearDownSuite suite) (fun f => f)
              TearDownSuite_ H4)
    as (tr4 & u4 & k & E4 & W4 & _).
  change (if_implements (TearDownSuite suite) (invoke TearDownSuite_) o4
          = (tr4, mkObject (base o4) u4, k)) in E4.
  assert (C4 : calls ([E_SetT suiteT] ++ tr4) = []
               \/ calls ([E_SetT suiteT] ++ tr4) = [TearDownSuite_]).
  { cbn [app calls]. rewrite <- calls_own, W4, calls_when_impl.
    destruct (TearDownSuite suite); auto. }
  assert (R4 : runs ([E_SetT suiteT] ++ tr4) = []).
  { cbn [app runs]. rewrite <- runs_own, W4. apply runs_when_impl. }
  rewrite (seq_Return _ _ _ E1).
  rewrite defer_eq. fold o3.
  rewrite (seq_Return _ _ _ E3), E4.
  exists ([E_SetT suiteT] ++ tr1), (trace (loop o2)),
         (match outcome (loop o2) with
          | Exit _ => []
          | _ => [E_SetT suiteT] ++ tr4
          end).
  split.
  { destruct (outcome (loop o2)); unfold trace; cbn [fst snd];
      rewrite <- ?app_assoc, ?app_nil_r; reflexivity. }
  split; [exact C1|]. split; [exact R1|].
  split; [exact (loop_event_test_calls Hev)|].
  destruct (outcome (loop o2)); auto.
Qed.

(** ** The whole sequence of calls *)

Lemma names_flat_map_test_calls {U : Type} (suite : TestingSuite U)
      (p : call -> list string) (k : Method U -> list string)
      (l : list (Method U)) :
  (forall m, flat_map p (test_calls suite m) = k m) ->
  flat_map p (flat_map (test_calls suite) l) = flat_map k l.
Proof.
  intros Hk. induction l as [|m l IH]; [reflexivity|].
  cbn [flat_map]. rewrite flat_map_app, Hk, IH. reflexivity.
Qed.

Lemma flat_map_singleton (A B : Type) (f : A -> B) (l : list A) :
  flat_map (fun x => [f x]) l = map f l.
Proof. induction l as [|x l IH]; cbn; congruence. Qed.

Lemma flat_map_nil (A B : Type) (l : list A) :
  flat_map (fun _ : A => @nil B) l = [].
Proof. induction l as [|x l IH]; cbn; auto. Qed.

(** X13. In a run that goes through the whole method list with the hooks
    around the tests returning, the user code entered is, in this order:
    [SetupSuite]; for each selected method, in the order of the method
    list, [SetupTest], [BeforeTest], the method, [AfterTest],
    [TearDownTest]; and [TearDownSuite].  [BeforeTest] and [AfterTest] are
    given the same test names in the same order, those of the selected
    methods. *)
Theorem Run_call_sequence
        {U : Type} `{regexp.Lib} (matchMethod : string) (suiteT : testing.T)
        (suite : TestingSuite U) (o : object U) :
  compiles matchMethod ->
  SetupSuite_returns suite ->
  test_hooks_return suite ->
  (forall x, In x (Methods suite) -> never_panics (Func x)) ->
  let tr := trace (Run matchMethod suiteT suite o) in
  calls tr
  = when_impl (SetupSuite suite) SetupSuite_
    ++ flat_map (test_calls suite) (selected matchMethod suite)
    ++ when_impl (TearDownSuite suite) TearDownSuite_ /\
  BeforeTest_names tr
  = match BeforeTest suite with
    | Some _ => map (@Name U) (selected matchMethod suite)
    | None => []
    end /\
  AfterTest_names tr
  = match AfterTest suite with
    | Some _ => map (@Name U) (selected matchMethod suite)
    | None => []
    end.
Proof.
  intros Hc Hss Hh Hb tr. subst tr.
  destruct (@Run_own _ _ matchMethod suiteT suite o Hss Hh Hb Hc) as [Eown _].
  assert (Ec : calls (trace (Run matchMethod suiteT suite o))
               = when_impl (SetupSuite suite) SetupSuite_
                 ++ flat_map (test_calls suite) (selected matchMethod suite)
                 ++ when_impl (TearDownSuite suite) TearDownSuite_).
  { rewrite <- calls_own, Eown. unfold Run_plan.
    rewrite !calls_app, !calls_when_impl.
    rewrite (calls_flat_map_plan suiteT suite (Methods suite) Hc).
    reflexivity. }
  split; [exact Ec|].
  unfold BeforeTest_names, AfterTest_names. rewrite Ec, !flat_map_app.
  split.
  - rewrite (names_flat_map_test_calls suite _
               (fun m => match BeforeTest suite with
                         | Some _ => [Name m]
                         | None => []
                         end)).
    + destruct (SetupSuite suite), (TearDownSuite suite),
        (BeforeTest suite); cbn [when_impl flat_map app];
        rewrite ?app_nil_r, ?flat_map_singleton, ?flat_map_nil; reflexivity.
    + intros m. unfold test_calls.
      destruct (SetupTest suite), (BeforeTest suite), (AfterTest suite),
        (TearDownTest suite), (Nat.eqb (NumIn m) 1); reflexivity.
  - rewrite (names_flat_map_test_calls suite _
               (fun m => match AfterTest suite with
                         | Some _ => [Name m]
                         | None => []
                         end)).
    + destruct (SetupSuite suite), (TearDownSuite suite),
        (AfterTest suite); cbn [when_impl flat_map app];
        rewrite ?app_nil_r, ?flat_map_singleton, ?flat_map_nil; reflexivity.
    + intros m. unfold test_calls.
      destruct (SetupTest suite), (BeforeTest suite), (AfterTest suite),
        (TearDownTest suite), (Nat.eqb (NumIn m) 1); reflexivity.
Qed.

Lemma SuiteTester_methods_never_panic (x : Method SuiteTester) :
  In x (Methods SuiteTester_suite) -> never_panics (Func x).
Proof.
  intros Hx u. cbn in Hx.
  repeat (destruct Hx as [<-|Hx]; [cbn; try discriminate|]);
    try destruct Hx.
  - unfold assert_Equal. rewrite Z.eqb_refl. discriminate.
  - unfold assert_NotEqual.
    destruct (Z.eqb_spec (TestTwoRunCount u + 1) (TestTwoRunCount u));
      [lia | discriminate].
Qed.

Lemma Run_call_sequence_witness :
  let tr := trace (Run "" t0 SuiteTester_suite (new new_SuiteTester)) in
  calls tr
  = [SetupSuite_;
     SetupTest_; BeforeTest_ "SuiteTester" "TestOne"; Method_ "TestOne";
     AfterTest_ "SuiteTester" "TestOne"; TearDownTest_;
     SetupTest_; BeforeTest_ "SuiteTester" "TestSkip"; Method_ "TestSkip";
     AfterTest_ "SuiteTester" "TestSkip"; TearDownTest_;
     SetupTest_; BeforeTest_ "SuiteTester" "TestTwo"; Method_ "TestTwo";
     AfterTest_ "SuiteTester" "TestTwo"; TearDownTest_;
     TearDownSuite_] /\
  BeforeTest_names tr = ["TestOne"; "TestSkip"; "TestTwo"] /\
  AfterTest_names tr = ["TestOne"; "TestSkip"; "TestTwo"].
Proof.
  apply (@Run_call_sequence _ re2_Lib "" t0 SuiteTester_suite
           (new new_SuiteTester)).
  - exists re2.Eps. reflexivity.
  - intros f [= <-] u. reflexivity.
  - apply SuiteTester_hooks_return; reflexivity.
  - exact SuiteTester_methods_never_panic.
Defined.

(** ** The counts of the hooks, on the suites of the tests *)

Lemma suite_hooks_once_witness :
  count is_SetupSuite
        (trace (Run "" t0 SuiteLoggingTester_suite (new tt))) = 0 /\
  count is_TearDownSuite
        (trace (Run "" t0 SuiteLoggingTester_suite (new tt))) = 0 /\
  count is_SetupSuite
        (trace (Run "One" t0 SuiteTester_suite (new new_SuiteTester))) = 1 /\
  count is_TearDownSuite
        (trace (Run "One" t0 SuiteTester_suite (new new_SuiteTester))) = 1.
Proof.
  assert (K1 : tests_never_panic SuiteLoggingTester_suite).
  { split.
    - repeat split; intros f; intros; discriminate.
    - intros m Hm u. cbn in Hm.
      repeat (destruct Hm as [<-|Hm]; [cbn; discriminate|]). destruct Hm. }
  assert (K2 : tests_never_panic SuiteTester_suite).
  { split; [|exact SuiteTester_methods_never_panic].
    apply test_hooks_return_never_panic.
    apply SuiteTester_hooks_return; reflexivity. }
  assert (S1 : SetupSuite_returns SuiteLoggingTester_suite)
    by (intros f [=]).
  assert (S2 : SetupSuite_returns SuiteTester_suite)
    by (intros f [= <-] u; reflexivity).
  destruct (@suite_hooks_once _ re2_Lib "" t0 SuiteLoggingTester_suite
              (new tt) (ex_intro _ _ eq_refl) S1 K1) as [A1 A2].
  destruct (@suite_hooks_once _ re2_Lib "One" t0 SuiteTester_suite
              (new new_SuiteTester) (ex_intro _ _ eq_refl) S2 K2) as [B1 B2].
  exact (conj A1 (conj A2 (conj B1 B2))).
Defined.

Lemma test_hooks_N_times_witness :
  let tr := trace (Run "" t0 SuiteTester_suite (new new_SuiteTester)) in
  count is_SetupTest tr = 3 /\
  count is_BeforeTest tr = 3 /\
  count is_AfterTest tr = 3 /\
  count is_TearDownTest tr = 3.
Proof.
  apply (@test_hooks_N_times _ re2_Lib "" t0 SuiteTester_suite
           (new new_SuiteTester)).
  - exists re2.Eps. reflexivity.
  - intros f [= <-] u. reflexivity.
  - apply SuiteTester_hooks_return; reflexivity.
  - exact SuiteTester_methods_never_panic.
Defined.

(** ** The methods a run depends on *)

Section Depends.

Context {U : Type} `{regexp.Lib}.

Variables (matchMethod : string) (suiteT : testing.T)
          (suite : TestingSuite U).

Lemma for_each_ext (A : Type) (l : list A) (f g : A -> go U) :
  (forall x, In x l -> forall o, f x o = g x o) ->
  forall o, for_each l f o = for_each l g o.
Proof.
  induction l as [|x l IH]; intros E o; cbn [for_each]; [reflexivity|].
  rewrite seq_eq, (seq_eq (g x)), (E x (or_introl eq_refl)).
  rewrite !IH by (intros y Hy; apply E; now right). reflexivity.
Qed.

(** The turns of the loop that do nothing can be left out. *)
Lemma for_each_filter (A : Type) (keep : A -> bool) (l : list A)
      (f : A -> go U) :
  (forall x, In x l -> keep x = false -> forall o, f x o = ([], o, Return)) ->
  forall o, for_each l f o = for_each (filter keep l) f o.
Proof.
  induction l as [|x l IH]; intros E o; cbn [for_each filter]; [reflexivity|].
  assert (E' : forall y, In y l -> keep y = false ->
                         forall o, f y o = ([], o, Return))
    by (intros y Hy; apply E; now right).
  destruct (keep x) eqn:Ek; cbn [for_each].
  - apply seq_ext. intros o'. apply IH. exact E'.
  - rewrite (seq_Return _ _ _ (E x (or_introl eq_refl) Ek o)).
    rewrite <- (IH E' o). cbn [app]. symmetry. apply result_eta.
Qed.

Lemma Run_with_methods (l : list (Method U)) (pattern : string) :
  (forall o, for_each (Methods suite) (iteration matchMethod suiteT suite) o
             = for_each l (iteration pattern suiteT suite) o) ->
  forall o, Run matchMethod suiteT suite o
            = Run pattern suiteT (with_methods suite l) o.
Proof.
  intros E o. rewrite !Run_eq.
  apply seq_ext. intros o1. apply seq_ext. intros o2.
  rewrite !defer_eq. cbn [Methods with_methods].
  change (iteration pattern suiteT (with_methods suite l))
    with (iteration pattern suiteT suite).
  rewrite E. reflexivity.
Qed.

End Depends.

(** X14. A run depends on the methods the filter selects and on no other: with
    the methods whose names do not begin with [Test] taken out of the
    method list, [Run] logs the same events, leaves the same suite value
    and ends in the same way, whatever the pattern; and when the pattern
    compiles, so does [Run] with the empty pattern on the suite reduced to
    the selected methods. *)
Theorem Run_depends_on_the_selected_methods_only
        {U : Type} `{regexp.Lib} (matchMethod : string) (suiteT : testing.T)
        (suite : TestingSuite U) (o : object U) :
  Run matchMethod suiteT suite o
  = Run matchMethod suiteT
        (with_methods suite
           (filter (fun m => prefix "Test" (Name m)) (Methods suite))) o /\
  (compiles matchMethod ->
   Run matchMethod suiteT suite o
   = Run "" suiteT (with_methods suite (selected matchMethod suite)) o).
Proof.
  split.
  - apply Run_with_methods. apply for_each_filter.
    intros m _ Hp o'. unfold iteration.
    rewrite methodFilter_eq, Hp. reflexivity.
  - intros (re & Hre). apply Run_with_methods. intros o'.
    unfold selected.
    rewrite (for_each_filter
               (fun m => fst (methodFilter matchMethod (Name m)))).
    + apply for_each_ext. intros m Hm o''.
      apply filter_In in Hm. destruct Hm as [_ Hs].
      rewrite (methodFilter_compiled _ _ Hre) in Hs. cbn [fst] in Hs.
      apply andb_true_iff in Hs. destruct Hs as [Hp Hma].
      unfold iteration.
      rewrite (methodFilter_compiled _ _ Hre), Hp, Hma.
      rewrite methodFilter_eq, Hp, MatchString_empty. reflexivity.
    + intros m _ Hs o''. unfold iteration.
      rewrite (methodFilter_compiled _ _ Hre) in *. cbn [fst] in Hs.
      rewrite Hs. reflexivity.
Qed.
